(** * Xray dashboard backend: configuration manager, request models, handlers

    A shallow embedding of [backend/config_manager.py], [backend/models.py]
    and the profile handlers of [backend/main.py].

    - JSON documents are the values [json.loads] produces: [json] below, with
      objects kept as association lists in insertion order.
    - Python exceptions are the constructors of [exn]; code that can raise
      returns [res A].
    - Code that touches the file system, spawns a process or takes the
      [asyncio.Lock] lives in the monad [M], a state-and-exception monad over
      [World]; every file and process action is logged together with the state
      of the lock at that moment.
    - A [bytes] value is a [string] (a sequence of 8-bit characters), and a
      [str] is kept as the [string] of its UTF-8 encoding. Where the code
      splits text at white space, the text is decoded to its code points
      first ([utf8_decode], [isspace]). [lower] and [strip] act on the ASCII
      range: the protocol name is only compared with ASCII literals once
      lower-cased, and the statements about the label sanitizer are made for
      ASCII labels ([isascii]). *)

From Stdlib Require Import ZArith NArith String Ascii List Bool Lia.
From stdpp Require Import base option list gmap strings pretty.

Local Open Scope string_scope.
Local Open Scope Z_scope.
Set Warnings "-register-all".

(** ** Python values and exceptions *)

Inductive json : Type :=
| JNull
| JBool (b : bool)
| JInt (z : Z)
| JFloat (repr : string)
| JStr (s : string)
| JList (l : list json)
| JDict (d : list (string * json)).

Inductive exn : Type :=
| FileNotFoundError (msg : string)
| JSONDecodeError
| UnicodeDecodeError
| KeyError (key : string)
| IndexError
| TypeError
| AttributeError
| ValueError (msg : string)
| ValidationError (field : string)
| OSError (msg : string)
| SameFileError
| DiscoveryFailure (msg : string).

Inductive res (A : Type) : Type :=
| Ok (a : A)
| Err (e : exn).
Arguments Ok {A} a.
Arguments Err {A} e.

Definition rbind {A B} (r : res A) (f : A -> res B) : res B :=
  match r with
  | Ok a => f a
  | Err e => Err e
  end.

Declare Scope res_scope.
Delimit Scope res_scope with res.
Notation "'let?' x ':=' r 'in' k" := (rbind r (fun x => k))
  (at level 10, x name, r at level 100, k at level 200) : res_scope.
Local Open Scope res_scope.

(** *** Strings *)

Definition is_upper (c : ascii) : bool :=
  let n := nat_of_ascii c in (65 <=? n)%nat && (n <=? 90)%nat.

Definition lower_ascii (c : ascii) : ascii :=
  if is_upper c then ascii_of_nat (nat_of_ascii c + 32) else c.

(** [str.lower()] *)
Fixpoint lower (s : string) : string :=
  match s with
  | EmptyString => EmptyString
  | String c s' => String (lower_ascii c) (lower s')
  end.

(** White space as [str.strip()] sees it, in the ASCII range. *)
Definition is_space (c : ascii) : bool :=
  let n := nat_of_ascii c in
  ((9 <=? n)%nat && (n <=? 13)%nat) || ((28 <=? n)%nat && (n <=? 32)%nat).

Fixpoint all_space (s : string) : bool :=
  match s with
  | EmptyString => true
  | String c s' => is_space c && all_space s'
  end.

(** [s.isascii()] *)
Fixpoint isascii (s : string) : bool :=
  match s with
  | EmptyString => true
  | String c s' => (nat_of_ascii c <? 128)%nat && isascii s'
  end.

Fixpoint lstrip (s : string) : string :=
  match s with
  | EmptyString => EmptyString
  | String c s' => if is_space c then lstrip s' else s
  end.

Fixpoint rstrip (s : string) : string :=
  match s with
  | EmptyString => EmptyString
  | String c s' => if all_space s then EmptyString else String c (rstrip s')
  end.

(** [s.strip()] *)
Definition strip (s : string) : string := rstrip (lstrip s).

(** [needle in s] *)
Fixpoint contains (needle s : string) : bool :=
  String.prefix needle s ||
  match s with
  | EmptyString => false
  | String _ s' => contains needle s'
  end.

(** *** Text as code points

    [bytes.decode()] reads well-formed UTF-8 and nothing else: no overlong
    form, no surrogate, nothing above U+10FFFF. *)

Definition in_range (lo hi n : N) : bool := (lo <=? n)%N && (n <=? hi)%N.

(** The payload of a continuation byte that lies within [lo..hi]. *)
Definition trail (lo hi : N) (c : ascii) : option N :=
  let n := N_of_ascii c in
  if in_range lo hi n then Some (n - 0x80)%N else None.

(** [b.decode()]; None is [UnicodeDecodeError]. *)
Fixpoint utf8_decode (s : string) : option (list N) :=
  match s with
  | EmptyString => Some []
  | String c0 s1 =>
      let n0 := N_of_ascii c0 in
      if (n0 <? 0x80)%N then
        match utf8_decode s1 with
        | Some text => Some (n0 :: text)
        | None => None
        end
      else if in_range 0xC2 0xDF n0 then
        match s1 with
        | String c1 s2 =>
            match trail 0x80 0xBF c1, utf8_decode s2 with
            | Some x1, Some text => Some (((n0 - 0xC0) * 64 + x1)%N :: text)
            | _, _ => None
            end
        | _ => None
        end
      else if in_range 0xE0 0xEF n0 then
        match s1 with
        | String c1 (String c2 s3) =>
            match trail (if (n0 =? 0xE0)%N then 0xA0 else 0x80)
                        (if (n0 =? 0xED)%N then 0x9F else 0xBF) c1,
                  trail 0x80 0xBF c2, utf8_decode s3 with
            | Some x1, Some x2, Some text =>
                Some (((n0 - 0xE0) * 4096 + x1 * 64 + x2)%N :: text)
            | _, _, _ => None
            end
        | _ => None
        end
      else if in_range 0xF0 0xF4 n0 then
        match s1 with
        | String c1 (String c2 (String c3 s4)) =>
            match trail (if (n0 =? 0xF0)%N then 0x90 else 0x80)
                        (if (n0 =? 0xF4)%N then 0x8F else 0xBF) c1,
                  trail 0x80 0xBF c2, trail 0x80 0xBF c3, utf8_decode s4 with
            | Some x1, Some x2, Some x3, Some text =>
                Some (((n0 - 0xF0) * 262144 + x1 * 4096 + x2 * 64 + x3)%N :: text)
            | _, _, _, _ => None
            end
        | _ => None
        end
      else None
  end.

(** The UTF-8 encoding of one code point, and of a text. *)
Definition utf8_encode_char (c : N) : string :=
  let byte (n : N) := String (ascii_of_N n) in
  if (c <? 0x80)%N then byte c ""
  else if (c <? 0x800)%N then
    byte (0xC0 + c / 64)%N (byte (0x80 + c mod 64)%N "")
  else if (c <? 0x10000)%N then
    byte (0xE0 + c / 4096)%N
      (byte (0x80 + (c / 64) mod 64)%N (byte (0x80 + c mod 64)%N ""))
  else
    byte (0xF0 + c / 262144)%N
      (byte (0x80 + (c / 4096) mod 64)%N
         (byte (0x80 + (c / 64) mod 64)%N (byte (0x80 + c mod 64)%N ""))).

Fixpoint utf8_encode (text : list N) : string :=
  match text with
  | [] => ""
  | c :: text' => utf8_encode_char c ++ utf8_encode text'
  end.

(** White space as [str.split()] sees it: the code points for which
    [str.isspace()] holds. *)
Definition isspace (c : N) : bool :=
  in_range 0x09 0x0D c || in_range 0x1C 0x20 c || (c =? 0x85)%N || (c =? 0xA0)%N ||
  (c =? 0x1680)%N || in_range 0x2000 0x200A c || (c =? 0x2028)%N || (c =? 0x2029)%N ||
  (c =? 0x202F)%N || (c =? 0x205F)%N || (c =? 0x3000)%N.

(** [text.split()]: the maximal runs of code points that are not white
    space, in order. [cur] is the run being read. *)
Fixpoint split_ws (cur text : list N) : list (list N) :=
  match text with
  | [] => match cur with [] => [] | _ => [cur] end
  | c :: text' =>
      if isspace c then
        match cur with
        | [] => split_ws [] text'
        | _ => cur :: split_ws [] text'
        end
      else split_ws (cur ++ [c]) text'
  end.

(** [text.split("\n")[0]]: the text before the first line feed. *)
Fixpoint first_line (text : list N) : list N :=
  match text with
  | [] => []
  | c :: text' => if (c =? 0x0A)%N then [] else c :: first_line text'
  end.

(** [s.split()] on a [str] kept as UTF-8. *)
Definition py_split (s : string) : list string :=
  match utf8_decode s with
  | Some text => map utf8_encode (split_ws [] text)
  | None => []
  end.

(** *** Dictionaries, lists, indexing *)

Fixpoint assoc (k : string) (d : list (string * json)) : option json :=
  match d with
  | [] => None
  | (k', v) :: d' => if String.eqb k' k then Some v else assoc k d'
  end.

(** [d[k] = v]: the value is replaced where the key already sits, and a new
    key goes to the end. *)
Fixpoint dict_set (k : string) (v : json) (d : list (string * json))
  : list (string * json) :=
  match d with
  | [] => [(k, v)]
  | (k', v') :: d' =>
      if String.eqb k' k then (k', v) :: d' else (k', v') :: dict_set k v d'
  end.

(** [x.get(k, dflt)]: only a dict has [get]. *)
Definition py_get (x : json) (k : string) (dflt : json) : res json :=
  match x with
  | JDict d => Ok (default dflt (assoc k d))
  | _ => Err AttributeError
  end.

(** [x[k]] with a string key. *)
Definition py_getitem (x : json) (k : string) : res json :=
  match x with
  | JDict d =>
      match assoc k d with
      | Some v => Ok v
      | None => Err (KeyError k)
      end
  | _ => Err TypeError
  end.

(** [x[0]]: first element of a list, first character of a string; a dict
    from JSON has only string keys, so [0] is never one of them. *)
Definition py_getitem0 (x : json) : res json :=
  match x with
  | JList (v :: _) => Ok v
  | JList [] => Err IndexError
  | JStr (String c _) => Ok (JStr (String c EmptyString))
  | JStr EmptyString => Err IndexError
  | JDict _ => Err (KeyError "0")
  | _ => Err TypeError
  end.

(** [x == "literal"] *)
Definition eq_str (x : json) (s : string) : bool :=
  match x with
  | JStr t => String.eqb t s
  | _ => false
  end.

(** [x.lower()]: only [str] has it. *)
Definition py_lower (x : json) : res string :=
  match x with
  | JStr s => Ok (lower s)
  | _ => Err AttributeError
  end.

(** ** models.py: the closed vocabularies *)

Inductive ProtocolType : Type :=
| VLESS_WS | VLESS_XHTTP | VLESS_REALITY | VMESS_WS | TROJAN_XTLS.

Inductive TransportType : Type := TCP | WS | XHTTP | GRPC | QUIC.

Inductive SecurityType : Type := NONE | TLS | REALITY | XTLS.

Definition ProtocolType_value (p : ProtocolType) : string :=
  match p with
  | VLESS_WS => "vless_ws"
  | VLESS_XHTTP => "vless_xhttp"
  | VLESS_REALITY => "vless_reality"
  | VMESS_WS => "vmess_ws"
  | TROJAN_XTLS => "trojan_xtls"
  end.

#[global] Instance ProtocolType_eq_dec : EqDecision ProtocolType.
Proof. solve_decision. Defined.

(** ** config_manager.py: classification helpers *)

Definition _detect_protocol (inbound : json) : res ProtocolType :=
  let? p := py_get inbound "protocol" (JStr "") in
  let? protocol := py_lower p in
  let? stream_settings := py_get inbound "streamSettings" (JDict []) in
  let? security := py_get stream_settings "security" (JStr "none") in
  let? network := py_get stream_settings "network" (JStr "tcp") in
  if String.eqb protocol "vless" then
    if eq_str security "reality" then Ok VLESS_REALITY
    else if eq_str network "xhttp" then Ok VLESS_XHTTP
    else Ok VLESS_WS
  else if String.eqb protocol "vmess" then Ok VMESS_WS
  else if String.eqb protocol "trojan" then Ok TROJAN_XTLS
  else Ok VLESS_REALITY.

(** [TransportType(network)] and [SecurityType(security)]: looking a value up
    in a [str] enumeration raises [ValueError] when it is not a member. The
    message kept is the constant part of Python's, which puts the [repr] of
    the value in front of it. *)
Definition TransportType_of (v : json) : res TransportType :=
  if eq_str v "tcp" then Ok TCP
  else if eq_str v "ws" then Ok WS
  else if eq_str v "xhttp" then Ok XHTTP
  else if eq_str v "grpc" then Ok GRPC
  else if eq_str v "quic" then Ok QUIC
  else Err (ValueError "is not a valid TransportType").

Definition SecurityType_of (v : json) : res SecurityType :=
  if eq_str v "none" then Ok NONE
  else if eq_str v "tls" then Ok TLS
  else if eq_str v "reality" then Ok REALITY
  else if eq_str v "xtls" then Ok XTLS
  else Err (ValueError "is not a valid SecurityType").

Definition _detect_transport (inbound : json) : res TransportType :=
  let? stream_settings := py_get inbound "streamSettings" (JDict []) in
  let? network := py_get stream_settings "network" (JStr "tcp") in
  TransportType_of network.

Definition _detect_security (inbound : json) : res SecurityType :=
  let? stream_settings := py_get inbound "streamSettings" (JDict []) in
  let? security := py_get stream_settings "security" (JStr "none") in
  SecurityType_of security.

(** ** The world the manager runs in *)

(** What the code does to the outside: file-system calls and spawned
    processes. *)
Inductive action : Type :=
| FsExists (p : string)
| FsRead (p : string)
| FsWrite (p : string)
| FsUnlink (p : string)
| FsReplace (src dst : string)
| FsCopy (src dst : string)
| Exec (argv : list string).

(** One logged action, with whether [self.lock] was held when it happened. *)
Record entry : Type := Entry { held : bool; act : action }.

(** The file system holds regular files only, by path; the directories the
    code writes into ([/tmp], the backup directory that [__init__] creates,
    the directory of the configuration) are taken to exist. *)
Record World : Type := mkWorld {
  fs : gmap string string;      (* regular files: path to content *)
  lock_held : bool;             (* the state of [self.lock] *)
  uuid_count : nat;             (* identifiers handed out so far *)
  clock : nat;                  (* the current instant *)
  trace : list entry            (* actions so far, oldest first *)
}.

Definition set_fs (f : gmap string string) (w : World) : World :=
  mkWorld f (lock_held w) (uuid_count w) (clock w) (trace w).
Definition set_lock (b : bool) (w : World) : World :=
  mkWorld (fs w) b (uuid_count w) (clock w) (trace w).
Definition set_uuid_count (n : nat) (w : World) : World :=
  mkWorld (fs w) (lock_held w) n (clock w) (trace w).
Definition log (a : action) (w : World) : World :=
  mkWorld (fs w) (lock_held w) (uuid_count w) (clock w)
          (trace w ++ [Entry (lock_held w) a]).

(** The collaborators outside this code: the Python runtime and libraries,
    the proxy binary and the host. *)
Record Env : Type := mkEnv {
  (* json.loads; None is JSONDecodeError *)
  json_loads : string -> option json;
  (* json.dumps(doc, indent=...) *)
  json_dumps : option nat -> json -> string;
  (* str() of a float, list or dict, as an f-string formats it *)
  py_str_other : json -> string;
  (* pydantic's conversion of a non-int value for an int field *)
  lax_int : json -> option Z;
  (* xray -test -config <file>: from the file's content (None: no such
     file) to return code and decoded stderr; None: the binary cannot be run *)
  xray_test : option string -> option (Z * string);
  (* stdout of [xray version], as bytes; None: the binary cannot be run *)
  xray_version_stdout : option string;
  (* stdout of [sysctl net.ipv4.tcp_congestion_control]; None: cannot run *)
  sysctl_stdout : option string;
  (* whether [systemctl show xray ...] can be run *)
  systemctl_runs : bool;
  sha256_hexdigest : string -> string;
  (* datetime.now().strftime("%Y%m%d_%H%M%S") at an instant *)
  strftime : nat -> string;
  platform_system : string;
  platform_release : string;
  platform_version : string;
  sys_version : string
}.

(** Modelled from the spec: the helpers of [backend/utils.py]
    ([get_server_ip], [generate_uuid], [restart_xray_service]), whose source
    is missing. Public address discovery returns the host's address or fails
    with a discovery failure; identifier generation returns a fresh token on
    every call (here: the n-th token of a supply); service restart returns a
    success flag and never raises. *)
Record Utils : Type := mkUtils {
  get_server_ip : res string;
  generate_uuid : nat -> string;
  restart_xray_service : bool
}.

(** *** The monad of the manager's coroutines

    A coroutine either returns, raises, or is suspended waiting for the lock
    ([Blocked]; nothing after that point runs). *)
Inductive outcome (A : Type) : Type :=
| Return (a : A)
| Raise (e : exn)
| Blocked.
Arguments Return {A} a.
Arguments Raise {A} e.
Arguments Blocked {A}.

Definition M (A : Type) : Type := World -> outcome A * World.

Definition ret {A} (a : A) : M A := fun w => (Return a, w).
Definition raise {A} (e : exn) : M A := fun w => (Raise e, w).

Definition bind {A B} (m : M A) (k : A -> M B) : M B := fun w =>
  match m w with
  | (Return a, w1) => k a w1
  | (Raise e, w1) => (Raise e, w1)
  | (Blocked, w1) => (Blocked, w1)
  end.

Declare Scope m_scope.
Delimit Scope m_scope with M.
Notation "x <- m ;; k" := (bind m (fun x => k))
  (at level 20, m at level 99, k at level 200, only parsing) : m_scope.
Notation "m ;; k" := (bind m (fun _ => k))
  (at level 100, k at level 200, only parsing, right associativity) : m_scope.
Local Open Scope m_scope.

Definition lift {A} (r : res A) : M A :=
  match r with
  | Ok a => ret a
  | Err e => raise e
  end.

(** [try: m  except Exception as e: h e] *)
Definition try_except {A} (m : M A) (h : exn -> M A) : M A := fun w =>
  match m w with
  | (Raise e, w1) => h e w1
  | r => r
  end.

(** [try: m  finally: fin]: [fin] runs on return and on raise, and an
    exception of [fin] replaces the pending result. *)
Definition try_finally {A} (m : M A) (fin : M unit) : M A := fun w =>
  match m w with
  | (Blocked, w1) => (Blocked, w1)
  | (r, w1) =>
      match fin w1 with
      | (Return _, w2) => (r, w2)
      | (Raise e, w2) => (Raise e, w2)
      | (Blocked, w2) => (Blocked, w2)
      end
  end.

(** [async with self.lock: body]: wait while the lock is taken; hold it
    during [body]; release it however [body] ends. *)
Definition with_lock {A} (body : M A) : M A := fun w =>
  if lock_held w then (Blocked, w)
  else
    match body (set_lock true w) with
    | (Blocked, w1) => (Blocked, w1)
    | (r, w1) => (r, set_lock false w1)
    end.

(** *** File system and processes *)

Definition path_exists (p : string) : M bool := fun w =>
  (Return (bool_decide (is_Some (fs w !! p))), log (FsExists p) w).

Definition read_file (p : string) : M string := fun w =>
  match fs w !! p with
  | Some c => (Return c, log (FsRead p) w)
  | None => (Raise (FileNotFoundError p), log (FsRead p) w)
  end.

Definition write_file (p c : string) : M unit := fun w =>
  (Return tt, set_fs (<[p := c]> (fs w)) (log (FsWrite p) w)).

Definition unlink (p : string) : M unit := fun w =>
  match fs w !! p with
  | Some _ => (Return tt, set_fs (delete p (fs w)) (log (FsUnlink p) w))
  | None => (Raise (FileNotFoundError p), log (FsUnlink p) w)
  end.

(** [Path.replace]: rename over the target. *)
Definition path_replace (src dst : string) : M unit := fun w =>
  match fs w !! src with
  | Some c =>
      (Return tt, set_fs (<[dst := c]> (delete src (fs w))) (log (FsReplace src dst) w))
  | None => (Raise (FileNotFoundError src), log (FsReplace src dst) w)
  end.

(** [shutil.copy2]: copying a file onto itself is refused. *)
Definition copy2 (src dst : string) : M unit := fun w =>
  match fs w !! src with
  | Some c =>
      if String.eqb src dst then (Raise SameFileError, log (FsCopy src dst) w)
      else (Return tt, set_fs (<[dst := c]> (fs w)) (log (FsCopy src dst) w))
  | None => (Raise (FileNotFoundError src), log (FsCopy src dst) w)
  end.

(** Spawn a process and wait for it; [out] is what the host answers. *)
Definition exec {A} (argv : list string) (out : World -> option A) : M A := fun w =>
  match out w with
  | Some a => (Return a, log (Exec argv) w)
  | None => (Raise (OSError "cannot execute"), log (Exec argv) w)
  end.

Definition now : M nat := fun w => (Return (clock w), w).

Definition fresh_uuid (u : Utils) : M string := fun w =>
  (Return (generate_uuid u (uuid_count w)), set_uuid_count (S (uuid_count w)) w).

(** *** Paths (pathlib, POSIX flavour, on normalised path strings) *)

(** Split at the last occurrence of [sep]: what is before it, and what
    follows from [sep] on. None when [sep] does not occur. *)
Fixpoint rsplit_at (sep : ascii) (s : string) : option (string * string) :=
  match s with
  | EmptyString => None
  | String c s' =>
      match rsplit_at sep s' with
      | Some (before, from) => Some (String c before, from)
      | None => if Ascii.eqb c sep then Some (EmptyString, s) else None
      end
  end.

(** [(parent with its trailing slash, name)] *)
Definition path_split (p : string) : string * string :=
  match rsplit_at "/" p with
  | Some (before, String _ name) => (before ++ "/", name)
  | _ => ("", p)
  end.

(** [PurePath.suffix] of a name: from the last dot on, unless that dot is
    the first or the last character. *)
Definition name_suffix (name : string) : string :=
  match rsplit_at "." name with
  | Some (String _ _, String d (String c rest)) => String d (String c rest)
  | _ => ""
  end.

(** [PurePath.with_suffix] *)
Definition with_suffix (p suffix : string) : res string :=
  let '(parent, name) := path_split p in
  if String.eqb name "" then Err (ValueError "has an empty name")
  else
    let old := name_suffix name in
    Ok (parent ++ substring 0 (String.length name - String.length old) name ++ suffix).

(** [dir / name], for a relative [name]: the directory [.] is dropped, and
    no separator is added after a root. *)
Definition path_join (dir name : string) : string :=
  if String.eqb dir "." then name
  else if String.eqb dir "/" || String.eqb dir "//" then dir ++ name
  else dir ++ "/" ++ name.

(** ** models.py: request and response models *)

(** A [float], kept as its [repr]. *)
Definition float : Type := string.

Record ProfileResponse : Type := mkProfileResponse {
  pr_id : string;
  pr_email : option string;
  pr_protocol : ProtocolType;
  pr_transport : TransportType;
  pr_security : SecurityType;
  pr_connection_link : string;
  pr_created_at : nat;
  pr_port : Z;
  pr_server_address : string;
  pr_flow : option string;
  pr_sni : option string;
  pr_public_key : option string;
  pr_short_id : option string;
  pr_fingerprint : option string
}.

Record StatsResponse : Type := mkStatsResponse {
  active_connections : Z;
  total_profiles : Z;
  uptime_seconds : Z;
  total_traffic_bytes : Z;
  cpu_usage_percent : option float;
  memory_usage_percent : option float
}.

Record SystemInfo : Type := mkSystemInfo {
  xray_version : string;
  os_name : string;
  os_version : string;
  kernel_version : string;
  python_version : string;
  dashboard_version : string;
  active_protocol : ProtocolType;
  bbr_enabled : bool
}.

Record BackupResponse : Type := mkBackupResponse {
  backup_file : string;
  br_created_at : nat;
  size_bytes : Z;
  config_hash : string
}.

(** A field declared [str]: only a string is accepted. *)
Definition field_str (name : string) (v : json) : res string :=
  match v with
  | JStr s => Ok s
  | _ => Err (ValidationError name)
  end.

(** A field declared [Optional[str]]. *)
Definition field_opt_str (name : string) (v : json) : res (option string) :=
  match v with
  | JNull => Ok None
  | JStr s => Ok (Some s)
  | _ => Err (ValidationError name)
  end.

(** A field declared [int] with [ge] and [le] bounds. *)
Definition field_int (env : Env) (name : string) (lo : Z) (hi : option Z) (v : json) : res Z :=
  let? z := match v with
            | JInt z => Ok z
            | _ => match lax_int env v with
                   | Some z => Ok z
                   | None => Err (ValidationError name)
                   end
            end in
  if (z <? lo) || match hi with Some h => h <? z | None => false end
  then Err (ValidationError name) else Ok z.

(** [StatsResponse()] *)
Definition StatsResponse_default : StatsResponse :=
  mkStatsResponse 0 0 0 0 None None.

(** [StatsResponse(active_connections=.., total_profiles=.., ...)]: the four
    counters are [int] fields with [ge=0]. *)
Definition StatsResponse_new (a t u b : Z) : res StatsResponse :=
  if a <? 0 then Err (ValidationError "active_connections")
  else if t <? 0 then Err (ValidationError "total_profiles")
  else if u <? 0 then Err (ValidationError "uptime_seconds")
  else if b <? 0 then Err (ValidationError "total_traffic_bytes")
  else Ok (mkStatsResponse a t u b None None).

(** [ProfileCreate(email=...)]: the length bounds of the field are checked on
    the value as given, then the validator [validate_email] trims and
    lower-cases it. *)
Definition validate_email (v : string) : string := lower (strip v).

Record ProfileCreate : Type := mkProfileCreate {
  pc_email : string;
  pc_protocol : option ProtocolType
}.

Definition ProfileCreate_new (email : string) : res ProfileCreate :=
  let n := String.length email in
  if (n <? 3)%nat || (100 <? n)%nat then Err (ValidationError "email")
  else Ok (mkProfileCreate (validate_email email) (Some VLESS_REALITY)).

(** ** config_manager.py: [ConfigManager] *)

(** The two paths of an instance, as [str(Path(...))] gives them. *)
Record ConfigManager : Type := mkConfigManager {
  config_path : string;
  backup_dir : string
}.

(** [ConfigManager()], as [main.py] creates it. *)
Definition default_manager : ConfigManager :=
  mkConfigManager "/usr/local/etc/xray/config.json" "/var/backups/xray".

Definition xray_test_config : string := "/tmp/xray_test_config.json".
Definition xray_binary : string := "/usr/local/bin/xray".

(** *** More of Python's value semantics *)

(** [bool(x)] *)
Definition truthy (v : json) : bool :=
  match v with
  | JNull => false
  | JBool b => b
  | JInt z => negb (z =? 0)
  | JFloat r => negb (String.eqb r "0.0" || String.eqb r "-0.0")
  | JStr s => negb (String.eqb s "")
  | JList l => match l with [] => false | _ => true end
  | JDict d => match d with [] => false | _ => true end
  end.

(** [len(x)] *)
Definition py_len (v : json) : res nat :=
  match v with
  | JStr s => Ok (String.length s)
  | JList l => Ok (length l)
  | JDict d => Ok (length d)
  | _ => Err TypeError
  end.

Fixpoint chars (s : string) : list json :=
  match s with
  | EmptyString => []
  | String c s' => JStr (String c EmptyString) :: chars s'
  end.

(** What [for c in x] visits. *)
Definition py_iter (v : json) : res (list json) :=
  match v with
  | JList l => Ok l
  | JDict d => Ok (map (fun kv => JStr (fst kv)) d)
  | JStr s => Ok (chars s)
  | _ => Err TypeError
  end.

(** [x.append(v)]: only a list has it. *)
Definition py_append (x v : json) : res json :=
  match x with
  | JList l => Ok (JList (l ++ [v]))
  | _ => Err AttributeError
  end.

(** [for_each f l]: run [f] on the elements in order, collecting results. *)
Fixpoint for_each {A B} (f : A -> M B) (l : list A) : M (list B) :=
  match l with
  | [] => ret []
  | x :: l' => y <- f x ;; ys <- for_each f l' ;; ret (y :: ys)
  end.

(** [config["inbounds"][0]["settings"]["clients"] = v], seen from [config]:
    the code stores through the aliases [inbound] and [inbound["settings"]],
    which are parts of [config]. *)
Definition set_clients (config v : json) : res json :=
  match config with
  | JDict cd =>
      match assoc "inbounds" cd with
      | Some (JList (JDict ind :: rest)) =>
          match assoc "settings" ind with
          | Some (JDict sd) =>
              Ok (JDict (dict_set "inbounds"
                    (JList (JDict (dict_set "settings"
                                     (JDict (dict_set "clients" v sd)) ind) :: rest))
                    cd))
          | _ => Err TypeError
          end
      | _ => Err TypeError
      end
  | _ => Err TypeError
  end.

(** [[c for c in clients if c["id"] != profile_id]] *)
Fixpoint filter_clients (profile_id : string) (clients : list json) : res (list json) :=
  match clients with
  | [] => Ok []
  | c :: rest =>
      let? cid := py_getitem c "id" in
      let? kept := filter_clients profile_id rest in
      Ok (if negb (eq_str cid profile_id) then c :: kept else kept)
  end.

(** [stdout.decode().split("\n")[0].split()[-1] if stdout else "unknown"] *)
Definition parse_xray_version (stdout : string) : res string :=
  if String.eqb stdout "" then Ok "unknown"
  else
    match utf8_decode stdout with
    | None => Err UnicodeDecodeError
    | Some text =>
        match last (split_ws [] (first_line text)) with
        | Some token => Ok (utf8_encode token)
        | None => Err IndexError
        end
    end.

Section Manager.
Variable env : Env.
Variable utils : Utils.
Variable self : ConfigManager.

(** [str(x)], as an f-string formats a value. *)
Definition py_str (v : json) : string :=
  match v with
  | JStr s => s
  | JInt z => pretty z
  | JNull => "None"
  | JBool true => "True"
  | JBool false => "False"
  | _ => py_str_other env v
  end.

Definition _read_config : M json :=
  e <- path_exists (config_path self) ;;
  if negb e then raise (FileNotFoundError ("Config not found: " ++ config_path self))
  else
    content <- read_file (config_path self) ;;
    match json_loads env content with
    | Some config => ret config
    | None => raise JSONDecodeError
    end.

Definition _validate_config (config : json) : M bool :=
  try_finally
    (write_file xray_test_config (json_dumps env None config) ;;
     r <- exec [xray_binary; "-test"; "-config"; xray_test_config]
               (fun w => xray_test env (fs w !! xray_test_config)) ;;
     let '(returncode, stderr) := r in
     if negb (returncode =? 0) then
       let error_msg := if String.eqb stderr "" then "Unknown error" else stderr in
       raise (ValueError ("Invalid Xray config: " ++ error_msg))
     else ret true)
    (e <- path_exists xray_test_config ;;
     if e then unlink xray_test_config else ret tt).

Definition _write_config (config : json) : M unit :=
  _validate_config config ;;
  temp_path <- lift (with_suffix (config_path self) ".tmp") ;;
  write_file temp_path (json_dumps env (Some 2%nat) config) ;;
  path_replace temp_path (config_path self).

Definition _generate_connection_link
    (client_id : json) (server_ip : string) (port : json)
    (protocol_type : ProtocolType) (inbound : json) (email : json) : res string :=
  match protocol_type with
  | VLESS_REALITY =>
      let? stream_settings := py_getitem inbound "streamSettings" in
      let? reality_settings := py_getitem stream_settings "realitySettings" in
      let? server_names := py_getitem reality_settings "serverNames" in
      let? sni := py_getitem0 server_names in
      let? short_ids := py_getitem reality_settings "shortIds" in
      let? short_id := py_getitem0 short_ids in
      Ok ("vless://" ++ py_str client_id ++ "@" ++ server_ip ++ ":" ++ py_str port
          ++ "?type=tcp&security=reality"
          ++ "&sni=" ++ py_str sni
          ++ "&sid=" ++ py_str short_id
          ++ "&flow=xtls-rprx-vision"
          ++ "#" ++ py_str email)
  | VLESS_WS =>
      Ok ("vless://" ++ py_str client_id ++ "@" ++ server_ip ++ ":" ++ py_str port
          ++ "?type=ws&security=none"
          ++ "#" ++ py_str email)
  | _ =>
      Ok ("vless://" ++ py_str client_id ++ "@" ++ server_ip ++ ":" ++ py_str port
          ++ "#" ++ py_str email)
  end.

(** [reality_settings.get(key, [None])[0] if reality_settings else None] *)
Definition first_of_reality (reality_settings : json) (key : string) : res json :=
  if truthy reality_settings then
    let? l := py_get reality_settings key (JList [JNull]) in py_getitem0 l
  else Ok JNull.

Definition _build_profile_response
    (client inbound : json) (server_ip : string) (port : json)
    (protocol_type : ProtocolType) (transport : TransportType)
    (security : SecurityType) : M ProfileResponse :=
  client_id <- lift (py_getitem client "id") ;;
  email <- lift (py_get client "email" JNull) ;;
  connection_link <- lift (_generate_connection_link client_id server_ip port
                             protocol_type inbound
                             (if truthy email then email else JStr "user")) ;;
  flow <- lift (py_get client "flow" JNull) ;;
  stream_settings <- lift (py_get inbound "streamSettings" (JDict [])) ;;
  reality_settings <- lift (py_get stream_settings "realitySettings" (JDict [])) ;;
  sni <- lift (first_of_reality reality_settings "serverNames") ;;
  short_id <- lift (first_of_reality reality_settings "shortIds") ;;
  created_at <- now ;;
  lift (let? id := field_str "id" client_id in
        let? email := field_opt_str "email" email in
        let? port := field_int env "port" 1 (Some 65535) port in
        let? flow := field_opt_str "flow" flow in
        let? sni := field_opt_str "sni" sni in
        let? short_id := field_opt_str "short_id" short_id in
        Ok (mkProfileResponse id email protocol_type transport security
              connection_link created_at port server_ip flow sni None short_id None)).

(** [config["inbounds"][0]] *)
Definition first_inbound (config : json) : res json :=
  let? inbounds := py_getitem config "inbounds" in py_getitem0 inbounds.

Definition get_all_profiles : M (list ProfileResponse) :=
  with_lock
    (config <- _read_config ;;
     inbound <- lift (first_inbound config) ;;
     settings <- lift (py_getitem inbound "settings") ;;
     clients <- lift (py_get settings "clients" (JList [])) ;;
     server_ip <- lift (get_server_ip utils) ;;
     port <- lift (py_getitem inbound "port") ;;
     protocol_type <- lift (_detect_protocol inbound) ;;
     transport <- lift (_detect_transport inbound) ;;
     security <- lift (_detect_security inbound) ;;
     items <- lift (py_iter clients) ;;
     for_each (fun client =>
                 _build_profile_response client inbound server_ip port
                   protocol_type transport security)
              items).

Definition get_profile (profile_id : string) : M (option ProfileResponse) :=
  profiles <- get_all_profiles ;;
  ret (find (fun profile => String.eqb (pr_id profile) profile_id) profiles).

Definition create_profile (email : string) : M ProfileResponse :=
  with_lock
    (config <- _read_config ;;
     inbound <- lift (first_inbound config) ;;
     new_uuid <- fresh_uuid utils ;;
     protocol_type <- lift (_detect_protocol inbound) ;;
     let new_client :=
       if decide (protocol_type = VLESS_REALITY)
       then JDict [("id", JStr new_uuid); ("email", JStr email);
                   ("flow", JStr "xtls-rprx-vision")]
       else JDict [("id", JStr new_uuid); ("email", JStr email)] in
     settings <- lift (py_getitem inbound "settings") ;;
     clients <- lift (py_getitem settings "clients") ;;
     clients' <- lift (py_append clients new_client) ;;
     (* the list appended to is the one inside [config] *)
     config <- lift (set_clients config clients') ;;
     inbound <- lift (first_inbound config) ;;
     _write_config config ;;
     server_ip <- lift (get_server_ip utils) ;;
     port <- lift (py_getitem inbound "port") ;;
     transport <- lift (_detect_transport inbound) ;;
     security <- lift (_detect_security inbound) ;;
     _build_profile_response new_client inbound server_ip port
       protocol_type transport security).

Definition delete_profile (profile_id : string) : M bool :=
  with_lock
    (config <- _read_config ;;
     inbound <- lift (first_inbound config) ;;
     settings <- lift (py_getitem inbound "settings") ;;
     clients <- lift (py_get settings "clients" (JList [])) ;;
     original_count <- lift (py_len clients) ;;
     items <- lift (py_iter clients) ;;
     filtered_clients <- lift (filter_clients profile_id items) ;;
     if (length filtered_clients =? original_count)%nat then ret false
     else
       config <- lift (set_clients config (JList filtered_clients)) ;;
       _write_config config ;;
       ret true).

Definition _get_xray_uptime : M Z :=
  try_except
    (exec ["systemctl"; "show"; "xray"; "--property=ActiveEnterTimestamp"]
          (fun _ => if systemctl_runs env then Some tt else None) ;;
     ret 0)
    (fun _ => ret 0).

Definition _check_bbr : M bool :=
  try_except
    (stdout <- exec ["sysctl"; "net.ipv4.tcp_congestion_control"]
                    (fun _ => sysctl_stdout env) ;;
     ret (contains "bbr" stdout))
    (fun _ => ret false).

Definition get_statistics : M StatsResponse :=
  try_except
    (config <- _read_config ;;
     inbound <- lift (first_inbound config) ;;
     settings <- lift (py_getitem inbound "settings") ;;
     clients <- lift (py_get settings "clients" (JList [])) ;;
     total_profiles <- lift (py_len clients) ;;
     uptime <- _get_xray_uptime ;;
     lift (StatsResponse_new 0 (Z.of_nat total_profiles) uptime 0))
    (fun _ => ret StatsResponse_default).

Definition get_system_info : M SystemInfo :=
  stdout <- exec [xray_binary; "version"] (fun _ => xray_version_stdout env) ;;
  xray_version <- lift (parse_xray_version stdout) ;;
  python_version <- lift (match py_split (sys_version env) with
                          | v :: _ => Ok v
                          | [] => Err IndexError
                          end) ;;
  bbr_enabled <- _check_bbr ;;
  config <- _read_config ;;
  inbound <- lift (first_inbound config) ;;
  active_protocol <- lift (_detect_protocol inbound) ;;
  ret (mkSystemInfo xray_version (platform_system env) (platform_release env)
         (platform_version env) python_version "1.0.0" active_protocol bbr_enabled).

(** The file [create_backup] writes at instant [t]. *)
Definition backup_path_at (t : nat) : string :=
  path_join (backup_dir self) ("config_backup_" ++ strftime env t ++ ".json").

Definition create_backup : M BackupResponse :=
  t <- now ;;
  let backup_file := backup_path_at t in
  copy2 (config_path self) backup_file ;;
  content <- read_file backup_file ;;
  let config_hash := sha256_hexdigest env content in
  let size_bytes := Z.of_nat (String.length content) in
  created_at <- now ;;
  ret (mkBackupResponse backup_file created_at size_bytes config_hash).

Definition restore_backup (backup_file : string) : M bool :=
  e <- path_exists backup_file ;;
  if negb e then raise (FileNotFoundError ("Backup not found: " ++ backup_file))
  else
    content <- read_file backup_file ;;
    config <- match json_loads env content with
              | Some config => ret config
              | None => raise JSONDecodeError
              end ;;
    _validate_config config ;;
    create_backup ;;
    copy2 backup_file (config_path self) ;;
    ret true.

(** ** main.py: the profile and statistics handlers *)

Inductive http (A : Type) : Type :=
| Response (status : nat) (body : A)
| HTTPException (status : nat) (cause : option exn).

(** [await restart_xray_service()] *)
Definition restart : M bool :=
  exec ["systemctl"; "restart"; "xray"] (fun _ => Some (restart_xray_service utils)).

Definition list_profiles_handler : M (http (list ProfileResponse)) :=
  try_except
    (profiles <- get_all_profiles ;; ret (Response _ 200%nat profiles))
    (fun e => ret (HTTPException _ 500%nat (Some e))).

(** POST /api/profiles?email=...: [email] is the query parameter as sent. *)
Definition create_profile_handler (email : string) : M (http ProfileResponse) :=
  try_except
    (profile <- create_profile email ;;
     restart ;;
     ret (Response _ 201%nat profile))
    (fun e => ret (HTTPException _ 500%nat (Some e))).

Definition delete_profile_handler (profile_id : string) : M (http unit) :=
  try_except
    (deleted <- delete_profile profile_id ;;
     if negb deleted then ret (HTTPException _ 404%nat None)
     else restart ;; ret (Response _ 204%nat tt))
    (fun e => ret (HTTPException _ 500%nat (Some e))).

Definition get_stats_handler : M (http StatsResponse) :=
  try_except
    (stats <- get_statistics ;; ret (Response _ 200%nat stats))
    (fun _ => ret (Response _ 200%nat (mkStatsResponse 0 0 0 0 None None))).
End Manager.

Arguments Response {A} status body.
Arguments HTTPException {A} status cause.

(** ** Vocabulary of the statements *)

(** The classification table of the specification, on a protocol name and
    the stream settings' security and network values. *)
Definition classify (protocol : string) (security network : json) : ProtocolType :=
  if String.eqb protocol "vless" then
    if eq_str security "reality" then VLESS_REALITY
    else if eq_str network "xhttp" then VLESS_XHTTP
    else VLESS_WS
  else if String.eqb protocol "vmess" then VMESS_WS
  else if String.eqb protocol "trojan" then TROJAN_XTLS
  else VLESS_REALITY.

(** The first inbound's client list, [inbounds[0].settings.clients], an
    absent list being empty. *)
Definition first_inbound_clients (config : json) : res json :=
  let? inbound := first_inbound config in
  let? settings := py_getitem inbound "settings" in
  py_get settings "clients" (JList []).

(** The client entry [c] carries the identifier [profile_id]. *)
Definition has_id (profile_id : string) (c : json) : bool :=
  match py_getitem c "id" with
  | Ok cid => eq_str cid profile_id
  | Err _ => false
  end.

(** The client entry is an object with an [id]. *)
Definition is_client (c : json) : Prop :=
  exists cid, py_getitem c "id" = Ok cid.

(** [m] is an operation that takes [self.lock] for its whole duration: it
    waits while the lock is taken, and when it runs, every action it performs
    happens with the lock held, and the lock is free again afterwards. *)
Definition lock_guarded {A} (m : M A) : Prop :=
  (forall w, lock_held w = true -> m w = (Blocked, w)) /\
  (forall w, lock_held w = false ->
     lock_held (m w).2 = false /\
     exists evs : list entry,
       trace (m w).2 = (trace w ++ evs)%list /\
       Forall (fun e => held e = true) evs).

(** [m] never touches the lock: it does not wait for it, leaves it as it
    is, and acts whether or not somebody holds it. *)
Definition lock_neutral {A} (m : M A) : Prop :=
  forall w,
    (m w).1 <> Blocked /\
    lock_held (m w).2 = lock_held w /\
    exists evs : list entry,
      trace (m w).2 = (trace w ++ evs)%list /\
      Forall (fun e => held e = lock_held w) evs.

(** [line] is the first line of [text]: it holds no line feed, and [text]
    is [line] alone or [line], a line feed and more. *)
Definition first_line_of (text line : list N) : Prop :=
  ~ In 0x0A%N line /\
  (text = line \/ exists rest, text = (line ++ 0x0A%N :: rest)%list).

(** [line] is blank: empty, or white space only. *)
Definition blank (line : list N) : Prop :=
  Forall (fun c => isspace c = true) line.

(** [token] is the last whitespace-delimited token of [line]: a non-empty
    run without white space, with only white space after it, and with white
    space or nothing just before it. *)
Definition last_token (line token : list N) : Prop :=
  exists pre post,
    line = (pre ++ token ++ post)%list /\
    blank post /\
    Forall (fun c => isspace c = false) token /\ token <> [] /\
    (pre = [] \/ exists pre' c, pre = (pre' ++ [c])%list /\ isspace c = true).

(** The world after one validation: the throwaway file is gone, whatever
    the outcome, and four actions plus the removal are on the trace. *)
Definition validated (w : World) : World :=
  set_fs (delete xray_test_config (fs w))
    (log (FsUnlink xray_test_config)
       (log (FsExists xray_test_config)
          (log (Exec [xray_binary; "-test"; "-config"; xray_test_config])
             (log (FsWrite xray_test_config) w)))).

(** The verdict of the proxy binary on a candidate document. *)
Definition verdict (env : Env) (config : json) : outcome bool :=
  match xray_test env (Some (json_dumps env None config)) with
  | None => Raise (OSError "cannot execute")
  | Some (returncode, stderr) =>
      if negb (returncode =? 0) then
        Raise (ValueError ("Invalid Xray config: "
                           ++ (if String.eqb stderr "" then "Unknown error" else stderr)))
      else Return true
  end.

(** The world after [_read_config] found and read the file. *)
Definition config_read (self : ConfigManager) (w : World) : World :=
  log (FsRead (config_path self)) (log (FsExists (config_path self)) w).

(** The world after a write that passed validation: the text went to the
    sibling [temp_path], which was then renamed over the canonical path. *)
Definition written (self : ConfigManager) (temp_path text : string) (w : World) : World :=
  set_fs (<[config_path self := text]>
            (delete temp_path (<[temp_path := text]> (delete xray_test_config (fs w)))))
    (log (FsReplace temp_path (config_path self))
       (log (FsWrite temp_path) (validated w))).

(** ** A sample installation

    A test double of the collaborators, for running the operations on
    concrete data. Documents are rendered in compact form; [sample_loads]
    reads back the renderings of a given list of documents. *)

Definition dq : string := String "034" EmptyString.

Fixpoint render (d : json) : string :=
  match d with
  | JNull => "null"
  | JBool true => "true"
  | JBool false => "false"
  | JInt z => pretty z
  | JFloat r => r
  | JStr s => dq ++ s ++ dq
  | JList l =>
      "[" ++ (fix items (l : list json) : string :=
                match l with
                | [] => ""
                | [x] => render x
                | x :: l' => render x ++ ", " ++ items l'
                end) l ++ "]"
  | JDict d =>
      "{" ++ (fix items (d : list (string * json)) : string :=
                match d with
                | [] => ""
                | [(k, x)] => dq ++ k ++ dq ++ ": " ++ render x
                | (k, x) :: d' => dq ++ k ++ dq ++ ": " ++ render x ++ ", " ++ items d'
                end) d ++ "}"
  end.

Definition sample_loads (docs : list json) (text : string) : option json :=
  find (fun d => String.eqb (render d) text) docs.

(** The sample proxy binary accepts a document iff it mentions [inbounds]. *)
Definition sample_xray_test (content : option string) : option (Z * string) :=
  match content with
  | Some text => if contains "inbounds" text then Some (0, "")
                 else Some (23, "no inbounds")
  | None => Some (23, "")
  end.

Definition sample_env (docs : list json) : Env :=
  mkEnv (sample_loads docs) (fun _ => render) render (fun _ => None)
        sample_xray_test
        (Some "Xray 1.8.4 (Xray, Penetrates Everything.) Custom (go1.21.1 linux/amd64)")
        (Some "net.ipv4.tcp_congestion_control = bbr") true
        (fun content => "sha256:" ++ content)
        (fun t => pretty t)
        "Linux" "6.1.0" "#1 SMP" "3.11.4 (main) [GCC 12.2.0]".

Definition sample_utils : Utils :=
  mkUtils (Ok "1.2.3.4") (fun n => "uuid-" ++ pretty n) true.

(** The code points of an ASCII literal. *)
Definition sample_text (s : string) : list N :=
  map N_of_ascii (list_ascii_of_string s).

(** The same collaborators, the version query printing [out]. *)
Definition with_version_output (out : string) (env : Env) : Env :=
  mkEnv (json_loads env) (json_dumps env) (py_str_other env) (lax_int env)
        (xray_test env) (Some out) (sysctl_stdout env) (systemctl_runs env)
        (sha256_hexdigest env) (strftime env)
        (platform_system env) (platform_release env) (platform_version env)
        (sys_version env).

Definition sample_reality_settings : list (string * json) :=
  [("serverNames", JList [JStr "www.example.com"]);
   ("shortIds", JList [JStr "ab12"])].

Definition sample_stream_settings : list (string * json) :=
  [("network", JStr "tcp"); ("security", JStr "reality");
   ("realitySettings", JDict sample_reality_settings)].

Definition sample_inbound_fields (clients : list json) : list (string * json) :=
  [("port", JInt 443); ("protocol", JStr "vless");
   ("settings", JDict [("clients", JList clients)]);
   ("streamSettings", JDict sample_stream_settings)].

Definition sample_inbound (clients : list json) : json :=
  JDict (sample_inbound_fields clients).

Definition sample_config (clients : list json) : json :=
  JDict [("log", JDict []); ("inbounds", JList [sample_inbound clients]);
         ("outbounds", JList [])].

Definition sample_client (id email : string) : json :=
  JDict [("id", JStr id); ("email", JStr email); ("flow", JStr "xtls-rprx-vision")].

Definition sample_world (files : list (string * string)) (locked : bool) : World :=
  mkWorld (list_to_map files) locked 0 7 [].

(** One profile, [U] with label [alice], installed at the default paths. *)
Definition sample_doc : json := sample_config [sample_client "U" "alice"].

Definition sample_installed (locked : bool) : World :=
  sample_world [(config_path default_manager, render sample_doc)] locked.

(** The identifier [U] twice, another profile in between. *)
Definition sample_clients_dup : list json :=
  [sample_client "U" "alice"; sample_client "V" "bob"; sample_client "U" "carol"].

Definition sample_doc_dup : json := sample_config sample_clients_dup.

(** The number of clients on the first inbound of a document. *)
Definition count_clients (config : json) : res nat :=
  let? clients := first_inbound_clients config in py_len clients.

(** The snapshot [get_statistics] returns, read off the state of the
    configuration file. *)
Definition snapshot (env : Env) (self : ConfigManager) (w : World) : StatsResponse :=
  match fs w !! config_path self with
  | None => StatsResponse_default
  | Some content =>
      match json_loads env content with
      | None => StatsResponse_default
      | Some config =>
          match count_clients config with
          | Ok n => mkStatsResponse 0 (Z.of_nat n) 0 0 None None
          | Err _ => StatsResponse_default
          end
      end
  end.

(** The labels of a profile listing answered with 200. *)
Definition listed_labels (r : outcome (http (list ProfileResponse)))
  : option (list (option string)) :=
  match r with
  | Return (Response 200%nat profiles) => Some (map pr_email profiles)
  | _ => None
  end.

(** Status and label of a profile-creation answer. *)
Definition created_label (r : outcome (http ProfileResponse))
  : option (nat * option string) :=
  match r with
  | Return (Response status profile) => Some (status, pr_email profile)
  | _ => None
  end.

(** The sample document after one more profile, the first identifier of
    the supply with the given label, was appended. *)
Definition sample_doc_plus (label : string) : json :=
  sample_config [sample_client "U" "alice"; sample_client "uuid-0" label].

(** ** The remaining handlers of main.py, and vocabulary for their
    properties *)

(** The wire values of the transport and security vocabularies. *)
Definition TransportType_value (t : TransportType) : string :=
  match t with
  | TCP => "tcp" | WS => "ws" | XHTTP => "xhttp" | GRPC => "grpc" | QUIC => "quic"
  end.

Definition SecurityType_value (t : SecurityType) : string :=
  match t with
  | NONE => "none" | TLS => "tls" | REALITY => "reality" | XTLS => "xtls"
  end.

(** A handler body whose only clause is [except Exception as e: raise
    HTTPException(500, ...)]: an [HTTPException] raised inside the body is an
    [Exception] as well, so it is caught and replaced by the 500 answer. *)
Definition except_exception {A} (body : M (http A)) : M (http A) := fun w =>
  match body w with
  | (Return (HTTPException _ _), w1) => (Return (HTTPException 500%nat None), w1)
  | (Raise e, w1) => (Return (HTTPException 500%nat (Some e)), w1)
  | r => r
  end.

(** GET /api/profiles/{profile_id}: [except HTTPException: raise] lets the
    404 through. *)
Definition get_profile_handler (env : Env) (utils : Utils) (self : ConfigManager)
    (profile_id : string) : M (http ProfileResponse) :=
  try_except
    (profile <- get_profile env utils self profile_id ;;
     match profile with
     | None => ret (HTTPException 404%nat None)
     | Some profile => ret (Response 200%nat profile)
     end)
    (fun e => ret (HTTPException 500%nat (Some e))).

(** GET /api/system *)
Definition get_system_info_handler (env : Env) (self : ConfigManager)
  : M (http SystemInfo) :=
  try_except
    (info <- get_system_info env self ;; ret (Response 200%nat info))
    (fun e => ret (HTTPException 500%nat (Some e))).

(** GET /api/backup *)
Definition create_backup_handler (env : Env) (self : ConfigManager)
  : M (http BackupResponse) :=
  try_except
    (backup_info <- create_backup env self ;; ret (Response 200%nat backup_info))
    (fun e => ret (HTTPException 500%nat (Some e))).

(** POST /api/restore?backup_file=...: the body is the pair of the values of
    [status] and [backup_file]. *)
Definition restore_backup_handler (env : Env) (utils : Utils) (self : ConfigManager)
    (backup_file : string) : M (http (string * string)) :=
  except_exception
    (success <- restore_backup env self backup_file ;;
     if negb success then ret (HTTPException 400%nat None)
     else restart utils ;; ret (Response 200%nat ("restored", backup_file))).


(** [m] changes no file outside [paths] (which may depend on the instant),
    and does not move the clock. *)
Definition confined {A} (paths : nat -> list string) (m : M A) : Prop :=
  forall w,
    clock (m w).2 = clock w /\
    forall p, ~ In p (paths (clock w)) -> fs (m w).2 !! p = fs w !! p.

(** The files a write of the configuration may touch: the throwaway
    validation file, the canonical file and its temporary sibling. *)
Definition write_paths (self : ConfigManager) : list string :=
  xray_test_config :: config_path self ::
  match with_suffix (config_path self) ".tmp" with
  | Ok temp_path => [temp_path]
  | Err _ => []
  end.

(** The sample installation without a runnable proxy binary. *)
Definition sample_env_without_binary (docs : list json) : Env :=
  mkEnv (sample_loads docs) (fun _ => render) render (fun _ => None)
        (fun _ => None) None
        (Some "net.ipv4.tcp_congestion_control = cubic") true
        (fun content => "sha256:" ++ content)
        (fun t => pretty t)
        "Linux" "6.1.0" "#1 SMP" "3.11.4 (main) [GCC 12.2.0]".

(** Sample helpers whose address discovery fails. *)
Definition sample_utils_offline : Utils :=
  mkUtils (Err (DiscoveryFailure "no route")) (fun n => "uuid-" ++ pretty n) true.

(** The client entry [create_profile] appends. *)
Definition new_client_of (protocol_type : ProtocolType) (new_uuid email : string) : json :=
  if decide (protocol_type = VLESS_REALITY)
  then JDict [("id", JStr new_uuid); ("email", JStr email);
              ("flow", JStr "xtls-rprx-vision")]
  else JDict [("id", JStr new_uuid); ("email", JStr email)].

(** The client entry [client] is the one the profile [p] was built from. *)
Definition built_from (client : json) (p : ProfileResponse) : Prop :=
  py_getitem client "id" = Ok (JStr (pr_id p)) /\
  py_get client "email" JNull = Ok (from_option JStr JNull (pr_email p)) /\
  py_get client "flow" JNull = Ok (from_option JStr JNull (pr_flow p)).

(** * Properties *)

(** ** Classification *)

Example detect_vless_reality :
  _detect_protocol (sample_inbound []) = Ok VLESS_REALITY.
Proof. reflexivity. Qed.

Example detect_vless_xhttp :
  _detect_protocol
    (JDict [("protocol", JStr "vless");
            ("streamSettings", JDict [("network", JStr "xhttp"); ("security", JStr "tls")])])
  = Ok VLESS_XHTTP.
Proof. reflexivity. Qed.

Example detect_shadowsocks :
  _detect_protocol (JDict [("protocol", JStr "shadowsocks")]) = Ok VLESS_REALITY.
Proof. reflexivity. Qed.

Example detect_protocol_not_a_string :
  _detect_protocol (JDict [("protocol", JInt 1)]) = Err AttributeError.
Proof. reflexivity. Qed.

Example detect_stream_settings_null :
  _detect_protocol (JDict [("protocol", JStr "vmess"); ("streamSettings", JNull)])
  = Err AttributeError.
Proof. reflexivity. Qed.

(** C1, as the specification words it: the protocol field itself is looked
    up in the table. It fails on an upper-case protocol name, which the code
    lower-cases before the lookup: ["VMESS"] is not one of the three names, so
    the table sends it to [vless_reality], while the code answers [vmess_ws]. *)
Lemma C1_protocol_field_is_lowercased_first :
  let inbound := JDict [("protocol", JStr "VMESS")] in
  _detect_protocol inbound = Ok VMESS_WS /\
  classify "VMESS" (JStr "none") (JStr "tcp") = VLESS_REALITY /\
  ~ (forall (d : list (string * json)) (p : string) (ss : list (string * json)),
       py_get (JDict d) "protocol" (JStr "") = Ok (JStr p) ->
       py_get (JDict d) "streamSettings" (JDict []) = Ok (JDict ss) ->
       _detect_protocol (JDict d)
       = Ok (classify p (default (JStr "none") (assoc "security" ss))
                        (default (JStr "tcp") (assoc "network" ss)))).
Proof.
  cbn zeta. split; [reflexivity|]. split; [reflexivity|].
  intros H.
  specialize (H [("protocol", JStr "VMESS")] "VMESS" [] eq_refl eq_refl).
  vm_compute in H. discriminate H.
Qed.

(** C1 (amended): for every inbound whose protocol field is absent or a
    string and whose stream settings are absent or an object, the
    classification is the specification's table applied to the lower-cased
    protocol name (absent: the empty name), the stream security (absent:
    [none]) and the network (absent: [tcp]). *)
Theorem C1_detect_protocol_classifies_lowercased
    (d : list (string * json)) (p : string) (ss : list (string * json)) :
  py_get (JDict d) "protocol" (JStr "") = Ok (JStr p) ->
  py_get (JDict d) "streamSettings" (JDict []) = Ok (JDict ss) ->
  _detect_protocol (JDict d)
  = Ok (classify (lower p) (default (JStr "none") (assoc "security" ss))
                           (default (JStr "tcp") (assoc "network" ss))).
Proof.
  intros Hp Hs. unfold _detect_protocol.
  rewrite Hp. cbn [rbind py_lower]. rewrite Hs. cbn [rbind py_get].
  unfold classify.
  repeat match goal with |- context [if ?b then _ else _] => destruct b end;
    reflexivity.
Qed.

Lemma C1_detect_protocol_witness :
  _detect_protocol (JDict [("protocol", JStr "Trojan")]) = Ok TROJAN_XTLS.
Proof.
  exact (C1_detect_protocol_classifies_lowercased
           [("protocol", JStr "Trojan")] "Trojan" [] eq_refl eq_refl).
Defined.

(** ** Connection descriptor *)

(** C2: for a profile classified [vless_reality], the descriptor is
    [vless://{identifier}@{address}:{port}?type=tcp&security=reality&sni={sni}&sid={shortId}&flow=xtls-rprx-vision#{email}],
    where [sni] and [shortId] are the first entries of the inbound's Reality
    [serverNames] and [shortIds] lists, each placeholder being the value as
    [str()] prints it. *)
Theorem C2_vless_reality_link
    (env : Env) (client_id : json) (server_ip : string) (port email : json)
    (d sd rd : list (string * json)) (sni short_id : json) (names ids : list json) :
  assoc "streamSettings" d = Some (JDict sd) ->
  assoc "realitySettings" sd = Some (JDict rd) ->
  assoc "serverNames" rd = Some (JList (sni :: names)) ->
  assoc "shortIds" rd = Some (JList (short_id :: ids)) ->
  _generate_connection_link env client_id server_ip port VLESS_REALITY (JDict d) email
  = Ok ("vless://" ++ py_str env client_id ++ "@" ++ server_ip ++ ":" ++ py_str env port
        ++ "?type=tcp&security=reality&sni=" ++ py_str env sni
        ++ "&sid=" ++ py_str env short_id
        ++ "&flow=xtls-rprx-vision#" ++ py_str env email).
Proof.
  intros Hss Hrs Hn Hi.
  unfold _generate_connection_link, py_getitem.
  rewrite Hss. cbn [rbind]. rewrite Hrs. cbn [rbind]. rewrite Hn. cbn [rbind py_getitem0].
  rewrite Hi. cbn [rbind py_getitem0].
  reflexivity.
Qed.

(** The example of the specification: identifier [U], address [1.2.3.4],
    port [443], SNI [www.example.com], short id [ab12], label [alice]. *)
Lemma C2_vless_reality_link_example :
  _generate_connection_link (sample_env []) (JStr "U") "1.2.3.4" (JInt 443)
    VLESS_REALITY (sample_inbound []) (JStr "alice")
  = Ok "vless://U@1.2.3.4:443?type=tcp&security=reality&sni=www.example.com&sid=ab12&flow=xtls-rprx-vision#alice".
Proof.
  exact (C2_vless_reality_link (sample_env []) (JStr "U") "1.2.3.4" (JInt 443)
           (JStr "alice") (sample_inbound_fields []) sample_stream_settings
           sample_reality_settings (JStr "www.example.com") (JStr "ab12") [] []
           eq_refl eq_refl eq_refl eq_refl).
Defined.

(** ** Running the manager's steps *)

Lemma bind_return {A B} (m : M A) (k : A -> M B) w a w1 :
  m w = (Return a, w1) -> bind m k w = k a w1.
Proof. intros H. unfold bind. by rewrite H. Qed.

Lemma bind_raise {A B} (m : M A) (k : A -> M B) w e w1 :
  m w = (Raise e, w1) -> bind m k w = (Raise e, w1).
Proof. intros H. unfold bind. by rewrite H. Qed.

Lemma lift_ok {A} (r : res A) a w : r = Ok a -> lift r w = (Return a, w).
Proof. by intros ->. Qed.

Lemma lift_err {A} (r : res A) e w : r = Err e -> lift r w = (Raise e, w).
Proof. by intros ->. Qed.

Section Runs.
Variable env : Env.
Variable self : ConfigManager.

Lemma validate_config_run (config : json) (w : World) :
  _validate_config env config w = (verdict env config, validated w).
Proof.
  unfold _validate_config, try_finally, bind, write_file, exec, path_exists, unlink,
    verdict, validated, raise, ret, set_fs, log.
  simpl. rewrite !lookup_insert_eq.
  destruct (xray_test env (Some (json_dumps env None config))) as [[rc stderr]|];
    [destruct (negb (rc =? 0))|];
    repeat first [rewrite lookup_insert_eq | rewrite delete_insert_eq | progress simpl];
    rewrite <- ?app_assoc; reflexivity.
Qed.
Lemma read_config_present (w : World) (content : string) :
  fs w !! config_path self = Some content ->
  _read_config env self w
  = (match json_loads env content with
     | Some config => Return config
     | None => Raise JSONDecodeError
     end, config_read self w).
Proof.
  intros H. unfold _read_config, bind, path_exists, read_file, config_read.
  rewrite H. simpl. rewrite H.
  destruct (json_loads env content); reflexivity.
Qed.

Lemma read_config_absent (w : World) :
  fs w !! config_path self = None ->
  _read_config env self w
  = (Raise (FileNotFoundError ("Config not found: " ++ config_path self)),
     log (FsExists (config_path self)) w).
Proof.
  intros H. unfold _read_config, bind, path_exists. rewrite H. reflexivity.
Qed.

Lemma write_config_rejected (config : json) (w : World) (e : exn) :
  verdict env config = Raise e ->
  _write_config env self config w = (Raise e, validated w).
Proof.
  intros H. unfold _write_config. apply bind_raise.
  rewrite validate_config_run. by rewrite H.
Qed.

Lemma write_config_accepted (config : json) (w : World) (temp_path : string) :
  verdict env config = Return true ->
  with_suffix (config_path self) ".tmp" = Ok temp_path ->
  _write_config env self config w
  = (Return tt, written self temp_path (json_dumps env (Some 2%nat) config) w).
Proof.
  intros Hv Ht. unfold _write_config.
  rewrite (bind_return _ _ w true (validated w))
    by (rewrite validate_config_run; by rewrite Hv).
  rewrite (bind_return _ _ _ temp_path (validated w)) by (by apply lift_ok).
  unfold bind, write_file, path_replace, written. simpl.
  rewrite lookup_insert_eq. reflexivity.
Qed.

Lemma verdict_cases (config : json) :
  verdict env config = Return true \/ exists e, verdict env config = Raise e.
Proof.
  unfold verdict.
  destruct (xray_test env _) as [[rc stderr]|]; [destruct (negb (rc =? 0))|]; eauto.
Qed.

Lemma verdict_nonzero (config : json) (returncode : Z) (stderr : string) :
  xray_test env (Some (json_dumps env None config)) = Some (returncode, stderr) ->
  returncode <> 0 ->
  verdict env config
  = Raise (ValueError ("Invalid Xray config: "
                       ++ (if String.eqb stderr "" then "Unknown error" else stderr))).
Proof.
  intros H Hrc. unfold verdict. rewrite H.
  destruct (Z.eqb_spec returncode 0); [contradiction|reflexivity].
Qed.

Lemma verdict_zero (config : json) (stderr : string) :
  xray_test env (Some (json_dumps env None config)) = Some (0, stderr) ->
  verdict env config = Return true.
Proof. intros H. unfold verdict. by rewrite H. Qed.

Lemma fs_validated (w : World) : fs (validated w) = delete xray_test_config (fs w).
Proof. reflexivity. Qed.


Lemma with_lock_free {A} (body : M A) (w w1 : World) (r : outcome A) :
  lock_held w = false ->
  body (set_lock true w) = (r, w1) ->
  r <> Blocked ->
  with_lock body w = (r, set_lock false w1).
Proof.
  intros Hl Hb Hr. unfold with_lock. rewrite Hl, Hb. by destruct r.
Qed.

Lemma with_lock_taken {A} (body : M A) (w : World) :
  lock_held w = true -> with_lock body w = (Blocked, w).
Proof. intros Hl. unfold with_lock. by rewrite Hl. Qed.

(** *** The client list *)

Lemma filter_clients_ok (profile_id : string) (clients : list json) :
  Forall is_client clients ->
  filter_clients profile_id clients
  = Ok (List.filter (fun c => negb (has_id profile_id c)) clients).
Proof.
  induction 1 as [|c rest [cid Hc] _ IH]; [reflexivity|].
  simpl. unfold has_id. rewrite Hc, IH. simpl.
  by destruct (eq_str cid profile_id).
Qed.

Lemma filter_all_kept {A} (f : A -> bool) (l : list A) :
  Forall (fun x => f x = true) l -> List.filter f l = l.
Proof.
  induction 1 as [|x l Hx _ IH]; [reflexivity|]. simpl. by rewrite Hx, IH.
Qed.

Lemma filter_length_le {A} (f : A -> bool) (l : list A) :
  (length (List.filter f l) <= length l)%nat.
Proof. induction l as [|x l IH]; simpl; [lia|]. destruct (f x); simpl; lia. Qed.

Lemma filter_some_dropped {A} (f : A -> bool) (l : list A) :
  Exists (fun x => f x = false) l ->
  (length (List.filter f l) < length l)%nat.
Proof.
  induction 1 as [x l Hx|x l _ IH]; simpl.
  - rewrite Hx. pose proof (filter_length_le f l). lia.
  - destruct (f x); simpl; lia.
Qed.

Lemma filter_sublist {A} (f : A -> bool) (l : list A) :
  sublist (List.filter f l) l.
Proof.
  induction l as [|x l IH]; simpl; [constructor|].
  destruct (f x); by constructor.
Qed.

Lemma assoc_dict_set (k : string) (v : json) (d : list (string * json)) :
  assoc k (dict_set k v d) = Some v.
Proof.
  induction d as [|[k' v'] d IH]; simpl.
  - by rewrite String.eqb_refl.
  - destruct (String.eqb k' k) eqn:E; simpl; by rewrite E.
Qed.

(** Where the first inbound's client list can be read, the document has
    the shape that the store through the aliases needs. *)
Lemma first_inbound_clients_shape (config clients : json) :
  first_inbound_clients config = Ok clients ->
  exists cd ind rest sd,
    config = JDict cd /\
    assoc "inbounds" cd = Some (JList (JDict ind :: rest)) /\
    assoc "settings" ind = Some (JDict sd) /\
    clients = default (JList []) (assoc "clients" sd).
Proof.
  unfold first_inbound_clients, first_inbound, py_getitem.
  destruct config as [| | | | | |cd]; try discriminate.
  destruct (assoc "inbounds" cd) as [inbounds|] eqn:Hi; [|discriminate].
  simpl. destruct inbounds as [| | | |[|c t]|[|inbound rest]|]; try discriminate.
  simpl. destruct inbound as [| | | | | |ind]; try discriminate.
  destruct (assoc "settings" ind) as [settings|] eqn:Hs; [|discriminate].
  simpl. destruct settings as [| | | | | |sd]; try discriminate.
  simpl. intros [= <-]. by exists cd, ind, rest, sd.
Qed.

Lemma set_clients_total (config clients v : json) :
  first_inbound_clients config = Ok clients ->
  exists config', set_clients config v = Ok config'.
Proof.
  intros (cd & ind & rest & sd & -> & Hi & Hs & _)%first_inbound_clients_shape.
  unfold set_clients. rewrite Hi, Hs. eauto.
Qed.

Lemma first_inbound_clients_set (config config' v : json) :
  set_clients config v = Ok config' ->
  first_inbound_clients config' = Ok v.
Proof.
  unfold set_clients.
  destruct config as [| | | | | |cd]; try discriminate.
  destruct (assoc "inbounds" cd) as [[| | | | |[|[| | | | | |ind] rest]|]|];
    try discriminate.
  destruct (assoc "settings" ind) as [[| | | | | |sd]|]; try discriminate.
  intros [= <-].
  unfold first_inbound_clients, first_inbound, py_getitem.
  rewrite assoc_dict_set. simpl. rewrite assoc_dict_set. simpl.
  by rewrite assoc_dict_set.
Qed.

(** *** delete_profile, up to its decision *)

(** What [delete_profile] does once it has the lock and has read a document
    whose client list is [clients]. *)
Lemma delete_profile_run (profile_id content : string) (config : json)
    (clients : list json) (w : World) :
  lock_held w = false ->
  fs w !! config_path self = Some content ->
  json_loads env content = Some config ->
  first_inbound_clients config = Ok (JList clients) ->
  Forall is_client clients ->
  let kept := List.filter (fun c => negb (has_id profile_id c)) clients in
  let w1 := config_read self (set_lock true w) in
  delete_profile env self profile_id w
  = if (length kept =? length clients)%nat then (Return false, set_lock false w1)
    else
      match set_clients config (JList kept) with
      | Ok config' =>
          match _write_config env self config' w1 with
          | (Return _, w2) => (Return true, set_lock false w2)
          | (Raise e, w2) => (Raise e, set_lock false w2)
          | (Blocked, w2) => (Blocked, w2)
          end
      | Err e => (Raise e, set_lock false w1)
      end.
Proof.
  intros Hl Hfile Hloads Hcl Hall kept w1.
  pose proof Hcl as (cd & ind & rest & sd & -> & Hi & Hs & Hc)%first_inbound_clients_shape.
  unfold delete_profile, with_lock. rewrite Hl.
  unfold bind at 1.
  rewrite (read_config_present (set_lock true w) content Hfile), Hloads.
  fold w1. unfold bind, lift, first_inbound, py_getitem, ret, raise. simpl.
  rewrite Hi. simpl. rewrite Hs. simpl. rewrite <- Hc. simpl.
  rewrite (filter_clients_ok profile_id clients Hall). fold kept.
  destruct (length kept =? length clients)%nat; [reflexivity|].
  destruct (_write_config env self _ w1) as [[| |] w2]; reflexivity.
Qed.

(** *** create_profile, up to its write *)

(** Once the document is read and validation passes, the document persisted
    by [create_profile] is the old one with one entry appended, whose label
    is the text passed in, unchanged; what follows the write touches no file. *)
Lemma create_profile_persists (utils : Utils) (email content temp_path stderr : string)
    (config inbound settings config' : json) (protocol_type : ProtocolType)
    (clients : list json) (w : World) :
  lock_held w = false ->
  fs w !! config_path self = Some content ->
  json_loads env content = Some config ->
  first_inbound config = Ok inbound ->
  _detect_protocol inbound = Ok protocol_type ->
  py_getitem inbound "settings" = Ok settings ->
  py_getitem settings "clients" = Ok (JList clients) ->
  let new_uuid := generate_uuid utils (uuid_count w) in
  let new_client :=
    if decide (protocol_type = VLESS_REALITY)
    then JDict [("id", JStr new_uuid); ("email", JStr email);
                ("flow", JStr "xtls-rprx-vision")]
    else JDict [("id", JStr new_uuid); ("email", JStr email)] in
  set_clients config (JList (clients ++ [new_client])) = Ok config' ->
  xray_test env (Some (json_dumps env None config')) = Some (0, stderr) ->
  with_suffix (config_path self) ".tmp" = Ok temp_path ->
  fs (create_profile env utils self email w).2 !! config_path self
  = Some (json_dumps env (Some 2%nat) config') /\
  first_inbound_clients config' = Ok (JList (clients ++ [new_client])) /\
  py_getitem new_client "email" = Ok (JStr email).
Proof.
  intros Hl Hfile Hloads Hin Hpt Hset Hcl new_uuid new_client Hcfg Hok Htmp.
  split; [|split].
  - unfold create_profile, with_lock. rewrite Hl.
    unfold bind at 1.
    rewrite (read_config_present (set_lock true w) content Hfile), Hloads.
    rewrite (bind_return _ _ _ inbound _ (lift_ok _ _ _ Hin)).
    unfold bind at 1, fresh_uuid. cbn [uuid_count config_read log set_lock].
    fold new_uuid.
    rewrite (bind_return _ _ _ protocol_type _ (lift_ok _ _ _ Hpt)).
    fold new_client.
    rewrite (bind_return _ _ _ settings _ (lift_ok _ _ _ Hset)).
    rewrite (bind_return _ _ _ (JList clients) _ (lift_ok _ _ _ Hcl)).
    unfold py_append.
    rewrite (bind_return _ _ _ (JList (clients ++ [new_client])) _ (lift_ok _ _ _ eq_refl)).
    rewrite (bind_return _ _ _ config' _ (lift_ok _ _ _ Hcfg)).
    assert (exists inbound', first_inbound config' = Ok inbound') as [inbound' Hin'].
    { pose proof (first_inbound_clients_set _ _ _ Hcfg) as H.
      unfold first_inbound_clients in H.
      destruct (first_inbound config'); [eauto|discriminate]. }
    rewrite (bind_return _ _ _ inbound' _ (lift_ok _ _ _ Hin')).
    unfold bind at 1.
    rewrite (write_config_accepted config' _ temp_path (verdict_zero config' stderr Hok) Htmp).
    unfold _build_profile_response, bind, lift, ret, raise, now.
    repeat match goal with
           | |- context [match ?x with Ok _ => _ | Err _ => _ end] => destruct x
           end; simpl; apply lookup_insert_eq.
  - by apply first_inbound_clients_set with config.
  - subst new_client. by destruct (decide (protocol_type = VLESS_REALITY)).
Qed.

(** *** Statistics *)

Lemma get_xray_uptime_run (w : World) :
  _get_xray_uptime env w
  = (Return 0,
     log (Exec ["systemctl"; "show"; "xray"; "--property=ActiveEnterTimestamp"]) w).
Proof.
  unfold _get_xray_uptime, try_except, bind, exec.
  destruct (systemctl_runs env); reflexivity.
Qed.

Lemma StatsResponse_new_count (n : nat) :
  StatsResponse_new 0 (Z.of_nat n) 0 0
  = Ok (mkStatsResponse 0 (Z.of_nat n) 0 0 None None).
Proof.
  unfold StatsResponse_new. simpl.
  destruct (Z.ltb_spec (Z.of_nat n) 0); [lia|reflexivity].
Qed.

Lemma get_statistics_run (w : World) :
  exists w', get_statistics env self w = (Return (snapshot env self w), w') /\ fs w' = fs w.
Proof.
  unfold get_statistics, try_except, snapshot.
  destruct (fs w !! config_path self) as [content|] eqn:Hf.
  - unfold bind at 1. rewrite (read_config_present w content Hf).
    destruct (json_loads env content) as [config|]; [|by eexists].
    unfold count_clients, first_inbound_clients, bind, lift, ret, raise.
    destruct (first_inbound config) as [inbound|]; simpl; [|by eexists].
    destruct (py_getitem inbound "settings") as [settings|]; simpl; [|by eexists].
    destruct (py_get settings "clients" (JList [])) as [clients|]; simpl; [|by eexists].
    destruct (py_len clients) as [n|]; simpl; [|by eexists].
    rewrite get_xray_uptime_run, StatsResponse_new_count. by eexists.
  - unfold bind at 1. rewrite (read_config_absent w Hf). by eexists.
Qed.

(** *** Backup and restore *)



End Runs.

(** ** Atomic write *)

(** C5: when the external configuration test exits non-zero on a candidate
    document, the write fails with the invalid-input error carrying the
    test's diagnostic, the file system afterwards is the one before minus the
    throwaway validation file (so the persisted document is intact and no
    file, in particular no write-temp sibling, has appeared), and the only
    path written, renamed onto or copied onto is the throwaway file; and
    whatever the outcome of a validation, the throwaway file is gone after
    it. *)
Theorem C5_rejected_write_leaves_document
    (env : Env) (self : ConfigManager) (config : json) (w : World)
    (returncode : Z) (stderr : string) :
  xray_test env (Some (json_dumps env None config)) = Some (returncode, stderr) ->
  returncode <> 0 ->
  config_path self <> xray_test_config ->
  (exists w',
     _write_config env self config w
     = (Raise (ValueError ("Invalid Xray config: "
                           ++ (if String.eqb stderr "" then "Unknown error" else stderr))),
        w') /\
     fs w' = delete xray_test_config (fs w) /\
     fs w' !! config_path self = fs w !! config_path self /\
     (forall p, fs w !! p = None -> fs w' !! p = None) /\
     Forall (fun e => forall p, act e = FsWrite p \/ (exists src, act e = FsReplace src p)
                                \/ (exists src, act e = FsCopy src p)
                                -> p = xray_test_config)
            (drop (length (trace w)) (trace w'))) /\
  (forall config0 w0,
     fs (_validate_config env config0 w0).2 !! xray_test_config = None).
Proof.
  intros Hx Hrc Hne. split.
  - exists (validated w). split.
    + apply write_config_rejected. by apply verdict_nonzero with returncode.
    + rewrite fs_validated. split; [reflexivity|]. split.
      * by rewrite lookup_delete_ne.
      * split.
        -- intros p Hp. destruct (decide (xray_test_config = p)) as [<-|Hd].
           ++ apply lookup_delete_eq.
           ++ by rewrite lookup_delete_ne.
        -- unfold validated, log, set_fs. simpl.
           rewrite <- !app_assoc, drop_app_length. simpl.
           repeat constructor; simpl; intros p [H|[[src H]|[src H]]];
             try discriminate; by inversion H.
  - intros config0 w0. rewrite validate_config_run. simpl. apply lookup_delete_eq.
Qed.

Lemma C5_rejected_write_witness :
  let env := sample_env [] in
  let w := sample_world [("/usr/local/etc/xray/config.json", "old")] false in
  (_write_config env default_manager (JDict [("log", JDict [])]) w).1
  = Raise (ValueError "Invalid Xray config: no inbounds") /\
  fs (_write_config env default_manager (JDict [("log", JDict [])]) w).2
     !! "/usr/local/etc/xray/config.json" = Some "old".
Proof.
  destruct (C5_rejected_write_leaves_document (sample_env []) default_manager
              (JDict [("log", JDict [])])
              (sample_world [("/usr/local/etc/xray/config.json", "old")] false)
              23 "no inbounds" eq_refl ltac:(discriminate) ltac:(discriminate))
    as [(w' & Hrun & _ & Hcfg & _) _].
  cbn zeta. rewrite Hrun. split; [reflexivity|]. exact Hcfg.
Defined.

(** ** Deleting a profile *)

(** C4: when no entry of the first inbound's client list carries the given
    identifier, [delete_profile] returns the not-found indicator [False] and
    writes nothing: the file system is unchanged, the only actions are the
    existence check and the read of the document, and the HTTP handler answers
    404. *)
Theorem C4_delete_absent_profile
    (env : Env) (utils : Utils) (self : ConfigManager)
    (profile_id content : string) (config : json) (clients : list json) (w : World) :
  lock_held w = false ->
  fs w !! config_path self = Some content ->
  json_loads env content = Some config ->
  first_inbound_clients config = Ok (JList clients) ->
  Forall is_client clients ->
  Forall (fun c => has_id profile_id c = false) clients ->
  exists w',
    delete_profile env self profile_id w = (Return false, w') /\
    fs w' = fs w /\
    lock_held w' = false /\
    trace w' = (trace w ++ [Entry true (FsExists (config_path self));
                            Entry true (FsRead (config_path self))])%list /\
    (delete_profile_handler env utils self profile_id w).1
    = Return (HTTPException 404%nat None).
Proof.
  intros Hl Hfile Hloads Hcl Hall Hnone.
  pose proof (delete_profile_run env self profile_id content config clients w
                Hl Hfile Hloads Hcl Hall) as Hrun.
  cbn zeta in Hrun.
  rewrite filter_all_kept, Nat.eqb_refl in Hrun
    by (eapply Forall_impl; [exact Hnone|]; by intros c ->).
  eexists. split; [exact Hrun|].
  split; [reflexivity|]. split; [reflexivity|]. split.
  - unfold config_read, log, set_lock. simpl. by rewrite <- app_assoc.
  - unfold delete_profile_handler, try_except, bind. by rewrite Hrun.
Qed.

Lemma C4_delete_absent_witness :
  (delete_profile (sample_env [sample_doc]) default_manager "nobody"
     (sample_installed false)).1 = Return false /\
  fs (delete_profile (sample_env [sample_doc]) default_manager "nobody"
        (sample_installed false)).2 = fs (sample_installed false).
Proof.
  destruct (C4_delete_absent_profile (sample_env [sample_doc]) sample_utils
              default_manager "nobody" (render sample_doc) sample_doc
              [sample_client "U" "alice"] (sample_installed false))
    as (w' & Hrun & Hfs & _).
  - reflexivity.
  - reflexivity.
  - reflexivity.
  - reflexivity.
  - repeat constructor. by eexists.
  - by repeat constructor.
  - rewrite Hrun. split; [reflexivity|exact Hfs].
Defined.

(** C10: when at least one entry carries the given identifier and the
    external test accepts the resulting document, [delete_profile] succeeds
    and the persisted document is the rendering of a document whose first
    inbound's client list is the old list without every entry carrying that
    identifier: no such entry remains, and the other entries are all kept, in
    their original order. *)
Theorem C10_delete_removes_every_match
    (env : Env) (self : ConfigManager)
    (profile_id content temp_path stderr : string) (config config' : json)
    (clients : list json) (w : World) :
  lock_held w = false ->
  fs w !! config_path self = Some content ->
  json_loads env content = Some config ->
  first_inbound_clients config = Ok (JList clients) ->
  Forall is_client clients ->
  Exists (fun c => has_id profile_id c = true) clients ->
  let kept := List.filter (fun c => negb (has_id profile_id c)) clients in
  set_clients config (JList kept) = Ok config' ->
  xray_test env (Some (json_dumps env None config')) = Some (0, stderr) ->
  with_suffix (config_path self) ".tmp" = Ok temp_path ->
  exists w',
    delete_profile env self profile_id w = (Return true, w') /\
    fs w' !! config_path self = Some (json_dumps env (Some 2%nat) config') /\
    first_inbound_clients config' = Ok (JList kept) /\
    Forall (fun c => has_id profile_id c = false) kept /\
    (forall c, In c clients -> has_id profile_id c = false -> In c kept) /\
    sublist kept clients.
Proof.
  intros Hl Hfile Hloads Hcl Hall Hsome kept Hset Hok Htmp.
  pose proof (delete_profile_run env self profile_id content config clients w
                Hl Hfile Hloads Hcl Hall) as Hrun.
  cbn zeta in Hrun. fold kept in Hrun.
  assert (Hlt : (length kept < length clients)%nat).
  { apply filter_some_dropped. eapply Exists_impl; [exact Hsome|].
    by intros c ->. }
  destruct (Nat.eqb_spec (length kept) (length clients)) as [Heq|_]; [lia|].
  rewrite Hset in Hrun.
  rewrite (write_config_accepted env self config' _ temp_path
             (verdict_zero env config' stderr Hok) Htmp) in Hrun.
  eexists. split; [exact Hrun|]. split; [|split; [|split; [|split]]].
  - simpl. apply lookup_insert_eq.
  - by apply first_inbound_clients_set with config.
  - apply Forall_forall. intros c Hc%list_elem_of_In%filter_In.
    destruct Hc as [_ Hc]. by destruct (has_id profile_id c).
  - intros c Hc Hid. apply filter_In. by rewrite Hid.
  - apply filter_sublist.
Qed.

Lemma C10_delete_removes_every_match_witness :
  (delete_profile (sample_env [sample_doc_dup]) default_manager "U"
     (sample_world [(config_path default_manager, render sample_doc_dup)] false)).1
  = Return true /\
  fs (delete_profile (sample_env [sample_doc_dup]) default_manager "U"
        (sample_world [(config_path default_manager, render sample_doc_dup)] false)).2
     !! config_path default_manager
  = Some (render (sample_config [sample_client "V" "bob"])).
Proof.
  destruct (C10_delete_removes_every_match (sample_env [sample_doc_dup]) default_manager
              "U" (render sample_doc_dup) "/usr/local/etc/xray/config.tmp" ""
              sample_doc_dup (sample_config [sample_client "V" "bob"])
              sample_clients_dup
              (sample_world [(config_path default_manager, render sample_doc_dup)] false))
    as (w' & Hrun & Hfs & _).
  - reflexivity.
  - reflexivity.
  - reflexivity.
  - reflexivity.
  - repeat constructor; by eexists.
  - by constructor.
  - reflexivity.
  - reflexivity.
  - reflexivity.
  - rewrite Hrun. split; [reflexivity|exact Hfs].
Defined.

(** ** Statistics *)

Example statistics_counts_clients :
  (get_statistics (sample_env [sample_doc_dup]) default_manager
     (sample_world [(config_path default_manager, render sample_doc_dup)] false)).1
  = Return (mkStatsResponse 0 3 0 0 None None).
Proof. reflexivity. Qed.

Example statistics_of_absent_file :
  (get_statistics (sample_env []) default_manager (sample_world [] false)).1
  = Return StatsResponse_default.
Proof. vm_compute. reflexivity. Qed.

Example statistics_of_unparseable_file :
  (get_statistics (sample_env []) default_manager (sample_installed false)).1
  = Return StatsResponse_default.
Proof. vm_compute. reflexivity. Qed.

(** C7: whatever the state of the configuration file, statistics retrieval
    returns a snapshot and never raises. The active-connection, uptime and
    traffic counters are always zero; the snapshot is the all-zero one when
    the file is absent, when it does not parse, and when the client list of
    the first inbound cannot be counted; otherwise only the profile count,
    the length of that list, is filled in. The file system is left as it was,
    and the HTTP handler answers 200 with that snapshot. *)
Theorem C7_statistics_never_raise (env : Env) (self : ConfigManager) (w : World) :
  exists (s : StatsResponse) (w' : World),
    get_statistics env self w = (Return s, w') /\
    fs w' = fs w /\
    active_connections s = 0 /\ uptime_seconds s = 0 /\ total_traffic_bytes s = 0 /\
    cpu_usage_percent s = None /\ memory_usage_percent s = None /\
    0 <= total_profiles s /\
    match fs w !! config_path self with
    | None => s = StatsResponse_default
    | Some content =>
        match json_loads env content with
        | None => s = StatsResponse_default
        | Some config =>
            match count_clients config with
            | Ok n => s = mkStatsResponse 0 (Z.of_nat n) 0 0 None None
            | Err _ => s = StatsResponse_default
            end
        end
    end /\
    (get_stats_handler env self w).1 = Return (Response 200%nat s).
Proof.
  destruct (get_statistics_run env self w) as (w' & Hrun & Hfs).
  exists (snapshot env self w), w'. split; [exact Hrun|]. split; [exact Hfs|].
  assert (Hshape : snapshot env self w = StatsResponse_default \/
                   exists n, snapshot env self w
                             = mkStatsResponse 0 (Z.of_nat n) 0 0 None None).
  { unfold snapshot.
    destruct (fs w !! config_path self) as [content|]; [|by left].
    destruct (json_loads env content) as [config|]; [|by left].
    destruct (count_clients config) as [n|]; [right; by exists n|by left]. }
  repeat split.
  1-6: destruct Hshape as [->|[n ->]]; simpl; first [reflexivity | lia].
  - unfold snapshot.
    destruct (fs w !! config_path self) as [content|]; [|reflexivity].
    destruct (json_loads env content) as [config|]; [|reflexivity].
    destruct (count_clients config) as [n|]; reflexivity.
  - unfold get_stats_handler, try_except, bind. by rewrite Hrun.
Qed.

(** ** The version string *)

Lemma append_cons (c : ascii) (s t : string) : String c s ++ t = String c (s ++ t).
Proof. reflexivity. Qed.

Lemma append_empty_l (s : string) : "" ++ s = s.
Proof. reflexivity. Qed.

Lemma append_empty_r (s : string) : s ++ "" = s.
Proof.
  induction s as [|c s IH]; [reflexivity|]. rewrite append_cons. by f_equal.
Qed.

Lemma append_assoc (s1 s2 s3 : string) : (s1 ++ s2) ++ s3 = s1 ++ s2 ++ s3.
Proof.
  induction s1 as [|c s1 IH]; [reflexivity|]. rewrite !append_cons. by f_equal.
Qed.

Lemma trail_inv (lo hi : N) (c : ascii) (x : N) :
  trail lo hi c = Some x ->
  (lo <= N_of_ascii c <= hi)%N /\ x = (N_of_ascii c - 0x80)%N.
Proof.
  unfold trail, in_range.
  destruct (N.leb_spec lo (N_of_ascii c)); [|discriminate].
  destruct (N.leb_spec (N_of_ascii c) hi); [|discriminate].
  simpl. intros [= <-]. lia.
Qed.

(** Linear arithmetic with division by a constant. *)
Ltac euclid := zify; Z.to_euclidean_division_equations; lia.

Lemma byte2 (n0 n1 : N) :
  (0xC2 <= n0 <= 0xDF)%N -> (0x80 <= n1 <= 0xBF)%N ->
  let c := ((n0 - 0xC0) * 64 + (n1 - 0x80))%N in
  (0x80 <= c < 0x800)%N /\ (0xC0 + c / 64 = n0)%N /\ (0x80 + c mod 64 = n1)%N.
Proof. intros H0 H1. cbn zeta. euclid. Qed.

Lemma byte3 (n0 n1 n2 : N) :
  (0xE0 <= n0 <= 0xEF)%N ->
  ((if (n0 =? 0xE0)%N then 0xA0 else 0x80) <= n1
   <= (if (n0 =? 0xED)%N then 0x9F else 0xBF))%N ->
  (0x80 <= n2 <= 0xBF)%N ->
  let c := ((n0 - 0xE0) * 4096 + (n1 - 0x80) * 64 + (n2 - 0x80))%N in
  (0x800 <= c < 0x10000)%N /\ (0xE0 + c / 4096 = n0)%N /\
  (0x80 + (c / 64) mod 64 = n1)%N /\ (0x80 + c mod 64 = n2)%N.
Proof.
  intros H0 H1 H2. cbn zeta.
  destruct (N.eqb_spec n0 0xE0); destruct (N.eqb_spec n0 0xED); euclid.
Qed.

Lemma byte4 (n0 n1 n2 n3 : N) :
  (0xF0 <= n0 <= 0xF4)%N ->
  ((if (n0 =? 0xF0)%N then 0x90 else 0x80) <= n1
   <= (if (n0 =? 0xF4)%N then 0x8F else 0xBF))%N ->
  (0x80 <= n2 <= 0xBF)%N -> (0x80 <= n3 <= 0xBF)%N ->
  let c := ((n0 - 0xF0) * 262144 + (n1 - 0x80) * 4096 + (n2 - 0x80) * 64 + (n3 - 0x80))%N in
  (0x10000 <= c)%N /\ (0xF0 + c / 262144 = n0)%N /\
  (0x80 + (c / 4096) mod 64 = n1)%N /\
  (0x80 + (c / 64) mod 64 = n2)%N /\ (0x80 + c mod 64 = n3)%N.
Proof.
  intros H0 H1 H2 H3. cbn zeta.
  destruct (N.eqb_spec n0 0xF0); destruct (N.eqb_spec n0 0xF4); euclid.
Qed.

Lemma byte_of_ascii (c : ascii) : ascii_of_N (N_of_ascii c) = c.
Proof. apply ascii_N_embedding. Qed.

Lemma in_range_spec (lo hi n : N) : in_range lo hi n = true <-> (lo <= n <= hi)%N.
Proof.
  unfold in_range. rewrite andb_true_iff, !N.leb_le. tauto.
Qed.

(** Decoding loses nothing: encoding the code points gives the bytes back. *)
Lemma utf8_encode_decode (s : string) (text : list N) :
  utf8_decode s = Some text -> utf8_encode text = s.
Proof.
  remember (String.length s) as n eqn:Hn.
  assert (Hlen : (String.length s <= n)%nat) by lia. clear Hn.
  revert s text Hlen. induction n as [|n IH]; intros s text Hlen.
  - destruct s; [|simpl in Hlen; lia]. by intros [= <-].
  - destruct s as [|c0 s1]; [by intros [= <-]|].
    cbn [utf8_decode]. cbv zeta.
    destruct (N.ltb_spec (N_of_ascii c0) 0x80) as [H0|H0].
    { destruct (utf8_decode s1) as [t|] eqn:Ht; [|discriminate]. intros [= <-].
      cbn [utf8_encode]. unfold utf8_encode_char.
      destruct (N.ltb_spec (N_of_ascii c0) 0x80); [|lia].
      rewrite byte_of_ascii, append_cons, append_empty_l. f_equal.
      apply IH; [simpl in Hlen; lia|done]. }
    destruct (in_range 0xC2 0xDF (N_of_ascii c0)) eqn:H2.
    { apply in_range_spec in H2.
      destruct s1 as [|c1 s2]; [discriminate|].
      destruct (trail 0x80 0xBF c1) as [x1|] eqn:Hx1; [|discriminate].
      destruct (utf8_decode s2) as [t|] eqn:Ht; [|discriminate]. intros [= <-].
      apply trail_inv in Hx1 as [Hr1 ->].
      destruct (byte2 _ _ H2 Hr1) as ([Hlo Hhi] & E0 & E1).
      cbn [utf8_encode]. unfold utf8_encode_char.
      destruct (N.ltb_spec ((N_of_ascii c0 - 0xC0) * 64 + (N_of_ascii c1 - 0x80)) 0x80); [lia|].
      destruct (N.ltb_spec ((N_of_ascii c0 - 0xC0) * 64 + (N_of_ascii c1 - 0x80)) 0x800); [|lia].
      rewrite E0, E1, !byte_of_ascii, !append_cons, append_empty_l. do 2 f_equal.
      apply IH; [simpl in Hlen; lia|done]. }
    destruct (in_range 0xE0 0xEF (N_of_ascii c0)) eqn:H3.
    { apply in_range_spec in H3.
      destruct s1 as [|c1 [|c2 s3]]; [discriminate..|].
      destruct (trail _ _ c1) as [x1|] eqn:Hx1; [|discriminate].
      destruct (trail 0x80 0xBF c2) as [x2|] eqn:Hx2; [|discriminate].
      destruct (utf8_decode s3) as [t|] eqn:Ht; [|discriminate]. intros [= <-].
      apply trail_inv in Hx1 as [Hr1 ->]. apply trail_inv in Hx2 as [Hr2 ->].
      destruct (byte3 _ _ _ H3 Hr1 Hr2) as ([Hlo Hhi] & E0 & E1 & E2).
      cbn [utf8_encode]. unfold utf8_encode_char.
      match goal with |- context [(?c <? 0x80)%N] =>
        destruct (N.ltb_spec c 0x80); [lia|];
        destruct (N.ltb_spec c 0x800); [lia|];
        destruct (N.ltb_spec c 0x10000); [|lia]
      end.
      rewrite E0, E1, E2, !byte_of_ascii, !append_cons, append_empty_l. do 3 f_equal.
      apply IH; [simpl in Hlen; lia|done]. }
    destruct (in_range 0xF0 0xF4 (N_of_ascii c0)) eqn:H4; [|discriminate].
    apply in_range_spec in H4.
    destruct s1 as [|c1 [|c2 [|c3 s4]]]; [discriminate..|].
    destruct (trail _ _ c1) as [x1|] eqn:Hx1; [|discriminate].
    destruct (trail 0x80 0xBF c2) as [x2|] eqn:Hx2; [|discriminate].
    destruct (trail 0x80 0xBF c3) as [x3|] eqn:Hx3; [|discriminate].
    destruct (utf8_decode s4) as [t|] eqn:Ht; [|discriminate]. intros [= <-].
    apply trail_inv in Hx1 as [Hr1 ->]. apply trail_inv in Hx2 as [Hr2 ->].
    apply trail_inv in Hx3 as [Hr3 ->].
    destruct (byte4 _ _ _ _ H4 Hr1 Hr2 Hr3) as (Hlo & E0 & E1 & E2 & E3).
    cbn [utf8_encode]. unfold utf8_encode_char.
    match goal with |- context [(?c <? 0x80)%N] =>
      destruct (N.ltb_spec c 0x80); [lia|];
      destruct (N.ltb_spec c 0x800); [lia|];
      destruct (N.ltb_spec c 0x10000); [lia|]
    end.
    rewrite E0, E1, E2, E3, !byte_of_ascii, !append_cons, append_empty_l. do 4 f_equal.
    apply IH; [simpl in Hlen; lia|done].
Qed.

Lemma first_line_is_first_line (text : list N) :
  first_line_of text (first_line text).
Proof.
  induction text as [|c text [Hnl IH]]; simpl.
  - split; [by intros []|by left].
  - destruct (N.eqb_spec c 0x0A) as [->|Hc].
    + split; [by intros []|]. right. by exists text.
    + split; [intros [?|?]; [congruence|contradiction]|].
      destruct IH as [IH|[rest IH]]; [left|right; exists rest]; by rewrite IH at 1.
Qed.

Lemma first_line_of_first_line (text line : list N) :
  first_line_of text line -> first_line text = line.
Proof.
  intros [Hnl Htext]. revert text Htext.
  induction line as [|c line IH]; intros text Htext.
  - by destruct Htext as [->|[rest ->]].
  - assert (Hc : c <> 0x0A%N) by (intros ->; apply Hnl; by left).
    assert (Hnl' : ~ In 0x0A%N line) by (intros H; apply Hnl; by right).
    destruct Htext as [->|[rest ->]]; simpl;
      (destruct (N.eqb_spec c 0x0A) as [|_]; [contradiction|]); f_equal;
      apply (IH Hnl'); [by left|right; by exists rest].
Qed.

Lemma split_ws_blank (cur post : list N) :
  blank post -> split_ws cur post = match cur with [] => [] | _ => [cur] end.
Proof.
  unfold blank. intros Hpost. revert cur.
  induction Hpost as [|c post Hc _ IH]; intros cur; [reflexivity|].
  simpl. rewrite Hc, (IH []). by destruct cur.
Qed.

Lemma split_ws_run (token cur rest : list N) :
  Forall (fun c => isspace c = false) token ->
  split_ws cur (token ++ rest) = split_ws (cur ++ token) rest.
Proof.
  intros Htoken. revert cur.
  induction Htoken as [|c token Hc _ IH]; intros cur; simpl.
  - by rewrite app_nil_r.
  - rewrite Hc, IH. by rewrite <- app_assoc.
Qed.

Lemma split_ws_after_space (pre cur : list N) (c : N) (rest : list N) :
  isspace c = true ->
  exists pieces, split_ws cur (pre ++ c :: rest) = (pieces ++ split_ws [] rest)%list.
Proof.
  intros Hc. revert cur. induction pre as [|a pre IH]; intros cur; simpl.
  - rewrite Hc. destruct cur; [by exists []|]. by eexists [_].
  - destruct (isspace a).
    + destruct (IH []) as [pieces ->].
      destruct cur; [by exists pieces|]. by eexists (_ :: pieces).
    + apply IH.
Qed.

(** The last piece [split] returns is the last token. *)
Lemma split_ws_last_token (line token : list N) :
  last_token line token -> last (split_ws [] line) = Some token.
Proof.
  intros (pre & post & -> & Hpost & Htoken & Hne & Hpre).
  assert (Hrun : split_ws [] (token ++ post) = [token]).
  { rewrite (split_ws_run token [] post Htoken), (split_ws_blank _ _ Hpost).
    simpl. by destruct token. }
  destruct Hpre as [->|(pre' & c & -> & Hc)].
  - simpl. by rewrite Hrun.
  - rewrite <- app_assoc. simpl.
    destruct (split_ws_after_space pre' [] c (token ++ post) Hc) as [pieces ->].
    rewrite Hrun. apply last_snoc.
Qed.

Lemma split_ws_nil (text cur : list N) :
  split_ws cur text = [] -> cur = [] /\ blank text.
Proof.
  revert cur. induction text as [|c text IH]; intros cur; simpl.
  - destruct cur; [by split; [|constructor]|discriminate].
  - destruct (isspace c) eqn:Hc.
    + destruct cur; [|discriminate]. intros [_ Htext]%IH. split; [done|by constructor].
    + intros [Hcur _]%IH. by destruct cur.
Qed.

(** Conversely, whatever [split] returns last is the last token of what it
    read. *)
Lemma split_ws_last (text cur token : list N) :
  Forall (fun c => isspace c = false) cur ->
  last (split_ws cur text) = Some token ->
  last_token (cur ++ text) token.
Proof.
  revert cur. induction text as [|c text IH]; intros cur Hcur; simpl.
  - destruct cur as [|a cur]; [discriminate|]. intros [= <-].
    exists [], []. rewrite !app_nil_r. repeat split; auto. constructor.
  - destruct (isspace c) eqn:Hc.
    + destruct cur as [|a cur].
      * intros (pre & post & Htext & Hpost & Htoken & Hne & Hpre)%(IH [] (Forall_nil_2 _)).
        simpl in Htext. exists (c :: pre), post. simpl. rewrite Htext.
        repeat split; try done. right.
        destruct Hpre as [->|(pre' & c' & -> & Hc')].
        -- by exists [], c.
        -- by exists (c :: pre'), c'.
      * destruct (split_ws [] text) as [|t ts] eqn:Hsplit.
        -- intros [= <-]. apply split_ws_nil in Hsplit as [_ Htext].
           exists [], (c :: text). repeat split; auto. by constructor.
        -- change (last ((a :: cur) :: t :: ts)) with (last (t :: ts)). rewrite <- Hsplit.
           intros (pre & post & Htext & Hpost & Htoken & Hne & Hpre)%(IH [] (Forall_nil_2 _)).
           simpl in Htext. exists ((a :: cur) ++ c :: pre)%list, post.
           rewrite Htext, <- !app_assoc. simpl.
           repeat split; try done. right.
           destruct Hpre as [->|(pre' & c' & -> & Hc')].
           ++ by exists (a :: cur), c.
           ++ exists ((a :: cur) ++ c :: pre')%list, c'.
              by rewrite <- !app_assoc.
    + intros Hlast. apply IH in Hlast.
      * by rewrite <- app_assoc in Hlast.
      * apply Forall_app. split; [done|by repeat constructor].
Qed.

(** A line that is not blank has a last token. *)
Lemma last_token_exists (line : list N) :
  ~ blank line -> exists token, last_token line token.
Proof.
  intros Hline.
  destruct (last (split_ws [] line)) as [token|] eqn:Hlast.
  - exists token. by apply (split_ws_last line [] token (Forall_nil_2 _)).
  - apply last_None in Hlast. by apply split_ws_nil in Hlast as [_ ?].
Qed.

Lemma parse_xray_version_token (stdout : string) (text line token : list N) :
  stdout <> "" ->
  utf8_decode stdout = Some text ->
  first_line_of text line ->
  last_token line token ->
  parse_xray_version stdout = Ok (utf8_encode token).
Proof.
  intros Hne Htext Hline Htoken. unfold parse_xray_version.
  destruct (String.eqb_spec stdout ""); [contradiction|].
  rewrite Htext, (first_line_of_first_line _ _ Hline).
  by rewrite (split_ws_last_token _ _ Htoken).
Qed.

Lemma parse_xray_version_blank (stdout : string) (text line : list N) :
  stdout <> "" ->
  utf8_decode stdout = Some text ->
  first_line_of text line ->
  blank line ->
  parse_xray_version stdout = Err IndexError.
Proof.
  intros Hne Htext Hline Hblank. unfold parse_xray_version.
  destruct (String.eqb_spec stdout ""); [contradiction|].
  rewrite Htext, (first_line_of_first_line _ _ Hline).
  by rewrite (split_ws_blank [] line Hblank).
Qed.

(** System info, once the version query has answered: it stops at the
    version string when that cannot be parsed, and otherwise goes on to the
    answer. *)
Lemma get_system_info_run
    (env : Env) (self : ConfigManager) (stdout content : string)
    (config inbound : json) (protocol : ProtocolType) (w : World) :
  xray_version_stdout env = Some stdout ->
  py_split (sys_version env) <> [] ->
  fs w !! config_path self = Some content ->
  json_loads env content = Some config ->
  first_inbound config = Ok inbound ->
  _detect_protocol inbound = Ok protocol ->
  match parse_xray_version stdout with
  | Ok version =>
      exists info w',
        get_system_info env self w = (Return info, w') /\
        xray_version info = version /\ active_protocol info = protocol
  | Err e =>
      get_system_info env self w = (Raise e, log (Exec [xray_binary; "version"]) w)
  end.
Proof.
  intros Hout Hpy Hfile Hloads Hin Hpt.
  unfold get_system_info.
  rewrite (bind_return _ _ w stdout (log (Exec [xray_binary; "version"]) w))
    by (unfold exec; by rewrite Hout).
  destruct (parse_xray_version stdout) as [version|e]; [|reflexivity].
  rewrite (bind_return _ _ _ version _ eq_refl).
  destruct (py_split (sys_version env)) as [|pyv rest]; [done|].
  rewrite (bind_return _ _ _ pyv _ eq_refl).
  assert (Hbbr : exists bbr w1,
             _check_bbr env (log (Exec [xray_binary; "version"]) w) = (Return bbr, w1) /\
             fs w1 = fs w).
  { unfold _check_bbr, try_except, bind, exec.
    destruct (sysctl_stdout env); by eexists _, _. }
  destruct Hbbr as (bbr & w1 & Hbbr & Hfs).
  rewrite (bind_return _ _ _ bbr w1 Hbbr).
  rewrite (bind_return _ _ _ config (config_read self w1))
    by (rewrite (read_config_present env self w1 content) by (by rewrite Hfs);
        by rewrite Hloads).
  rewrite (bind_return _ _ _ inbound _ (lift_ok _ _ _ Hin)).
  rewrite (bind_return _ _ _ protocol _ (lift_ok _ _ _ Hpt)).
  by eexists _, _.
Qed.

Example version_of_sample_output :
  parse_xray_version
    ("Xray 1.8.4 (Xray, Penetrates Everything.) Custom (go1.21.1 linux/amd64)"
     ++ String "010" "A unified platform for anti-censorship.")
  = Ok "linux/amd64)".
Proof. vm_compute. reflexivity. Qed.

(** White space beyond ASCII delimits tokens as well: here an em space
    (U+2003) and a no-break space (U+00A0). *)
Example version_after_unicode_space :
  parse_xray_version
    ("Xray" ++ String "226" (String "128" (String "131" "1.8.4"))
     ++ String "194" (String "160" ""))
  = Ok "1.8.4".
Proof. vm_compute. reflexivity. Qed.

Example version_of_blank_first_line :
  parse_xray_version (String "010" "Xray 1.8.4") = Err IndexError.
Proof. vm_compute. reflexivity. Qed.

Example version_of_ill_formed_output :
  parse_xray_version (String "255" "Xray 1.8.4") = Err UnicodeDecodeError.
Proof. vm_compute. reflexivity. Qed.

(** C9, as the specification words it, fails: system info does not report
    a version string for every output of the version query. When the output
    is not empty and its first line is blank, here a line feed followed by
    [Xray 1.8.4], there is no token to take: the operation raises
    [IndexError] and GET /api/system answers 500, in an installation where
    everything else system info needs is in order. *)
Lemma C9_blank_first_line_has_no_version :
  let env := with_version_output (String "010" "Xray 1.8.4") (sample_env [sample_doc]) in
  let w := sample_installed false in
  get_system_info env default_manager w
  = (Raise IndexError, log (Exec [xray_binary; "version"]) w) /\
  (get_system_info_handler env default_manager w).1
  = Return (HTTPException 500%nat (Some IndexError)) /\
  (exists info,
     (get_system_info (with_version_output "" (sample_env [sample_doc])) default_manager w).1
     = Return info /\ xray_version info = "unknown") /\
  ~ (forall (env : Env) (self : ConfigManager) (w : World)
            (stdout content : string) (config inbound : json) (protocol : ProtocolType),
       xray_version_stdout env = Some stdout ->
       py_split (sys_version env) <> [] ->
       fs w !! config_path self = Some content ->
       json_loads env content = Some config ->
       first_inbound config = Ok inbound ->
       _detect_protocol inbound = Ok protocol ->
       exists info w', get_system_info env self w = (Return info, w')).
Proof.
  cbn zeta. split; [vm_compute; reflexivity|]. split; [vm_compute; reflexivity|].
  split; [eexists; split; vm_compute; reflexivity|].
  intros H.
  destruct (H (with_version_output (String "010" "Xray 1.8.4") (sample_env [sample_doc]))
              default_manager (sample_installed false)
              (String "010" "Xray 1.8.4") (render sample_doc) sample_doc
              (sample_inbound [sample_client "U" "alice"]) VLESS_REALITY
              eq_refl ltac:(vm_compute; discriminate) eq_refl eq_refl eq_refl eq_refl)
    as (info & w' & Hrun).
  apply (f_equal fst) in Hrun. vm_compute in Hrun. discriminate Hrun.
Qed.

(** C9 (amended): take an installation in which the version query answers
    and everything else system info needs is in order (the interpreter's
    version string has a token, the configuration file is read and its first
    inbound classified). With no output, system info reports the literal
    [unknown]. With output that is well-formed UTF-8 and whose first line has
    a last whitespace-delimited token, system info reports that token. With
    output whose first line is blank, system info raises [IndexError], and
    with output that is not well-formed UTF-8 it raises [UnicodeDecodeError],
    in both cases right after the version query. These cases are all there
    are: every text has a first line, and a line that is not blank has a last
    token; and the token is reported as its bytes in the output, encoding
    being the inverse of decoding. *)
Theorem C9_version_is_last_token
    (env : Env) (self : ConfigManager) (stdout content : string)
    (config inbound : json) (protocol : ProtocolType) (w : World) :
  xray_version_stdout env = Some stdout ->
  py_split (sys_version env) <> [] ->
  fs w !! config_path self = Some content ->
  json_loads env content = Some config ->
  first_inbound config = Ok inbound ->
  _detect_protocol inbound = Ok protocol ->
  (stdout = "" ->
   exists info w',
     get_system_info env self w = (Return info, w') /\
     xray_version info = "unknown") /\
  (forall text line token,
     stdout <> "" ->
     utf8_decode stdout = Some text ->
     first_line_of text line ->
     last_token line token ->
     exists info w',
       get_system_info env self w = (Return info, w') /\
       xray_version info = utf8_encode token /\
       (get_system_info_handler env self w).1 = Return (Response 200%nat info)) /\
  (forall text line,
     stdout <> "" ->
     utf8_decode stdout = Some text ->
     first_line_of text line ->
     blank line ->
     get_system_info env self w
     = (Raise IndexError, log (Exec [xray_binary; "version"]) w)) /\
  (stdout <> "" ->
   utf8_decode stdout = None ->
   get_system_info env self w
   = (Raise UnicodeDecodeError, log (Exec [xray_binary; "version"]) w)) /\
  (forall text, utf8_decode stdout = Some text -> utf8_encode text = stdout) /\
  (forall text, first_line_of text (first_line text)) /\
  (forall line, ~ blank line -> exists token, last_token line token).
Proof.
  intros Hout Hpy Hfile Hloads Hin Hpt.
  pose proof (get_system_info_run env self stdout content config inbound protocol w
                Hout Hpy Hfile Hloads Hin Hpt) as Hrun.
  split; [|split; [|split; [|split; [|split; [|split]]]]].
  - intros ->. destruct Hrun as (info & w' & Hrun & Hv & _). by exists info, w'.
  - intros text line token Hne Htext Hline Htoken.
    rewrite (parse_xray_version_token stdout text line token Hne Htext Hline Htoken) in Hrun.
    destruct Hrun as (info & w' & Hrun & Hv & _). exists info, w'.
    split; [done|]. split; [done|].
    unfold get_system_info_handler, try_except, bind. by rewrite Hrun.
  - intros text line Hne Htext Hline Hblank.
    by rewrite (parse_xray_version_blank stdout text line Hne Htext Hline Hblank) in Hrun.
  - intros Hne Htext. unfold parse_xray_version in Hrun.
    destruct (String.eqb_spec stdout ""); [contradiction|]. by rewrite Htext in Hrun.
  - apply utf8_encode_decode.
  - apply first_line_is_first_line.
  - apply last_token_exists.
Qed.

Lemma C9_version_witness :
  exists info w',
    get_system_info
      (with_version_output
         ("Xray 1.8.4 (Xray, Penetrates Everything.) Custom (go1.21.1 linux/amd64)"
          ++ String "010" "A unified platform for anti-censorship.")
         (sample_env [sample_doc]))
      default_manager (sample_installed false)
    = (Return info, w') /\
    xray_version info = "linux/amd64)".
Proof.
  destruct (proj1 (proj2 (C9_version_is_last_token
              (with_version_output
                 ("Xray 1.8.4 (Xray, Penetrates Everything.) Custom (go1.21.1 linux/amd64)"
                  ++ String "010" "A unified platform for anti-censorship.")
                 (sample_env [sample_doc]))
              default_manager
              ("Xray 1.8.4 (Xray, Penetrates Everything.) Custom (go1.21.1 linux/amd64)"
               ++ String "010" "A unified platform for anti-censorship.")
              (render sample_doc) sample_doc
              (sample_inbound [sample_client "U" "alice"]) VLESS_REALITY
              (sample_installed false)
              eq_refl ltac:(vm_compute; discriminate) eq_refl eq_refl eq_refl eq_refl))
            (sample_text
               ("Xray 1.8.4 (Xray, Penetrates Everything.) Custom (go1.21.1 linux/amd64)"
                ++ String "010" "A unified platform for anti-censorship."))
            (sample_text
               "Xray 1.8.4 (Xray, Penetrates Everything.) Custom (go1.21.1 linux/amd64)")
            (sample_text "linux/amd64)"))
    as (info & w' & Hrun & Hversion & _).
  - discriminate.
  - vm_compute. reflexivity.
  - split.
    + vm_compute. intuition discriminate.
    + right. exists (sample_text "A unified platform for anti-censorship.").
      vm_compute. reflexivity.
  - exists (sample_text "Xray 1.8.4 (Xray, Penetrates Everything.) Custom (go1.21.1 "), [].
    split; [vm_compute; reflexivity|]. split; [constructor|].
    split; [vm_compute; repeat constructor|]. split; [discriminate|].
    right. exists (sample_text "Xray 1.8.4 (Xray, Penetrates Everything.) Custom (go1.21.1"),
             0x20%N.
    split; vm_compute; reflexivity.
  - exists info, w'. split; [exact Hrun|]. rewrite Hversion. vm_compute. reflexivity.
Defined.

(** ** Restore *)

Example restore_without_canonical_file :
  (restore_backup (sample_env [sample_doc_dup]) default_manager "/root/saved.json"
     (sample_world [("/root/saved.json", render sample_doc_dup)] false)).1
  = Raise (FileNotFoundError "/usr/local/etc/xray/config.json").
Proof. vm_compute. reflexivity. Qed.

Example restore_from_canonical_path :
  (restore_backup (sample_env [sample_doc]) default_manager (config_path default_manager)
     (sample_installed false)).1
  = Raise SameFileError.
Proof. vm_compute. reflexivity. Qed.




(** ** The lock *)

Section Lock.

Lemma neutral_ret {A} (a : A) : lock_neutral (ret a).
Proof.
  intros w. simpl. repeat split; [discriminate|]. exists []. by rewrite app_nil_r.
Qed.

Lemma neutral_raise {A} (e : exn) : lock_neutral (@raise A e).
Proof.
  intros w. simpl. repeat split; [discriminate|]. exists []. by rewrite app_nil_r.
Qed.

Lemma neutral_lift {A} (r : res A) : lock_neutral (lift r).
Proof. destruct r; [apply neutral_ret|apply neutral_raise]. Qed.

(** A step that logs exactly one action and leaves the lock alone. *)
Lemma neutral_logged {A} (m : M A) :
  (forall w, exists r a f,
      m w = (r, set_fs f (log a w)) /\ r <> Blocked) ->
  lock_neutral m.
Proof.
  intros H w. destruct (H w) as (r & a & f & -> & Hr). simpl.
  repeat split; [done|]. exists [Entry (lock_held w) a]. split; [done|].
  by repeat constructor.
Qed.

Lemma set_fs_same (a : action) (w : World) : set_fs (fs w) (log a w) = log a w.
Proof. reflexivity. Qed.

Lemma neutral_path_exists (p : string) : lock_neutral (path_exists p).
Proof.
  apply neutral_logged. intros w. eexists _, _, (fs w).
  unfold path_exists. by rewrite set_fs_same.
Qed.

Lemma neutral_read_file (p : string) : lock_neutral (read_file p).
Proof.
  apply neutral_logged. intros w. unfold read_file.
  destruct (fs w !! p); eexists _, _, (fs w); by rewrite set_fs_same.
Qed.

Lemma neutral_write_file (p c : string) : lock_neutral (write_file p c).
Proof. apply neutral_logged. intros w. by eexists _, _, _. Qed.

Lemma neutral_unlink (p : string) : lock_neutral (unlink p).
Proof.
  apply neutral_logged. intros w. unfold unlink.
  destruct (fs w !! p); [by eexists _, _, _|].
  eexists _, _, (fs w). by rewrite set_fs_same.
Qed.

Lemma neutral_path_replace (src dst : string) : lock_neutral (path_replace src dst).
Proof.
  apply neutral_logged. intros w. unfold path_replace.
  destruct (fs w !! src); [by eexists _, _, _|].
  eexists _, _, (fs w). by rewrite set_fs_same.
Qed.

Lemma neutral_copy2 (src dst : string) : lock_neutral (copy2 src dst).
Proof.
  apply neutral_logged. intros w. unfold copy2.
  destruct (fs w !! src); [destruct (String.eqb src dst); [|by eexists _, _, _]|];
    eexists _, _, (fs w); by rewrite set_fs_same.
Qed.

Lemma neutral_exec {A} (argv : list string) (out : World -> option A) :
  lock_neutral (exec argv out).
Proof.
  apply neutral_logged. intros w. unfold exec.
  destruct (out w); eexists _, _, (fs w); by rewrite set_fs_same.
Qed.

Lemma neutral_now : lock_neutral now.
Proof.
  intros w. simpl. repeat split; [discriminate|]. exists []. by rewrite app_nil_r.
Qed.

Lemma neutral_fresh_uuid (u : Utils) : lock_neutral (fresh_uuid u).
Proof.
  intros w. simpl. repeat split; [discriminate|]. exists []. by rewrite app_nil_r.
Qed.

Lemma neutral_bind {A B} (m : M A) (k : A -> M B) :
  lock_neutral m -> (forall a, lock_neutral (k a)) -> lock_neutral (bind m k).
Proof.
  intros Hm Hk w. destruct (Hm w) as (Hnb & Hl & evs & Ht & Hf).
  unfold bind. destruct (m w) as [[a|e|] w1]; simpl in *.
  - destruct (Hk a w1) as (Hnb2 & Hl2 & evs2 & Ht2 & Hf2).
    split; [done|]. split; [congruence|].
    exists (evs ++ evs2)%list. split.
    + by rewrite Ht2, Ht, app_assoc.
    + apply Forall_app. split; [done|]. by rewrite <- Hl.
  - split; [done|]. split; [done|]. by exists evs.
  - done.
Qed.

Lemma neutral_try_except {A} (m : M A) (h : exn -> M A) :
  lock_neutral m -> (forall e, lock_neutral (h e)) -> lock_neutral (try_except m h).
Proof.
  intros Hm Hh w. destruct (Hm w) as (Hnb & Hl & evs & Ht & Hf).
  unfold try_except. destruct (m w) as [[a|e|] w1]; simpl in *.
  - split; [done|]. split; [done|]. by exists evs.
  - destruct (Hh e w1) as (Hnb2 & Hl2 & evs2 & Ht2 & Hf2).
    split; [done|]. split; [congruence|].
    exists (evs ++ evs2)%list. split.
    + by rewrite Ht2, Ht, app_assoc.
    + apply Forall_app. split; [done|]. by rewrite <- Hl.
  - done.
Qed.

Lemma neutral_try_finally {A} (m : M A) (fin : M unit) :
  lock_neutral m -> lock_neutral fin -> lock_neutral (try_finally m fin).
Proof.
  intros Hm Hfin w. destruct (Hm w) as (Hnb & Hl & evs & Ht & Hf).
  unfold try_finally. destruct (m w) as [[a|e|] w1]; simpl in *; [| |done].
  all: destruct (Hfin w1) as (Hnb2 & Hl2 & evs2 & Ht2 & Hf2).
  all: destruct (fin w1) as [[[]|e2|] w2]; simpl in *; [| |done].
  all: split; [done|]; split; [congruence|].
  all: exists (evs ++ evs2)%list; split; [by rewrite Ht2, Ht, app_assoc|].
  all: apply Forall_app; split; [done|]; by rewrite <- Hl.
Qed.

Lemma neutral_for_each {A B} (f : A -> M B) (l : list A) :
  (forall x, lock_neutral (f x)) -> lock_neutral (for_each f l).
Proof.
  intros Hf. induction l as [|x l IH]; simpl.
  - apply neutral_ret.
  - apply neutral_bind; [apply Hf|]. intros y.
    apply neutral_bind; [apply IH|]. intros ys. apply neutral_ret.
Qed.

Create HintDb neutral.
#[local] Hint Resolve neutral_ret neutral_raise neutral_lift neutral_path_exists
  neutral_read_file neutral_write_file neutral_unlink neutral_path_replace
  neutral_copy2 neutral_exec neutral_now neutral_fresh_uuid : neutral.

(** Walk through a coroutine: every step is one of the above. *)
Ltac neutral :=
  repeat first
    [ progress auto with neutral
    | apply neutral_bind; [|intros ?]
    | apply neutral_try_except; [|intros ?]
    | apply neutral_try_finally
    | apply neutral_for_each; intros ?
    | match goal with
      | |- lock_neutral (if ?b then _ else _) => destruct b
      | |- lock_neutral (match ?x with _ => _ end) => destruct x
      end ].

Variable env : Env.
Variable utils : Utils.
Variable self : ConfigManager.

Lemma neutral_read_config : lock_neutral (_read_config env self).
Proof. unfold _read_config. neutral. Qed.

Lemma neutral_validate_config (config : json) :
  lock_neutral (_validate_config env config).
Proof. unfold _validate_config. neutral. Qed.

Lemma neutral_write_config (config : json) :
  lock_neutral (_write_config env self config).
Proof.
  unfold _write_config. apply neutral_bind; [apply neutral_validate_config|].
  intros _. neutral.
Qed.

Lemma neutral_build_profile_response client inbound server_ip port protocol_type
    transport security :
  lock_neutral (_build_profile_response env client inbound server_ip port
                  protocol_type transport security).
Proof. unfold _build_profile_response. neutral. Qed.

Lemma neutral_get_xray_uptime : lock_neutral (_get_xray_uptime env).
Proof. unfold _get_xray_uptime. neutral. Qed.

Lemma neutral_check_bbr : lock_neutral (_check_bbr env).
Proof. unfold _check_bbr. neutral. Qed.

Lemma neutral_get_statistics : lock_neutral (get_statistics env self).
Proof.
  unfold get_statistics.
  apply neutral_try_except; [|intros ?; neutral].
  apply neutral_bind; [apply neutral_read_config|]. intros config.
  do 4 (apply neutral_bind; [neutral|]; intros ?).
  apply neutral_bind; [apply neutral_get_xray_uptime|]. intros ?. neutral.
Qed.

Lemma neutral_get_system_info : lock_neutral (get_system_info env self).
Proof.
  unfold get_system_info.
  do 3 (apply neutral_bind; [neutral|]; intros ?).
  apply neutral_bind; [apply neutral_check_bbr|]. intros ?.
  apply neutral_bind; [apply neutral_read_config|]. intros ?. neutral.
Qed.

Lemma neutral_create_backup : lock_neutral (create_backup env self).
Proof. unfold create_backup. neutral. Qed.

Lemma neutral_restore_backup (backup_file : string) :
  lock_neutral (restore_backup env self backup_file).
Proof.
  unfold restore_backup.
  apply neutral_bind; [neutral|]. intros e. destruct (negb e); [neutral|].
  do 2 (apply neutral_bind; [neutral|]; intros ?).
  apply neutral_bind; [apply neutral_validate_config|]. intros ?.
  apply neutral_bind; [apply neutral_create_backup|]. intros ?. neutral.
Qed.

(** Under [async with self.lock], a body that does not itself touch the lock
    runs entirely with the lock held. *)
Lemma guarded_with_lock {A} (body : M A) :
  lock_neutral body -> lock_guarded (with_lock body).
Proof.
  intros Hbody. split; intros w Hl.
  - by apply with_lock_taken.
  - unfold with_lock. rewrite Hl.
    destruct (Hbody (set_lock true w)) as (Hnb & Hlk & evs & Ht & Hf).
    destruct (body (set_lock true w)) as [[a|e|] w1]; simpl in *; [| |done].
    all: split; [reflexivity|]; by exists evs.
Qed.

Lemma guarded_then_pure {A B} (m : M A) (f : A -> B) :
  lock_guarded m -> lock_guarded (bind m (fun a => ret (f a))).
Proof.
  intros [Htaken Hfree]. split; intros w Hl.
  - unfold bind. by rewrite (Htaken w Hl).
  - destruct (Hfree w Hl) as (Hl' & evs & Ht & Hf).
    unfold bind. destruct (m w) as [[a|e|] w1]; simpl in *; split; eauto.
Qed.

Lemma guarded_get_all_profiles : lock_guarded (get_all_profiles env utils self).
Proof.
  unfold get_all_profiles. apply guarded_with_lock.
  apply neutral_bind; [apply neutral_read_config|]. intros config.
  do 9 (apply neutral_bind; [neutral|]; intros ?).
  apply neutral_for_each. intros client. apply neutral_build_profile_response.
Qed.

Lemma guarded_create_profile (email : string) :
  lock_guarded (create_profile env utils self email).
Proof.
  unfold create_profile. apply guarded_with_lock.
  apply neutral_bind; [apply neutral_read_config|]. intros config.
  do 8 (apply neutral_bind; [neutral|]; intros ?).
  apply neutral_bind; [apply neutral_write_config|]. intros ?.
  do 4 (apply neutral_bind; [neutral|]; intros ?).
  apply neutral_build_profile_response.
Qed.

Lemma guarded_delete_profile (profile_id : string) :
  lock_guarded (delete_profile env self profile_id).
Proof.
  unfold delete_profile. apply guarded_with_lock.
  apply neutral_bind; [apply neutral_read_config|]. intros config.
  do 6 (apply neutral_bind; [neutral|]; intros ?).
  match goal with |- lock_neutral (if ?b then _ else _) => destruct b end;
    [neutral|].
  apply neutral_bind; [neutral|]. intros ?.
  apply neutral_bind; [apply neutral_write_config|]. intros ?. neutral.
Qed.

End Lock.

(** C3, as the specification words it, fails: with the lock taken by another
    coroutine, statistics, system info, backup and restore do not wait.
    Statistics and system info read the document, backup copies it, and
    restore overwrites it, all while the lock is held elsewhere; profile
    listing, in the same world, waits. *)
Lemma C3_only_profile_operations_take_the_lock :
  let env := sample_env [sample_doc; sample_doc_dup] in
  let w := sample_world [(config_path default_manager, render sample_doc);
                         ("/root/saved.json", render sample_doc_dup)] true in
  (get_all_profiles env sample_utils default_manager w).1 = Blocked /\
  (get_statistics env default_manager w).1
  = Return (mkStatsResponse 0 1 0 0 None None) /\
  (exists info, (get_system_info env default_manager w).1 = Return info) /\
  (exists b, (create_backup env default_manager w).1 = Return b) /\
  (restore_backup env default_manager "/root/saved.json" w).1 = Return true /\
  fs (restore_backup env default_manager "/root/saved.json" w).2
     !! config_path default_manager = Some (render sample_doc_dup) /\
  ~ (lock_guarded (get_all_profiles env sample_utils default_manager) /\
     (forall email, lock_guarded (create_profile env sample_utils default_manager email)) /\
     (forall id, lock_guarded (delete_profile env default_manager id)) /\
     lock_guarded (get_statistics env default_manager) /\
     lock_guarded (get_system_info env default_manager) /\
     lock_guarded (create_backup env default_manager) /\
     (forall file, lock_guarded (restore_backup env default_manager file))).
Proof.
  cbn zeta. split; [reflexivity|]. split; [reflexivity|].
  split; [eexists; reflexivity|]. split; [eexists; reflexivity|].
  split; [reflexivity|]. split; [reflexivity|].
  intros (_ & _ & _ & [Hstats _] & _).
  specialize (Hstats (sample_world [(config_path default_manager, render sample_doc);
                                    ("/root/saved.json", render sample_doc_dup)] true)
                eq_refl).
  apply (f_equal fst) in Hstats. vm_compute in Hstats. discriminate Hstats.
Qed.

(** C3 (amended): profile listing, profile lookup, profile creation and
    profile deletion take the manager's lock for their whole duration: they
    wait while it is taken, every action they perform happens with the lock
    held, and they release it at the end. Statistics, system info and backup
    never touch the lock: they neither wait for it nor take it. *)
Theorem C3_profile_operations_hold_the_lock
    (env : Env) (utils : Utils) (self : ConfigManager) :
  lock_guarded (get_all_profiles env utils self) /\
  (forall profile_id, lock_guarded (get_profile env utils self profile_id)) /\
  (forall email, lock_guarded (create_profile env utils self email)) /\
  (forall profile_id, lock_guarded (delete_profile env self profile_id)) /\
  lock_neutral (get_statistics env self) /\
  lock_neutral (get_system_info env self) /\
  lock_neutral (create_backup env self).
Proof.
  split; [apply guarded_get_all_profiles|].
  split; [intros profile_id; unfold get_profile; apply guarded_then_pure,
                                                   guarded_get_all_profiles|].
  split; [apply guarded_create_profile|].
  split; [apply guarded_delete_profile|].
  split; [apply neutral_get_statistics|].
  split; [apply neutral_get_system_info|apply neutral_create_backup].
Qed.

(** ** Creating a profile *)

Example ProfileCreate_sanitizes :
  ProfileCreate_new "  Alice " = Ok (mkProfileCreate "alice" (Some VLESS_REALITY)).
Proof. reflexivity. Qed.

Example ProfileCreate_rejects_short : ProfileCreate_new "ab" = Err (ValidationError "email").
Proof. reflexivity. Qed.

(** C6 does not hold of the handler: POST /api/profiles takes the label as
    a bare query parameter and never goes through [ProfileCreate]. With the
    label ["  Alice "], creation answers 201 and the listing afterwards has
    exactly one new entry, but its label is the text as sent, not ["alice"];
    and the two-character label ["ab"], which [ProfileCreate] rejects, is
    accepted and stored. *)
Theorem C6_label_is_stored_as_sent :
  let env := sample_env [sample_doc; sample_doc_plus "  Alice "; sample_doc_plus "ab"] in
  let create label := create_profile_handler env sample_utils default_manager label
                        (sample_installed false) in
  let list_after label := list_profiles_handler env sample_utils default_manager
                            (create label).2 in
  listed_labels (list_profiles_handler env sample_utils default_manager
                   (sample_installed false)).1
  = Some [Some "alice"] /\
  created_label (create "  Alice ").1 = Some (201%nat, Some "  Alice ") /\
  listed_labels (list_after "  Alice ").1 = Some [Some "alice"; Some "  Alice "] /\
  validate_email "  Alice " = "alice" /\
  created_label (create "ab").1 = Some (201%nat, Some "ab") /\
  listed_labels (list_after "ab").1 = Some [Some "alice"; Some "ab"] /\
  ProfileCreate_new "ab" = Err (ValidationError "email").
Proof.
  cbn zeta. repeat split; vm_compute; reflexivity.
Qed.

(** * Further properties *)

(** ** Which files an operation can change *)

Section Frame.

Lemma confined_pure {A} (paths : nat -> list string) (m : M A) :
  (forall w, (m w).2 = w) -> confined paths m.
Proof. intros H w. by rewrite H. Qed.

Lemma confined_ret {A} paths (a : A) : confined paths (ret a).
Proof. by apply confined_pure. Qed.

Lemma confined_raise {A} paths (e : exn) : confined paths (@raise A e).
Proof. by apply confined_pure. Qed.

Lemma confined_lift {A} paths (r : res A) : confined paths (lift r).
Proof. destruct r; [apply confined_ret|apply confined_raise]. Qed.

Lemma confined_now paths : confined paths now.
Proof. by apply confined_pure. Qed.

Lemma confined_fresh_uuid paths (u : Utils) : confined paths (fresh_uuid u).
Proof. intros w. by split. Qed.

Lemma confined_path_exists paths (p : string) : confined paths (path_exists p).
Proof. intros w. by split. Qed.

Lemma confined_read_file paths (p : string) : confined paths (read_file p).
Proof. intros w. unfold read_file. by destruct (fs w !! p). Qed.

Lemma confined_exec {A} paths (argv : list string) (out : World -> option A) :
  confined paths (exec argv out).
Proof. intros w. unfold exec. by destruct (out w). Qed.

Lemma confined_write_file (paths : nat -> list string) (p c : string) :
  (forall t, In p (paths t)) -> confined paths (write_file p c).
Proof.
  intros Hp w. split; [done|]. intros q Hq. simpl.
  apply lookup_insert_ne. intros ->. by apply Hq.
Qed.

Lemma confined_unlink (paths : nat -> list string) (p : string) :
  (forall t, In p (paths t)) -> confined paths (unlink p).
Proof.
  intros Hp w. unfold unlink. destruct (fs w !! p); [|done].
  split; [done|]. intros q Hq. simpl.
  apply lookup_delete_ne. intros ->. by apply Hq.
Qed.

Lemma confined_path_replace (paths : nat -> list string) (src dst : string) :
  (forall t, In src (paths t)) -> (forall t, In dst (paths t)) ->
  confined paths (path_replace src dst).
Proof.
  intros Hs Hd w. unfold path_replace. destruct (fs w !! src); [|done].
  split; [done|]. intros q Hq. simpl.
  rewrite lookup_insert_ne by (intros ->; by apply Hq).
  apply lookup_delete_ne. intros ->. by apply Hq.
Qed.

(** The target of a copy may depend on the instant. *)
Lemma confined_copy2 (paths : nat -> list string) (src dst : string) (t0 : nat) :
  In dst (paths t0) ->
  forall w, clock w = t0 ->
    clock (copy2 src dst w).2 = clock w /\
    forall p, ~ In p (paths (clock w)) -> fs (copy2 src dst w).2 !! p = fs w !! p.
Proof.
  intros Hd w Hw. unfold copy2.
  destruct (fs w !! src); [destruct (String.eqb src dst)|]; try done.
  split; [done|]. intros q Hq. simpl.
  apply lookup_insert_ne. intros ->. apply Hq. by rewrite Hw.
Qed.

Lemma confined_copy2_fixed (paths : nat -> list string) (src dst : string) :
  (forall t, In dst (paths t)) -> confined paths (copy2 src dst).
Proof. intros Hd w. by apply (confined_copy2 paths src dst (clock w)). Qed.

Lemma confined_bind {A B} paths (m : M A) (k : A -> M B) :
  confined paths m -> (forall a, confined paths (k a)) -> confined paths (bind m k).
Proof.
  intros Hm Hk w. destruct (Hm w) as [Hc Hf].
  unfold bind. destruct (m w) as [[a|e|] w1]; simpl in *; [|done|done].
  destruct (Hk a w1) as [Hc2 Hf2]. split; [congruence|].
  intros p Hp. rewrite Hf2 by (by rewrite Hc). by apply Hf.
Qed.

Lemma confined_try_except {A} paths (m : M A) (h : exn -> M A) :
  confined paths m -> (forall e, confined paths (h e)) ->
  confined paths (try_except m h).
Proof.
  intros Hm Hh w. destruct (Hm w) as [Hc Hf].
  unfold try_except. destruct (m w) as [[a|e|] w1]; simpl in *; [done| |done].
  destruct (Hh e w1) as [Hc2 Hf2]. split; [congruence|].
  intros p Hp. rewrite Hf2 by (by rewrite Hc). by apply Hf.
Qed.

Lemma confined_try_finally {A} paths (m : M A) (fin : M unit) :
  confined paths m -> confined paths fin -> confined paths (try_finally m fin).
Proof.
  intros Hm Hfin w. destruct (Hm w) as [Hc Hf].
  unfold try_finally. destruct (m w) as [[a|e|] w1]; simpl in *; [| |done].
  all: destruct (Hfin w1) as [Hc2 Hf2].
  all: destruct (fin w1) as [[[]|e2|] w2]; simpl in *.
  all: split; [congruence|].
  all: intros p Hp; rewrite Hf2 by (by rewrite Hc); by apply Hf.
Qed.

Lemma confined_with_lock {A} paths (body : M A) :
  confined paths body -> confined paths (with_lock body).
Proof.
  intros Hb w. unfold with_lock. destruct (lock_held w); [done|].
  destruct (Hb (set_lock true w)) as [Hc Hf].
  by destruct (body (set_lock true w)) as [[a|e|] w1].
Qed.

Lemma confined_for_each {A B} paths (f : A -> M B) (l : list A) :
  (forall x, confined paths (f x)) -> confined paths (for_each f l).
Proof.
  intros Hf. induction l as [|x l IH]; simpl.
  - apply confined_ret.
  - apply confined_bind; [apply Hf|]. intros y.
    apply confined_bind; [apply IH|]. intros ys. apply confined_ret.
Qed.

Lemma confined_except_exception {A} paths (body : M (http A)) :
  confined paths body -> confined paths (except_exception body).
Proof.
  intros Hb w. destruct (Hb w) as [Hc Hf]. unfold except_exception.
  by destruct (body w) as [[[]|e|] w1].
Qed.

Lemma confined_bind_lift {A B} paths (r : res A) (k : A -> M B) :
  (forall a, r = Ok a -> confined paths (k a)) -> confined paths (bind (lift r) k).
Proof.
  intros Hk. destruct r as [a|e]; [|by apply confined_pure].
  intros w. apply (Hk a eq_refl w).
Qed.

Create HintDb confined.
#[local] Hint Resolve confined_ret confined_raise confined_lift confined_now
  confined_fresh_uuid confined_path_exists confined_read_file confined_exec : confined.

(** Walk through a coroutine; membership side conditions are left to
    [simpl; tauto]. *)
Ltac confined :=
  repeat first
    [ progress auto with confined
    | apply confined_bind; [|intros ?]
    | apply confined_try_except; [|intros ?]
    | apply confined_try_finally
    | apply confined_with_lock
    | apply confined_except_exception
    | apply confined_for_each; intros ?
    | apply confined_write_file; intros ?; simpl; tauto
    | apply confined_unlink; intros ?; simpl; tauto
    | apply confined_path_replace; intros ?; simpl; tauto
    | apply confined_copy2_fixed; intros ?; simpl; tauto
    | match goal with
      | |- confined _ (if ?b then _ else _) => destruct b
      | |- confined _ (match ?x with _ => _ end) => destruct x
      end ].

Variable env : Env.
Variable utils : Utils.
Variable self : ConfigManager.

Lemma confined_read_config paths : confined paths (_read_config env self).
Proof. unfold _read_config. confined. Qed.

Lemma confined_build_profile_response paths client inbound server_ip port
    protocol_type transport security :
  confined paths (_build_profile_response env client inbound server_ip port
                    protocol_type transport security).
Proof. unfold _build_profile_response. confined. Qed.

Lemma confined_get_all_profiles paths : confined paths (get_all_profiles env utils self).
Proof.
  unfold get_all_profiles. apply confined_with_lock.
  apply confined_bind; [apply confined_read_config|]. intros config.
  do 9 (apply confined_bind; [confined|]; intros ?).
  apply confined_for_each. intros client. apply confined_build_profile_response.
Qed.

Lemma confined_get_statistics paths : confined paths (get_statistics env self).
Proof.
  unfold get_statistics.
  apply confined_try_except; [|intros ?; confined].
  apply confined_bind; [apply confined_read_config|]. intros config.
  do 4 (apply confined_bind; [confined|]; intros ?).
  unfold _get_xray_uptime. confined.
Qed.

Lemma confined_get_system_info paths : confined paths (get_system_info env self).
Proof.
  unfold get_system_info.
  do 3 (apply confined_bind; [confined|]; intros ?).
  apply confined_bind; [unfold _check_bbr; confined|]. intros ?.
  apply confined_bind; [apply confined_read_config|]. intros ?. confined.
Qed.

Lemma confined_validate_config paths (config : json) :
  (forall t, In xray_test_config (paths t)) ->
  confined paths (_validate_config env config).
Proof.
  intros H. unfold _validate_config.
  apply confined_try_finally.
  - apply confined_bind; [by apply confined_write_file|]. intros _. confined.
  - apply confined_bind; [confined|]. intros e. destruct e; [|confined].
    by apply confined_unlink.
Qed.

Lemma confined_write_config (config : json) :
  confined (fun _ => write_paths self) (_write_config env self config).
Proof.
  unfold _write_config.
  apply confined_bind; [apply confined_validate_config; intros _; by left|].
  intros _. apply confined_bind_lift. intros temp_path Htmp.
  unfold write_paths. rewrite Htmp.
  apply confined_bind; [apply confined_write_file; intros _; simpl; tauto|].
  intros _. apply confined_path_replace; intros _; simpl; tauto.
Qed.

Lemma confined_create_profile (email : string) :
  confined (fun _ => write_paths self) (create_profile env utils self email).
Proof.
  unfold create_profile. apply confined_with_lock.
  apply confined_bind; [apply confined_read_config|]. intros config.
  do 8 (apply confined_bind; [confined|]; intros ?).
  apply confined_bind; [apply confined_write_config|]. intros ?.
  do 4 (apply confined_bind; [confined|]; intros ?).
  apply confined_build_profile_response.
Qed.

Lemma confined_delete_profile (profile_id : string) :
  confined (fun _ => write_paths self) (delete_profile env self profile_id).
Proof.
  unfold delete_profile. apply confined_with_lock.
  apply confined_bind; [apply confined_read_config|]. intros config.
  do 6 (apply confined_bind; [confined|]; intros ?).
  match goal with |- confined _ (if ?b then _ else _) => destruct b end;
    [confined|].
  apply confined_bind; [confined|]. intros ?.
  apply confined_bind; [apply confined_write_config|]. intros ?. confined.
Qed.

(** Sequencing, at one world and with the value actually returned. *)
Lemma confined_bind_at {A B} (paths : nat -> list string) (m : M A) (k : A -> M B)
    (w : World) :
  (clock (m w).2 = clock w /\
   forall p, ~ In p (paths (clock w)) -> fs (m w).2 !! p = fs w !! p) ->
  (forall a w1, m w = (Return a, w1) ->
     clock (k a w1).2 = clock w1 /\
     forall p, ~ In p (paths (clock w1)) -> fs (k a w1).2 !! p = fs w1 !! p) ->
  clock (bind m k w).2 = clock w /\
  forall p, ~ In p (paths (clock w)) -> fs (bind m k w).2 !! p = fs w !! p.
Proof.
  intros [Hc Hf] Hk. unfold bind.
  destruct (m w) as [[a|e|] w1]; simpl in *; [|by split|by split].
  destruct (Hk a w1 eq_refl) as [Hc2 Hf2]. split; [congruence|].
  intros p Hp. rewrite Hf2 by (by rewrite Hc). by apply Hf.
Qed.

(** A backup at instant [t] can only change its own target. *)
Lemma confined_create_backup :
  confined (fun t => [backup_path_at env self t]) (create_backup env self).
Proof.
  intros w. unfold create_backup.
  apply (confined_bind_at (fun t => [backup_path_at env self t]));
    [by split|]. intros t w1 [= <- <-].
  apply (confined_bind_at (fun t => [backup_path_at env self t])).
  - apply (confined_copy2 (fun t => [backup_path_at env self t]) _ _ (clock w));
      [by left|done].
  - intros _ w1 _. revert w1.
    change (confined (fun t => [backup_path_at env self t])
              (bind (read_file (backup_path_at env self (clock w)))
                 (fun content => bind now (fun created_at =>
                    ret (mkBackupResponse (backup_path_at env self (clock w)) created_at
                           (Z.of_nat (String.length content))
                           (sha256_hexdigest env content)))))).
    confined.
Qed.

(** A restore at instant [t] can only change the throwaway validation
    file, the safety backup of that instant, and the canonical file. *)
Lemma confined_restore_backup (backup_file : string) :
  confined (fun t => [xray_test_config; backup_path_at env self t; config_path self])
           (restore_backup env self backup_file).
Proof.
  unfold restore_backup.
  apply confined_bind; [confined|]. intros e. destruct (negb e); [confined|].
  do 2 (apply confined_bind; [confined|]; intros ?).
  apply confined_bind; [apply confined_validate_config; intros ?; by left|]. intros _.
  apply confined_bind.
  - intros w. destruct (confined_create_backup w) as [Hc Hf]. split; [done|].
    intros p Hp. apply Hf. simpl in *. tauto.
  - intros _. apply confined_bind; [|confined].
    apply confined_copy2_fixed. intros ?. simpl. tauto.
Qed.

End Frame.

(** X1: profile listing, profile lookup, statistics and system info are
    read-only: whatever their outcome, every file is afterwards as it was
    before. The same holds of their HTTP handlers. *)
Theorem X1_reads_change_no_file (env : Env) (utils : Utils) (self : ConfigManager)
    (w : World) :
  fs (get_all_profiles env utils self w).2 = fs w /\
  (forall profile_id, fs (get_profile env utils self profile_id w).2 = fs w) /\
  fs (get_statistics env self w).2 = fs w /\
  fs (get_system_info env self w).2 = fs w /\
  fs (list_profiles_handler env utils self w).2 = fs w /\
  (forall profile_id, fs (get_profile_handler env utils self profile_id w).2 = fs w) /\
  fs (get_stats_handler env self w).2 = fs w /\
  fs (get_system_info_handler env self w).2 = fs w.
Proof.
  assert (Hro : forall A (m : M A), confined (fun _ => []) m -> fs (m w).2 = fs w).
  { intros A m Hm. apply map_eq. intros p. apply (Hm w). simpl. tauto. }
  pose proof (confined_get_all_profiles env utils self (fun _ => [])) as Hlist.
  pose proof (confined_get_statistics env self (fun _ => [])) as Hstats.
  pose proof (confined_get_system_info env self (fun _ => [])) as Hinfo.
  assert (Hget : forall profile_id,
             confined (fun _ => []) (get_profile env utils self profile_id)).
  { intros profile_id. unfold get_profile.
    apply confined_bind; [exact Hlist|]. intros ?. apply confined_ret. }
  repeat split; intros; apply Hro; try done.
  - unfold list_profiles_handler.
    apply confined_try_except; [|intros ?; apply confined_ret].
    apply confined_bind; [exact Hlist|]. intros ?. apply confined_ret.
  - unfold get_profile_handler.
    apply confined_try_except; [|intros ?; apply confined_ret].
    apply confined_bind; [apply Hget|]. intros [?|]; apply confined_ret.
  - unfold get_stats_handler.
    apply confined_try_except; [|intros ?; apply confined_ret].
    apply confined_bind; [exact Hstats|]. intros ?. apply confined_ret.
  - unfold get_system_info_handler.
    apply confined_try_except; [|intros ?; apply confined_ret].
    apply confined_bind; [exact Hinfo|]. intros ?. apply confined_ret.
Qed.

(** X2: creating or deleting a profile can change only three files: the
    throwaway validation file, the canonical configuration file and its
    [.tmp] sibling. Every other file, a backup for instance, is left as it
    was, whatever the outcome; the same holds of the two HTTP handlers, the
    service restart included. *)
Theorem X2_profile_writes_touch_only_config_files
    (env : Env) (utils : Utils) (self : ConfigManager) (w : World) (p : string) :
  ~ In p (write_paths self) ->
  (forall email, fs (create_profile env utils self email w).2 !! p = fs w !! p) /\
  (forall profile_id, fs (delete_profile env self profile_id w).2 !! p = fs w !! p) /\
  (forall email, fs (create_profile_handler env utils self email w).2 !! p = fs w !! p) /\
  (forall profile_id,
     fs (delete_profile_handler env utils self profile_id w).2 !! p = fs w !! p).
Proof.
  intros Hp.
  assert (Hrestart : confined (fun _ => write_paths self) (restart utils)).
  { unfold restart. apply confined_exec. }
  repeat split; intros.
  - by apply (confined_create_profile env utils self email w).
  - by apply (confined_delete_profile env self profile_id w).
  - assert (H : confined (fun _ => write_paths self)
                  (create_profile_handler env utils self email)).
    { unfold create_profile_handler.
      apply confined_try_except; [|intros ?; apply confined_ret].
      apply confined_bind; [apply confined_create_profile|]. intros ?.
      apply confined_bind; [exact Hrestart|]. intros ?. apply confined_ret. }
    by apply (H w).
  - assert (H : confined (fun _ => write_paths self)
                  (delete_profile_handler env utils self profile_id)).
    { unfold delete_profile_handler.
      apply confined_try_except; [|intros ?; apply confined_ret].
      apply confined_bind; [apply confined_delete_profile|]. intros deleted.
      destruct (negb deleted); [apply confined_ret|].
      apply confined_bind; [exact Hrestart|]. intros ?. apply confined_ret. }
    by apply (H w).
Qed.

Lemma X2_profile_writes_witness :
  fs (delete_profile (sample_env [sample_doc]) default_manager "U"
        (sample_world [(config_path default_manager, render sample_doc);
                       ("/var/backups/xray/config_backup_1.json", "kept")] false)).2
     !! "/var/backups/xray/config_backup_1.json"
  = Some "kept".
Proof.
  apply (proj1 (proj2 (X2_profile_writes_touch_only_config_files
                         (sample_env [sample_doc]) sample_utils default_manager
                         (sample_world [(config_path default_manager, render sample_doc);
                                        ("/var/backups/xray/config_backup_1.json", "kept")]
                                       false)
                         "/var/backups/xray/config_backup_1.json"
                         ltac:(vm_compute; intros [H|[H|[H|[]]]]; discriminate H)))
           "U").
Defined.

(** X3: a backup taken at some instant can change only the backup file of
    that instant, and a restore only the throwaway validation file, the
    safety backup of that instant and the canonical file; whatever the
    outcome, older backups and all other files are left as they were. *)
Theorem X3_backup_and_restore_touch_only_their_files
    (env : Env) (self : ConfigManager) (w : World) (p : string) :
  p <> backup_path_at env self (clock w) ->
  fs (create_backup env self w).2 !! p = fs w !! p /\
  fs (create_backup_handler env self w).2 !! p = fs w !! p /\
  (p <> xray_test_config -> p <> config_path self ->
   forall backup_file, fs (restore_backup env self backup_file w).2 !! p = fs w !! p).
Proof.
  intros Hp. split; [|split].
  - apply (confined_create_backup env self w). simpl. intros [H|[]]. by apply Hp.
  - assert (H : confined (fun t => [backup_path_at env self t])
                  (create_backup_handler env self)).
    { unfold create_backup_handler.
      apply confined_try_except; [|intros ?; apply confined_ret].
      apply confined_bind; [apply confined_create_backup|]. intros ?.
      apply confined_ret. }
    apply (H w). simpl. intros [E|[]]. by apply Hp.
  - intros Ht Hc backup_file.
    apply (confined_restore_backup env self backup_file w). simpl.
    intros [H|[H|[H|[]]]]; congruence.
Qed.

Lemma X3_backup_witness :
  fs (create_backup (sample_env []) default_manager (sample_installed false)).2
     !! config_path default_manager
  = Some (render sample_doc).
Proof.
  apply (proj1 (X3_backup_and_restore_touch_only_their_files
                  (sample_env []) default_manager (sample_installed false)
                  (config_path default_manager) ltac:(discriminate))).
Defined.

(** ** Listing *)

Lemma field_str_inv (name : string) (v : json) (s : string) :
  field_str name v = Ok s -> v = JStr s.
Proof. destruct v; try discriminate. by intros [= ->]. Qed.

Lemma field_opt_str_inv (name : string) (v : json) (o : option string) :
  field_opt_str name v = Ok o -> v = from_option JStr JNull o.
Proof. destruct v; try discriminate; by intros [= <-]. Qed.

(** What a built profile says about the client entry and the arguments it
    was built from. *)
Lemma build_profile_response_inv (env : Env) client inbound server_ip port
    protocol_type transport security (w w' : World) (p : ProfileResponse) :
  _build_profile_response env client inbound server_ip port protocol_type
    transport security w = (Return p, w') ->
  w' = w /\ built_from client p /\
  pr_protocol p = protocol_type /\ pr_transport p = transport /\
  pr_security p = security /\ pr_server_address p = server_ip /\
  field_int env "port" 1 (Some 65535) port = Ok (pr_port p) /\
  _generate_connection_link env (JStr (pr_id p)) server_ip port protocol_type inbound
    (from_option (fun s => if String.eqb s "" then JStr "user" else JStr s)
                 (JStr "user") (pr_email p))
  = Ok (pr_connection_link p).
Proof.
  unfold _build_profile_response, bind, lift, ret, raise, now, py_getitem.
  destruct client as [| | | | | |cd]; try discriminate.
  destruct (assoc "id" cd) as [cid|] eqn:Hid; [|discriminate].
  simpl.
  destruct (_generate_connection_link env cid server_ip port protocol_type inbound _)
    as [link|] eqn:Hlink; [|discriminate].
  destruct (py_get inbound "streamSettings" (JDict [])) as [ss|]; [|discriminate].
  destruct (py_get ss "realitySettings" (JDict [])) as [rs|]; [|discriminate].
  destruct (first_of_reality rs "serverNames") as [sni|]; [|discriminate].
  destruct (first_of_reality rs "shortIds") as [short_id|]; [|discriminate].
  destruct (field_str "id" cid) as [id|] eqn:Hfid; [|discriminate].
  destruct (field_opt_str "email" _) as [email|] eqn:Hfe; [|discriminate].
  destruct (field_int env "port" 1 (Some 65535) port) as [port'|] eqn:Hfp; [|discriminate].
  destruct (field_opt_str "flow" _) as [flow|] eqn:Hff; [|discriminate].
  destruct (field_opt_str "sni" sni) as [sni'|]; [|discriminate].
  destruct (field_opt_str "short_id" short_id) as [short_id'|]; [|discriminate].
  simpl. intros [= <- <-]. simpl.
  apply field_str_inv in Hfid as ->.
  apply field_opt_str_inv in Hfe. apply field_opt_str_inv in Hff.
  split; [done|]. split.
  { unfold built_from, py_getitem, py_get. simpl. by rewrite Hid, Hfe, Hff. }
  repeat split; try done.
  rewrite <- Hlink. f_equal. rewrite Hfe.
  destruct email as [s|]; simpl; [|done].
  by destruct (String.eqb s "").
Qed.

Lemma for_each_inv {A B} (f : A -> M B) (R : A -> B -> Prop) (l : list A)
    (w w' : World) (ys : list B) :
  (forall x w1 y w2, f x w1 = (Return y, w2) -> R x y) ->
  for_each f l w = (Return ys, w') ->
  Forall2 R l ys.
Proof.
  intros Hf. revert w ys. induction l as [|x l IH]; intros w ys; simpl.
  - intros [= <-]. constructor.
  - unfold bind at 1. destruct (f x w) as [[y|e|] w1] eqn:Hx; try discriminate.
    unfold bind at 1. destruct (for_each f l w1) as [[ys'|e|] w2] eqn:Hl;
      try discriminate.
    intros [= <- <-]. constructor; [by eapply Hf|by eapply IH].
Qed.

Lemma py_iter_len (v : json) (items : list json) :
  py_iter v = Ok items -> py_len v = Ok (length items).
Proof.
  destruct v as [| | | |s|l|d]; try discriminate; intros [= <-]; simpl; f_equal.
  - induction s as [|c s IH]; simpl; [done|by f_equal].
  - by rewrite length_map.
Qed.

(** The shape of a listing that returned. *)
Lemma get_all_profiles_inv (env : Env) (utils : Utils) (self : ConfigManager)
    (w w' : World) (profiles : list ProfileResponse) :
  get_all_profiles env utils self w = (Return profiles, w') ->
  exists content config inbound clients items server_ip,
    lock_held w = false /\
    fs w !! config_path self = Some content /\
    json_loads env content = Some config /\
    first_inbound config = Ok inbound /\
    first_inbound_clients config = Ok clients /\
    py_iter clients = Ok items /\
    get_server_ip utils = Ok server_ip /\
    Forall2 (fun client p =>
               built_from client p /\ pr_server_address p = server_ip /\
               _detect_protocol inbound = Ok (pr_protocol p) /\
               _detect_transport inbound = Ok (pr_transport p) /\
               _detect_security inbound = Ok (pr_security p))
            items profiles.
Proof.
  unfold get_all_profiles, with_lock.
  destruct (lock_held w) eqn:Hl; [discriminate|].
  unfold bind at 1.
  destruct (fs w !! config_path self) as [content|] eqn:Hfile.
  2: { rewrite (read_config_absent env self (set_lock true w) Hfile). discriminate. }
  rewrite (read_config_present env self (set_lock true w) content Hfile).
  destruct (json_loads env content) as [config|] eqn:Hloads; [|discriminate].
  unfold first_inbound_clients.
  unfold bind at 1, lift at 1.
  destruct (first_inbound config) as [inbound|] eqn:Hin; [|discriminate].
  unfold ret at 1, bind at 1, lift at 1.
  destruct (py_getitem inbound "settings") as [settings|] eqn:Hset; [|discriminate].
  unfold ret at 1, bind at 1, lift at 1.
  destruct (py_get settings "clients" (JList [])) as [clients|] eqn:Hcl; [|discriminate].
  unfold ret at 1, bind at 1, lift at 1.
  destruct (get_server_ip utils) as [server_ip|] eqn:Hip; [|discriminate].
  unfold ret at 1, bind at 1, lift at 1.
  destruct (py_getitem inbound "port") as [port|] eqn:Hport; [|discriminate].
  unfold ret at 1, bind at 1, lift at 1.
  destruct (_detect_protocol inbound) as [protocol_type|] eqn:Hpt; [|discriminate].
  unfold ret at 1, bind at 1, lift at 1.
  destruct (_detect_transport inbound) as [transport|] eqn:Htr; [|discriminate].
  unfold ret at 1, bind at 1, lift at 1.
  destruct (_detect_security inbound) as [security|] eqn:Hsec; [|discriminate].
  unfold ret at 1, bind at 1, lift at 1.
  destruct (py_iter clients) as [items|] eqn:Hit; [|discriminate].
  unfold ret at 1.
  destruct (for_each _ items _) as [[ps|e|] w1] eqn:Hfor; try discriminate.
  intros [= <- <-].
  exists content, config, inbound, clients, items, server_ip.
  rewrite Hin. simpl. rewrite Hset. simpl. repeat split; try done.
  eapply for_each_inv; [|exact Hfor].
  intros client w2 p w3 Hb.
  apply build_profile_response_inv in Hb as (_ & Hbf & H1 & H2 & H3 & H4 & _).
  rewrite H1, H2, H3, H4. split; [exact Hbf|]. by repeat split.
Qed.

Lemma Forall2_and_r {A B} (R : A -> B -> Prop) (Q : B -> Prop) (l : list A) (k : list B) :
  Forall2 (fun x y => R x y /\ Q y) l k -> Forall2 R l k /\ Forall Q k.
Proof.
  induction 1 as [|x y l k [HR HQ] _ [IH1 IH2]]; split; constructor; done.
Qed.

(** X4: a profile listing that returns has exactly one profile per entry of
    the first inbound's client list, in the order of that list: each profile
    carries the [id], the label and the flow of its entry. All profiles of one
    listing carry the same server address and the classification of that
    inbound. *)
Theorem X4_listing_follows_client_list
    (env : Env) (utils : Utils) (self : ConfigManager) (w w' : World)
    (profiles : list ProfileResponse) :
  get_all_profiles env utils self w = (Return profiles, w') ->
  exists content config inbound clients items server_ip,
    fs w !! config_path self = Some content /\
    json_loads env content = Some config /\
    first_inbound config = Ok inbound /\
    first_inbound_clients config = Ok clients /\
    py_iter clients = Ok items /\
    get_server_ip utils = Ok server_ip /\
    Forall2 built_from items profiles /\
    length profiles = length items /\
    Forall (fun p => pr_server_address p = server_ip /\
                     _detect_protocol inbound = Ok (pr_protocol p) /\
                     _detect_transport inbound = Ok (pr_transport p) /\
                     _detect_security inbound = Ok (pr_security p)) profiles.
Proof.
  intros (content & config & inbound & clients & items & server_ip & _ & Hfile
          & Hloads & Hin & Hcl & Hit & Hip & Hall)%get_all_profiles_inv.
  apply Forall2_and_r in Hall as [Hbuilt Hshared].
  exists content, config, inbound, clients, items, server_ip.
  repeat split; try done. symmetry. by eapply Forall2_length.
Qed.

Lemma X4_listing_witness :
  exists items,
    py_iter (JList sample_clients_dup) = Ok items /\
    length (match (get_all_profiles (sample_env [sample_doc_dup]) sample_utils default_manager
                     (sample_world [(config_path default_manager, render sample_doc_dup)]
                                   false)).1 with
            | Return profiles => profiles
            | _ => []
            end) = length items.
Proof.
  destruct (get_all_profiles (sample_env [sample_doc_dup]) sample_utils default_manager
              (sample_world [(config_path default_manager, render sample_doc_dup)] false))
    as [[profiles|e|] w'] eqn:Hrun; [|by vm_compute in Hrun..].
  destruct (X4_listing_follows_client_list _ _ _ _ _ _ Hrun)
    as (content & config & inbound & clients & items & ip & Hfile & Hloads & _ & Hcl
        & Hit & _ & _ & Hlen & _).
  vm_compute in Hfile. injection Hfile as <-.
  vm_compute in Hloads. injection Hloads as <-.
  vm_compute in Hcl. injection Hcl as <-.
  exists items. split; [exact Hit|exact Hlen].
Defined.

(** X5: whenever a profile listing returns, statistics taken in the same
    state report as profile count the number of profiles listed. *)
Theorem X5_statistics_count_matches_listing
    (env : Env) (utils : Utils) (self : ConfigManager) (w w' : World)
    (profiles : list ProfileResponse) :
  get_all_profiles env utils self w = (Return profiles, w') ->
  (get_statistics env self w).1
  = Return (mkStatsResponse 0 (Z.of_nat (length profiles)) 0 0 None None).
Proof.
  intros (content & config & inbound & clients & items & server_ip & _ & Hfile
          & Hloads & Hin & Hcl & Hit & Hip & Hall)%get_all_profiles_inv.
  destruct (get_statistics_run env self w) as (w2 & -> & _). simpl. f_equal.
  unfold snapshot, count_clients. rewrite Hfile, Hloads, Hcl. simpl.
  rewrite (py_iter_len _ _ Hit). by rewrite (Forall2_length _ _ _ Hall).
Qed.

Lemma X5_statistics_count_witness :
  (get_statistics (sample_env [sample_doc_dup]) default_manager
     (sample_world [(config_path default_manager, render sample_doc_dup)] false)).1
  = Return (mkStatsResponse 0 3 0 0 None None).
Proof.
  destruct (get_all_profiles (sample_env [sample_doc_dup]) sample_utils default_manager
              (sample_world [(config_path default_manager, render sample_doc_dup)] false))
    as [[profiles|e|] w'] eqn:Hrun; [|by vm_compute in Hrun..].
  rewrite (X5_statistics_count_matches_listing _ _ _ _ _ _ Hrun).
  vm_compute in Hrun. by injection Hrun as <- _.
Defined.

Lemma built_from_has_id (profile_id : string) (client : json) (p : ProfileResponse) :
  built_from client p -> has_id profile_id client = String.eqb (pr_id p) profile_id.
Proof. intros [Hid _]. unfold has_id. by rewrite Hid. Qed.

Lemma find_built_from (profile_id : string) (items : list json)
    (profiles : list ProfileResponse) :
  Forall2 built_from items profiles ->
  match find (fun p => String.eqb (pr_id p) profile_id) profiles with
  | None => Forall (fun c => has_id profile_id c = false) items
  | Some p =>
      pr_id p = profile_id /\ In p profiles /\
      exists before client after,
        items = (before ++ client :: after)%list /\
        Forall (fun c => has_id profile_id c = false) before /\
        built_from client p
  end.
Proof.
  induction 1 as [|c p items profiles Hb _ IH]; simpl; [constructor|].
  pose proof (built_from_has_id profile_id c p Hb) as Hid.
  destruct (String.eqb_spec (pr_id p) profile_id) as [Heq|Hne].
  - split; [done|]. split; [by left|]. by exists [], c, items.
  - destruct (find _ profiles) as [q|].
    + destruct IH as (Hq & Hin & before & client & after & -> & Hbefore & Hbq).
      split; [done|]. split; [by right|].
      exists (c :: before), client, after.
      split; [done|]. split; [by constructor|done].
    + by constructor.
Qed.

(** X6: when the profile listing succeeds, GET /api/profiles/{id} answers
    404 exactly when no entry of the client list carries the identifier;
    otherwise it answers 200 with the profile built from the first entry that
    carries it. *)
Theorem X6_profile_lookup_by_id
    (env : Env) (utils : Utils) (self : ConfigManager) (w w' : World)
    (profiles : list ProfileResponse) (profile_id : string) :
  get_all_profiles env utils self w = (Return profiles, w') ->
  exists content config clients items,
    fs w !! config_path self = Some content /\
    json_loads env content = Some config /\
    first_inbound_clients config = Ok clients /\
    py_iter clients = Ok items /\
    ((get_profile_handler env utils self profile_id w).1
     = Return (HTTPException 404%nat None)
     <-> Forall (fun c => has_id profile_id c = false) items) /\
    (Exists (fun c => has_id profile_id c = true) items ->
     exists p before client after,
       (get_profile_handler env utils self profile_id w).1 = Return (Response 200%nat p) /\
       pr_id p = profile_id /\
       items = (before ++ client :: after)%list /\
       Forall (fun c => has_id profile_id c = false) before /\
       built_from client p).
Proof.
  intros Hrun.
  pose proof Hrun as (content & config & inbound & clients & items & server_ip & _
                      & Hfile & Hloads & Hin & Hcl & Hit & Hip & Hall)%get_all_profiles_inv.
  apply Forall2_and_r in Hall as [Hbuilt _].
  exists content, config, clients, items. repeat split; try done.
  all: unfold get_profile_handler, try_except, get_profile, bind; rewrite Hrun;
    unfold ret; simpl;
    pose proof (find_built_from profile_id items profiles Hbuilt) as Hfind.
  - destruct (find _ profiles) as [p|]; [discriminate|done].
  - intros Hnone. destruct (find _ profiles) as [p|]; [|done].
    destruct Hfind as (Hp & _ & before & client & after & -> & _ & Hb).
    apply Forall_app in Hnone as [_ Hnone]. inversion Hnone as [|? ? Hc _]; subst.
    rewrite (built_from_has_id _ _ _ Hb), String.eqb_refl in Hc. discriminate.
  - intros Hsome. destruct (find _ profiles) as [p|].
    + destruct Hfind as (Hp & _ & before & client & after & Hitems & Hbefore & Hb).
      by exists p, before, client, after.
    + exfalso. apply Exists_exists in Hsome as (c & Hc & Hid).
      rewrite Forall_forall in Hfind. specialize (Hfind c Hc). congruence.
Qed.

Lemma X6_profile_lookup_witness :
  (get_profile_handler (sample_env [sample_doc_dup]) sample_utils default_manager "nobody"
     (sample_world [(config_path default_manager, render sample_doc_dup)] false)).1
  = Return (HTTPException 404%nat None).
Proof.
  destruct (get_all_profiles (sample_env [sample_doc_dup]) sample_utils default_manager
              (sample_world [(config_path default_manager, render sample_doc_dup)] false))
    as [[profiles|e|] w'] eqn:Hrun; [|by vm_compute in Hrun..].
  destruct (X6_profile_lookup_by_id _ _ _ _ _ _ "nobody" Hrun)
    as (content & config & clients & items & Hfile & Hloads & Hcl & Hit & [_ H404] & _).
  apply H404.
  vm_compute in Hfile. injection Hfile as <-.
  vm_compute in Hloads. injection Hloads as <-.
  vm_compute in Hcl. injection Hcl as <-.
  vm_compute in Hit. injection Hit as <-.
  by repeat constructor.
Defined.

(** ** Atomic write, accepted *)

(** X7: a write that passes validation installs the document rendered with
    indent 2 at the canonical path by writing the [.tmp] sibling and renaming
    it; afterwards neither the sibling nor the throwaway validation file
    exists, every other file is as before, and the trace shows the six actions
    in order. *)
Theorem X7_accepted_write_installs_document
    (env : Env) (self : ConfigManager) (config : json) (w : World)
    (temp_path stderr : string) :
  xray_test env (Some (json_dumps env None config)) = Some (0, stderr) ->
  with_suffix (config_path self) ".tmp" = Ok temp_path ->
  config_path self <> xray_test_config ->
  temp_path <> config_path self ->
  exists w',
    _write_config env self config w = (Return tt, w') /\
    fs w' !! config_path self = Some (json_dumps env (Some 2%nat) config) /\
    fs w' !! temp_path = None /\
    fs w' !! xray_test_config = None /\
    (forall p, p <> config_path self -> p <> temp_path -> p <> xray_test_config ->
               fs w' !! p = fs w !! p) /\
    trace w'
    = (trace w ++
       map (Entry (lock_held w))
         [FsWrite xray_test_config;
          Exec [xray_binary; "-test"; "-config"; xray_test_config];
          FsExists xray_test_config; FsUnlink xray_test_config;
          FsWrite temp_path; FsReplace temp_path (config_path self)])%list.
Proof.
  intros Hok Htmp Hct Htc.
  exists (written self temp_path (json_dumps env (Some 2%nat) config) w).
  split; [apply write_config_accepted; [by eapply verdict_zero|done]|].
  unfold written. simpl. split; [apply lookup_insert_eq|]. split; [|split; [|split]].
  - rewrite lookup_insert_ne by done. apply lookup_delete_eq.
  - rewrite lookup_insert_ne by done.
    destruct (decide (temp_path = xray_test_config)) as [->|Hne].
    + apply lookup_delete_eq.
    + rewrite lookup_delete_ne, lookup_insert_ne by done. apply lookup_delete_eq.
  - intros p Hc Ht Hx.
    by rewrite lookup_insert_ne, lookup_delete_ne, lookup_insert_ne, lookup_delete_ne.
  - by rewrite <- !app_assoc.
Qed.

Lemma X7_accepted_write_witness :
  fs (_write_config (sample_env []) default_manager sample_doc (sample_world [] false)).2
     !! config_path default_manager
  = Some (render sample_doc).
Proof.
  destruct (X7_accepted_write_installs_document (sample_env []) default_manager
              sample_doc (sample_world [] false) "/usr/local/etc/xray/config.tmp" ""
              eq_refl eq_refl ltac:(discriminate) ltac:(discriminate))
    as (w' & Hrun & Hcfg & _).
  by rewrite Hrun.
Defined.

(** ** Creating a profile *)

Lemma write_config_cases (env : Env) (self : ConfigManager) (config : json) (w : World) :
  (exists temp_path,
     verdict env config = Return true /\
     with_suffix (config_path self) ".tmp" = Ok temp_path /\
     _write_config env self config w
     = (Return tt, written self temp_path (json_dumps env (Some 2%nat) config) w)) \/
  (exists e, _write_config env self config w = (Raise e, validated w)).
Proof.
  destruct (verdict_cases env config) as [Hv|[e Hv]].
  - destruct (with_suffix (config_path self) ".tmp") as [temp_path|e] eqn:Htmp.
    + left. exists temp_path. split; [done|]. split; [done|].
      by apply write_config_accepted.
    + right. exists e. unfold _write_config, bind at 1.
      rewrite validate_config_run, Hv. unfold bind, lift. by rewrite Htmp.
  - right. exists e. by apply write_config_rejected.
Qed.

(** The shape of a profile creation that returned. *)
Lemma create_profile_inv (env : Env) (utils : Utils) (self : ConfigManager)
    (email : string) (w w' : World) (p : ProfileResponse) :
  create_profile env utils self email w = (Return p, w') ->
  exists content config inbound settings clients config' temp_path,
    lock_held w = false /\
    fs w !! config_path self = Some content /\
    json_loads env content = Some config /\
    first_inbound config = Ok inbound /\
    py_getitem inbound "settings" = Ok settings /\
    py_getitem settings "clients" = Ok (JList clients) /\
    _detect_protocol inbound = Ok (pr_protocol p) /\
    set_clients config
      (JList (clients ++ [new_client_of (pr_protocol p)
                            (generate_uuid utils (uuid_count w)) email]))
    = Ok config' /\
    verdict env config' = Return true /\
    with_suffix (config_path self) ".tmp" = Ok temp_path /\
    fs w' !! config_path self = Some (json_dumps env (Some 2%nat) config') /\
    uuid_count w' = S (uuid_count w) /\
    built_from (new_client_of (pr_protocol p) (generate_uuid utils (uuid_count w)) email) p.
Proof.
  unfold create_profile, with_lock.
  destruct (lock_held w) eqn:Hl; [discriminate|].
  unfold bind at 1.
  destruct (fs w !! config_path self) as [content|] eqn:Hfile.
  2: { rewrite (read_config_absent env self (set_lock true w) Hfile). discriminate. }
  rewrite (read_config_present env self (set_lock true w) content Hfile).
  destruct (json_loads env content) as [config|] eqn:Hloads; [|discriminate].
  unfold bind at 1, lift at 1.
  destruct (first_inbound config) as [inbound|] eqn:Hin; [|discriminate].
  unfold ret at 1, bind at 1, fresh_uuid.
  cbn [uuid_count config_read log set_lock].
  unfold bind at 1, lift at 1.
  destruct (_detect_protocol inbound) as [protocol_type|] eqn:Hpt; [|discriminate].
  unfold ret at 1. cbv zeta.
  change (if decide (protocol_type = VLESS_REALITY)
          then JDict [("id", JStr (generate_uuid utils (uuid_count w)));
                      ("email", JStr email); ("flow", JStr "xtls-rprx-vision")]
          else JDict [("id", JStr (generate_uuid utils (uuid_count w)));
                      ("email", JStr email)])
    with (new_client_of protocol_type (generate_uuid utils (uuid_count w)) email).
  set (new_client := new_client_of protocol_type (generate_uuid utils (uuid_count w)) email).
  unfold bind at 1, lift at 1.
  destruct (py_getitem inbound "settings") as [settings|] eqn:Hset; [|discriminate].
  unfold ret at 1, bind at 1, lift at 1.
  destruct (py_getitem settings "clients") as [clients|] eqn:Hcl; [|discriminate].
  unfold ret at 1, bind at 1, lift at 1.
  destruct clients as [| | | | |clients|]; cbn [py_append]; try discriminate.
  unfold ret at 1, bind at 1, lift at 1.
  destruct (set_clients config (JList (clients ++ [new_client]))) as [config'|] eqn:Hcfg;
    [|discriminate].
  unfold ret at 1, bind at 1, lift at 1.
  destruct (first_inbound config') as [inbound'|] eqn:Hin'; [|discriminate].
  unfold ret at 1, bind at 1.
  match goal with |- context [_write_config env self config' ?w2] =>
    destruct (write_config_cases env self config' w2)
      as [(temp_path & Hv & Htmp & ->)|[e ->]]; [|discriminate]
  end.
  unfold bind at 1, lift at 1.
  destruct (get_server_ip utils) as [server_ip|]; [|discriminate].
  unfold ret at 1, bind at 1, lift at 1.
  destruct (py_getitem inbound' "port") as [port|]; [|discriminate].
  unfold ret at 1, bind at 1, lift at 1.
  destruct (_detect_transport inbound') as [transport|]; [|discriminate].
  unfold ret at 1, bind at 1, lift at 1.
  destruct (_detect_security inbound') as [security|]; [|discriminate].
  unfold ret at 1.
  destruct (_build_profile_response _ _ _ _ _ _ _ _ _) as [[q|e|] w4] eqn:Hb;
    try discriminate.
  intros [= <- <-].
  apply build_profile_response_inv in Hb as (-> & Hbf & Hp & _).
  subst new_client. rewrite <- Hp in *.
  exists content, config, inbound, settings, clients, config', temp_path.
  destruct Hbf as (Hb1 & Hb2 & Hb3).
  repeat split; try done.
  simpl. apply lookup_insert_eq.
Qed.




(** X9: the write of a profile creation is not undone when building the
    answer fails afterwards. If public address discovery fails after the
    document was validated and persisted, the creation raises that failure,
    the handler answers 500, and yet the persisted document contains the new
    entry at the end of the client list. *)
Theorem X9_creation_is_not_rolled_back
    (env : Env) (utils : Utils) (self : ConfigManager)
    (email content temp_path stderr : string)
    (config inbound settings config' : json) (protocol_type : ProtocolType)
    (clients : list json) (e : exn) (w : World) :
  lock_held w = false ->
  fs w !! config_path self = Some content ->
  json_loads env content = Some config ->
  first_inbound config = Ok inbound ->
  _detect_protocol inbound = Ok protocol_type ->
  py_getitem inbound "settings" = Ok settings ->
  py_getitem settings "clients" = Ok (JList clients) ->
  set_clients config
    (JList (clients ++ [new_client_of protocol_type
                          (generate_uuid utils (uuid_count w)) email]))
  = Ok config' ->
  xray_test env (Some (json_dumps env None config')) = Some (0, stderr) ->
  with_suffix (config_path self) ".tmp" = Ok temp_path ->
  get_server_ip utils = Err e ->
  exists w',
    create_profile env utils self email w = (Raise e, w') /\
    (create_profile_handler env utils self email w).1
    = Return (HTTPException 500%nat (Some e)) /\
    lock_held w' = false /\
    fs w' !! config_path self = Some (json_dumps env (Some 2%nat) config') /\
    first_inbound_clients config'
    = Ok (JList (clients ++ [new_client_of protocol_type
                               (generate_uuid utils (uuid_count w)) email])).
Proof.
  intros Hl Hfile Hloads Hin Hpt Hset Hcl Hcfg Hok Htmp Hip.
  assert (exists inbound', first_inbound config' = Ok inbound') as [inbound' Hin'].
  { pose proof (first_inbound_clients_set _ _ _ Hcfg) as H.
    unfold first_inbound_clients in H.
    destruct (first_inbound config'); [eauto|discriminate]. }
  assert (Hrun : exists w',
             create_profile env utils self email w = (Raise e, w') /\
             lock_held w' = false /\
             fs w' !! config_path self = Some (json_dumps env (Some 2%nat) config')).
  { unfold create_profile, with_lock. rewrite Hl.
    unfold bind at 1.
    rewrite (read_config_present env self (set_lock true w) content Hfile), Hloads.
    rewrite (bind_return _ _ _ inbound _ (lift_ok _ _ _ Hin)).
    unfold bind at 1, fresh_uuid. cbn [uuid_count config_read log set_lock].
    rewrite (bind_return _ _ _ protocol_type _ (lift_ok _ _ _ Hpt)).
    cbv zeta.
    change (if decide (protocol_type = VLESS_REALITY)
            then JDict [("id", JStr (generate_uuid utils (uuid_count w)));
                        ("email", JStr email); ("flow", JStr "xtls-rprx-vision")]
            else JDict [("id", JStr (generate_uuid utils (uuid_count w)));
                        ("email", JStr email)])
      with (new_client_of protocol_type (generate_uuid utils (uuid_count w)) email).
    rewrite (bind_return _ _ _ settings _ (lift_ok _ _ _ Hset)).
    rewrite (bind_return _ _ _ (JList clients) _ (lift_ok _ _ _ Hcl)).
    unfold py_append.
    rewrite (bind_return _ _ _ _ _ (lift_ok _ _ _ eq_refl)).
    rewrite (bind_return _ _ _ config' _ (lift_ok _ _ _ Hcfg)).
    rewrite (bind_return _ _ _ inbound' _ (lift_ok _ _ _ Hin')).
    unfold bind at 1.
    rewrite (write_config_accepted env self config' _ temp_path
               (verdict_zero env config' stderr Hok) Htmp).
    rewrite (bind_raise _ _ _ e _ (lift_err _ _ _ Hip)).
    eexists. split; [reflexivity|]. split; [reflexivity|].
    simpl. apply lookup_insert_eq. }
  destruct Hrun as (w' & Hrun & Hlock & Hfs).
  exists w'. split; [exact Hrun|]. split.
  - unfold create_profile_handler, try_except, bind. by rewrite Hrun.
  - split; [exact Hlock|]. split; [exact Hfs|].
    by apply first_inbound_clients_set with config.
Qed.

Lemma X9_creation_is_not_rolled_back_witness :
  (create_profile (sample_env [sample_doc]) sample_utils_offline default_manager "bob"
     (sample_installed false)).1 = Raise (DiscoveryFailure "no route") /\
  fs (create_profile (sample_env [sample_doc]) sample_utils_offline default_manager "bob"
        (sample_installed false)).2 !! config_path default_manager
  = Some (render (sample_config [sample_client "U" "alice"; sample_client "uuid-0" "bob"])).
Proof.
  destruct (X9_creation_is_not_rolled_back (sample_env [sample_doc]) sample_utils_offline
              default_manager "bob" (render sample_doc) "/usr/local/etc/xray/config.tmp" ""
              sample_doc (sample_inbound [sample_client "U" "alice"])
              (JDict [("clients", JList [sample_client "U" "alice"])])
              (sample_config [sample_client "U" "alice"; sample_client "uuid-0" "bob"])
              VLESS_REALITY [sample_client "U" "alice"] (DiscoveryFailure "no route")
              (sample_installed false))
    as (w' & Hrun & _ & _ & Hfs & _); try reflexivity.
  rewrite Hrun. split; [reflexivity|exact Hfs].
Defined.

(** ** Create, then delete *)

Lemma dict_set_twice (k : string) (v v' : json) (d : list (string * json)) :
  dict_set k v (dict_set k v' d) = dict_set k v d.
Proof.
  induction d as [|[k0 v0] d IH]; simpl.
  - by rewrite String.eqb_refl.
  - destruct (String.eqb k0 k) eqn:E; simpl; rewrite E; [done|by rewrite IH].
Qed.

Lemma dict_set_same (k : string) (v : json) (d : list (string * json)) :
  assoc k d = Some v -> dict_set k v d = d.
Proof.
  induction d as [|[k0 v0] d IH]; simpl; [discriminate|].
  destruct (String.eqb k0 k); [by intros [= ->]|]. intros H. by rewrite IH.
Qed.

(** Storing back the client list that was there undoes a store. *)
Lemma set_clients_undo (config config' inbound settings v0 v : json) :
  first_inbound config = Ok inbound ->
  py_getitem inbound "settings" = Ok settings ->
  py_getitem settings "clients" = Ok v0 ->
  set_clients config v = Ok config' ->
  set_clients config' v0 = Ok config.
Proof.
  unfold first_inbound, py_getitem, set_clients.
  destruct config as [| | | | | |cd]; try discriminate.
  destruct (assoc "inbounds" cd) as [inbounds|] eqn:Hi; [|discriminate].
  simpl. destruct inbounds as [| | | |[|c t]|[|first rest]|]; try discriminate;
    simpl; intros [= <-]; try discriminate.
  destruct first as [| | | | | |ind]; try discriminate.
  destruct (assoc "settings" ind) as [s|] eqn:Hs; [|discriminate].
  intros [= <-]. destruct s as [| | | | | |sd]; try discriminate.
  destruct (assoc "clients" sd) as [c0|] eqn:Hc; [|discriminate].
  intros [= <-] [= <-].
  rewrite assoc_dict_set. rewrite assoc_dict_set.
  rewrite !dict_set_twice.
  by rewrite (dict_set_same _ _ _ Hc), (dict_set_same _ _ _ Hs), (dict_set_same _ _ _ Hi).
Qed.

(** X10: deleting the profile just created restores the document. If the
    identifier handed out is carried by no existing entry, both documents pass
    the external test and the persisted text reads back as the document
    written, then creating a profile and deleting the identifier it was given
    succeeds and persists the rendering of the original document. *)
Theorem X10_create_then_delete_restores_document
    (env : Env) (utils : Utils) (self : ConfigManager)
    (email content temp_path stderr stderr' : string)
    (config inbound settings config' : json) (protocol_type : ProtocolType)
    (clients : list json) (w : World) :
  lock_held w = false ->
  fs w !! config_path self = Some content ->
  json_loads env content = Some config ->
  first_inbound config = Ok inbound ->
  _detect_protocol inbound = Ok protocol_type ->
  py_getitem inbound "settings" = Ok settings ->
  py_getitem settings "clients" = Ok (JList clients) ->
  Forall is_client clients ->
  Forall (fun c => has_id (generate_uuid utils (uuid_count w)) c = false) clients ->
  set_clients config
    (JList (clients ++ [new_client_of protocol_type
                          (generate_uuid utils (uuid_count w)) email]))
  = Ok config' ->
  xray_test env (Some (json_dumps env None config')) = Some (0, stderr) ->
  xray_test env (Some (json_dumps env None config)) = Some (0, stderr') ->
  with_suffix (config_path self) ".tmp" = Ok temp_path ->
  json_loads env (json_dumps env (Some 2%nat) config') = Some config' ->
  exists w2,
    delete_profile env self (generate_uuid utils (uuid_count w))
      (create_profile env utils self email w).2
    = (Return true, w2) /\
    fs w2 !! config_path self = Some (json_dumps env (Some 2%nat) config).
Proof.
  intros Hl Hfile Hloads Hin Hpt Hset Hcl Hall Hfresh Hcfg Hok Hok' Htmp Hround.
  set (new_uuid := generate_uuid utils (uuid_count w)) in *.
  set (new_client := new_client_of protocol_type new_uuid email) in *.
  set (w1 := (create_profile env utils self email w).2).
  destruct (create_profile_persists env self utils email content temp_path stderr
              config inbound settings config' protocol_type clients w
              Hl Hfile Hloads Hin Hpt Hset Hcl Hcfg Hok Htmp)
    as (Hfs1 & Hcl1 & _).
  fold w1 in Hfs1.
  assert (Hl1 : lock_held w1 = false).
  { apply (proj2 (guarded_create_profile env utils self email) w Hl). }
  assert (Hnew : has_id new_uuid new_client = true).
  { subst new_client. unfold new_client_of, has_id.
    destruct (decide (protocol_type = VLESS_REALITY)); simpl; apply String.eqb_refl. }
  assert (Hall1 : Forall is_client (clients ++ [new_client])).
  { apply Forall_app. split; [done|]. constructor; [|constructor].
    subst new_client. unfold new_client_of, is_client.
    destruct (decide (protocol_type = VLESS_REALITY)); by eexists. }
  pose proof (delete_profile_run env self new_uuid _ config' (clients ++ [new_client]) w1
                Hl1 Hfs1 Hround Hcl1 Hall1) as Hrun.
  cbn zeta in Hrun.
  assert (Hkept : List.filter (fun c => negb (has_id new_uuid c)) (clients ++ [new_client])
                  = clients).
  { rewrite List.filter_app. simpl. rewrite Hnew. simpl. rewrite app_nil_r.
    apply filter_all_kept. eapply Forall_impl; [exact Hfresh|]. by intros c ->. }
  rewrite Hkept in Hrun.
  destruct (Nat.eqb_spec (length clients) (length (clients ++ [new_client]))) as [Hlen|_].
  { rewrite length_app in Hlen. simpl in Hlen. lia. }
  rewrite (set_clients_undo config config' inbound settings (JList clients) _
             Hin Hset Hcl Hcfg) in Hrun.
  rewrite (write_config_accepted env self config _ temp_path
             (verdict_zero env config stderr' Hok') Htmp) in Hrun.
  eexists. split; [exact Hrun|]. simpl. apply lookup_insert_eq.
Qed.

Lemma X10_create_then_delete_witness :
  fs (delete_profile (sample_env [sample_doc; sample_doc_plus "bob"]) default_manager "uuid-0"
        (create_profile (sample_env [sample_doc; sample_doc_plus "bob"]) sample_utils
           default_manager "bob" (sample_installed false)).2).2
     !! config_path default_manager
  = Some (render sample_doc).
Proof.
  assert (Hc : Forall is_client [sample_client "U" "alice"])
    by (repeat constructor; by eexists).
  assert (Hf : Forall (fun c => has_id (generate_uuid sample_utils
                                          (uuid_count (sample_installed false))) c = false)
                      [sample_client "U" "alice"])
    by (by repeat constructor).
  destruct (X10_create_then_delete_restores_document
              (sample_env [sample_doc; sample_doc_plus "bob"]) sample_utils default_manager
              "bob" (render sample_doc) "/usr/local/etc/xray/config.tmp" "" ""
              sample_doc (sample_inbound [sample_client "U" "alice"])
              (JDict [("clients", JList [sample_client "U" "alice"])])
              (sample_doc_plus "bob") VLESS_REALITY [sample_client "U" "alice"]
              (sample_installed false)
              eq_refl eq_refl eq_refl eq_refl eq_refl eq_refl eq_refl Hc Hf
              eq_refl eq_refl eq_refl eq_refl eq_refl)
    as (w2 & Hrun & Hfs).
  change (generate_uuid sample_utils (uuid_count (sample_installed false)))
    with "uuid-0" in Hrun.
  by rewrite Hrun.
Defined.

(** ** Backup, then restore *)



(** ** The restore handler *)

Lemma bind_inv {A B} (m : M A) (k : A -> M B) (w w' : World) (b : B) :
  bind m k w = (Return b, w') ->
  exists a w1, m w = (Return a, w1) /\ k a w1 = (Return b, w').
Proof.
  unfold bind. destruct (m w) as [[a|e|] w1]; try discriminate. eauto.
Qed.

(** A restore that returns, returns [True]. *)
Lemma restore_backup_returns_true (env : Env) (self : ConfigManager)
    (backup_file : string) (w w' : World) (b : bool) :
  restore_backup env self backup_file w = (Return b, w') -> b = true.
Proof.
  unfold restore_backup.
  intros (e & w1 & _ & H)%bind_inv. destruct (negb e); [discriminate|].
  apply bind_inv in H as (content & w2 & _ & H).
  apply bind_inv in H as (config & w3 & _ & H).
  apply bind_inv in H as (valid & w4 & _ & H).
  apply bind_inv in H as (backup & w5 & _ & H).
  apply bind_inv in H as ([] & w6 & _ & H).
  by injection H as <- _.
Qed.

(** X12: POST /api/restore answers 200 with status [restored] exactly when
    the manager's restore returned, and 500 in every other case: it never
    answers 400 or 404. In particular a backup path that does not exist is
    answered 500, with the not-found error as cause, and no file changes. *)
Theorem X12_restore_handler_answers
    (env : Env) (utils : Utils) (self : ConfigManager) (backup_file : string)
    (w : World) :
  (((exists w', restore_backup env self backup_file w = (Return true, w')) /\
    (restore_backup_handler env utils self backup_file w).1
    = Return (Response 200%nat ("restored", backup_file))) \/
   ((forall b w', restore_backup env self backup_file w <> (Return b, w')) /\
    exists cause,
      (restore_backup_handler env utils self backup_file w).1
      = Return (HTTPException 500%nat cause))) /\
  (fs w !! backup_file = None ->
   (restore_backup_handler env utils self backup_file w).1
   = Return (HTTPException 500%nat
               (Some (FileNotFoundError ("Backup not found: " ++ backup_file)))) /\
   fs (restore_backup_handler env utils self backup_file w).2 = fs w).
Proof.
  split.
  - unfold restore_backup_handler, except_exception, bind.
    destruct (restore_backup env self backup_file w) as [[b|e|] w1] eqn:Hrun.
    + left. assert (b = true) as -> by (by eapply restore_backup_returns_true).
      split; [by eexists|]. reflexivity.
    + right. split; [discriminate|]. eexists. reflexivity.
    + exfalso. pose proof (neutral_restore_backup env self backup_file w) as [H _].
      by rewrite Hrun in H.
  - intros Hb.
    unfold restore_backup_handler, except_exception, restore_backup, bind, path_exists.
    rewrite Hb. simpl. by split.
Qed.

Lemma X12_restore_handler_witness :
  (restore_backup_handler (sample_env [sample_doc]) sample_utils default_manager
     "/root/missing.json" (sample_installed false)).1
  = Return (HTTPException 500%nat
              (Some (FileNotFoundError "Backup not found: /root/missing.json"))).
Proof.
  apply (proj1 (proj2 (X12_restore_handler_answers (sample_env [sample_doc]) sample_utils
                         default_manager "/root/missing.json" (sample_installed false))
                  eq_refl)).
Defined.

(** ** The request model *)

Lemma lower_ascii_idem (c : ascii) : lower_ascii (lower_ascii c) = lower_ascii c.
Proof. destruct c as [[] [] [] [] [] [] [] []]; reflexivity. Qed.

Lemma is_space_lower (c : ascii) : is_space (lower_ascii c) = is_space c.
Proof. destruct c as [[] [] [] [] [] [] [] []]; reflexivity. Qed.

Lemma lower_idem (s : string) : lower (lower s) = lower s.
Proof.
  induction s as [|c s IH]; simpl; [done|]. by rewrite lower_ascii_idem, IH.
Qed.

Lemma lower_length (s : string) : String.length (lower s) = String.length s.
Proof. induction s as [|c s IH]; simpl; [done|by rewrite IH]. Qed.

Lemma all_space_lower (s : string) : all_space (lower s) = all_space s.
Proof.
  induction s as [|c s IH]; simpl; [done|]. by rewrite is_space_lower, IH.
Qed.

Lemma lstrip_lower (s : string) : lstrip (lower s) = lower (lstrip s).
Proof.
  induction s as [|c s IH]; simpl; [done|]. rewrite is_space_lower.
  by destruct (is_space c).
Qed.

Lemma rstrip_lower (s : string) : rstrip (lower s) = lower (rstrip s).
Proof.
  induction s as [|c s IH]; [done|].
  change (lower (String c s)) with (String (lower_ascii c) (lower s)).
  cbn [rstrip].
  change (String (lower_ascii c) (lower s)) with (lower (String c s)).
  rewrite all_space_lower. destruct (all_space (String c s)); [done|].
  simpl. by rewrite IH.
Qed.

Lemma lstrip_idem (s : string) : lstrip (lstrip s) = lstrip s.
Proof.
  induction s as [|c s IH]; simpl; [done|].
  destruct (is_space c) eqn:E; [done|]. simpl. by rewrite E.
Qed.

Lemma lstrip_all_space (s : string) : all_space s = true -> lstrip s = "".
Proof.
  induction s as [|c s IH]; simpl; [done|].
  destruct (is_space c); [exact IH|discriminate].
Qed.

Lemma rstrip_all_space (s : string) : all_space s = true -> rstrip s = "".
Proof. destruct s as [|c s]; [done|]. cbn [rstrip]. by intros ->. Qed.

Lemma all_space_rstrip (s : string) : all_space (rstrip s) = all_space s.
Proof.
  induction s as [|c s IH]; [done|]. cbn [rstrip].
  destruct (all_space (String c s)) eqn:E; [done|].
  simpl in *. by rewrite IH.
Qed.

Lemma rstrip_idem (s : string) : rstrip (rstrip s) = rstrip s.
Proof.
  induction s as [|c s IH]; [done|]. cbn [rstrip].
  destruct (all_space (String c s)) eqn:E; [done|].
  cbn [rstrip].
  assert (all_space (String c (rstrip s)) = false) as ->.
  { simpl in *. by rewrite all_space_rstrip. }
  by rewrite IH.
Qed.

Lemma lstrip_rstrip (s : string) : lstrip (rstrip s) = rstrip (lstrip s).
Proof.
  induction s as [|c s IH]; [done|]. cbn [rstrip].
  destruct (all_space (String c s)) eqn:E.
  - by rewrite (lstrip_all_space _ E).
  - cbn [lstrip]. destruct (is_space c) eqn:Hc; [exact IH|].
    cbn [rstrip]. by rewrite E.
Qed.

Lemma strip_idem (s : string) : strip (strip s) = strip s.
Proof.
  unfold strip. by rewrite lstrip_rstrip, lstrip_idem, rstrip_idem.
Qed.

Lemma strip_lower (s : string) : strip (lower s) = lower (strip s).
Proof. unfold strip. by rewrite lstrip_lower, rstrip_lower. Qed.

Lemma lstrip_length (s : string) : (String.length (lstrip s) <= String.length s)%nat.
Proof.
  induction s as [|c s IH]; simpl; [lia|]. destruct (is_space c); simpl; lia.
Qed.

Lemma rstrip_length (s : string) : (String.length (rstrip s) <= String.length s)%nat.
Proof.
  induction s as [|c s IH]; [simpl; lia|]. cbn [rstrip].
  destruct (all_space (String c s)); simpl; lia.
Qed.

Lemma validate_email_length (v : string) :
  (String.length (validate_email v) <= String.length v)%nat.
Proof.
  unfold validate_email. rewrite lower_length. unfold strip.
  pose proof (rstrip_length (lstrip v)). pose proof (lstrip_length v). lia.
Qed.

Lemma lower_ascii_small (c : ascii) :
  (nat_of_ascii c <? 128)%nat = true -> (nat_of_ascii (lower_ascii c) <? 128)%nat = true.
Proof.
  unfold lower_ascii, is_upper. intros Hc.
  destruct ((65 <=? nat_of_ascii c)%nat && (nat_of_ascii c <=? 90)%nat) eqn:Hu; [|done].
  apply andb_true_iff in Hu as [H65%Nat.leb_le H90%Nat.leb_le].
  rewrite nat_ascii_embedding by lia. apply Nat.ltb_lt. lia.
Qed.

Lemma isascii_lower (s : string) : isascii s = true -> isascii (lower s) = true.
Proof.
  induction s as [|c s IH]; simpl; [done|].
  intros [Hc Hs]%andb_true_iff. by rewrite (lower_ascii_small c Hc), IH.
Qed.

Lemma isascii_lstrip (s : string) : isascii s = true -> isascii (lstrip s) = true.
Proof.
  induction s as [|c s IH]; [done|]. cbn [lstrip].
  destruct (is_space c); [|done]. simpl. intros [_ Hs]%andb_true_iff. by apply IH.
Qed.

Lemma isascii_rstrip (s : string) : isascii s = true -> isascii (rstrip s) = true.
Proof.
  induction s as [|c s IH]; [done|]. cbn [rstrip].
  destruct (all_space (String c s)); [done|].
  simpl. intros [-> Hs]%andb_true_iff. by apply IH.
Qed.

Lemma isascii_validate_email (v : string) :
  isascii v = true -> isascii (validate_email v) = true.
Proof.
  intros Hv. by apply isascii_lower, isascii_rstrip, isascii_lstrip.
Qed.

(** X13: on an ASCII label, the sanitizer [validate_email] is idempotent;
    its result is ASCII again, is left unchanged by trimming and by
    lower-casing, and is never longer than the label. *)
Theorem X13_validate_email_normal_form (v : string) :
  isascii v = true ->
  validate_email (validate_email v) = validate_email v /\
  strip (validate_email v) = validate_email v /\
  lower (validate_email v) = validate_email v /\
  isascii (validate_email v) = true /\
  (String.length (validate_email v) <= String.length v)%nat.
Proof.
  intros Hv. split; [|split; [|split; [|split]]].
  - unfold validate_email. by rewrite strip_lower, lower_idem, strip_idem.
  - unfold validate_email. by rewrite strip_lower, strip_idem.
  - apply lower_idem.
  - by apply isascii_validate_email.
  - apply (validate_email_length v).
Qed.

Lemma X13_validate_email_witness :
  validate_email (validate_email "  Alice ") = validate_email "  Alice ".
Proof.
  exact (proj1 (X13_validate_email_normal_form "  Alice " eq_refl)).
Defined.

(** X14: on an ASCII label, the request model checks the length bounds on
    the label as given and sanitizes afterwards: a label is accepted exactly
    when it has 3 to 100 characters, its stored form is the sanitized one,
    which is ASCII and may be shorter than 3; a label of 3 to 100 whitespace
    characters is accepted and stored as the empty string. *)
Theorem X14_length_is_checked_before_sanitizing (v : string) :
  isascii v = true ->
  (forall pc, ProfileCreate_new v = Ok pc ->
     (3 <= String.length v <= 100)%nat /\
     pc_email pc = validate_email v /\
     isascii (pc_email pc) = true /\
     (String.length (pc_email pc) <= String.length v)%nat) /\
  ((3 <= String.length v <= 100)%nat ->
   exists pc, ProfileCreate_new v = Ok pc /\ pc_email pc = validate_email v) /\
  ((3 <= String.length v <= 100)%nat -> all_space v = true ->
   ProfileCreate_new v = Ok (mkProfileCreate "" (Some VLESS_REALITY))).
Proof.
  intros Hv. unfold ProfileCreate_new. split; [|split].
  - intros pc.
    destruct (Nat.ltb_spec (String.length v) 3); [discriminate|].
    destruct (Nat.ltb_spec 100 (String.length v)); [discriminate|].
    simpl. intros [= <-]. simpl. split; [lia|]. split; [done|].
    split; [by apply isascii_validate_email|].
    apply validate_email_length.
  - intros [H3 H100].
    destruct (Nat.ltb_spec (String.length v) 3); [lia|].
    destruct (Nat.ltb_spec 100 (String.length v)); [lia|].
    simpl. by eexists.
  - intros [H3 H100] Hsp.
    destruct (Nat.ltb_spec (String.length v) 3); [lia|].
    destruct (Nat.ltb_spec 100 (String.length v)); [lia|].
    simpl. unfold validate_email, strip.
    by rewrite (lstrip_all_space _ Hsp).
Qed.

Lemma X14_length_witness :
  ProfileCreate_new "       " = Ok (mkProfileCreate "" (Some VLESS_REALITY)).
Proof.
  apply (proj2 (proj2 (X14_length_is_checked_before_sanitizing "       " eq_refl))).
  - simpl. lia.
  - reflexivity.
Defined.

(** ** Transport and security *)

Lemma eq_str_true (v : json) (s : string) : eq_str v s = true <-> v = JStr s.
Proof.
  destruct v; simpl; try (split; [discriminate|intros [=]]).
  rewrite String.eqb_eq. split; [by intros ->|by intros [= ->]].
Qed.

Lemma TransportType_of_value (v : json) (t : TransportType) :
  TransportType_of v = Ok t <-> v = JStr (TransportType_value t).
Proof.
  split.
  - unfold TransportType_of.
    repeat match goal with
           | |- context [eq_str v ?s] =>
               let E := fresh "E" in
               destruct (eq_str v s) eqn:E;
               [apply eq_str_true in E as ->; by intros [= <-]|]
           end.
    discriminate.
  - intros ->. by destruct t.
Qed.

Lemma SecurityType_of_value (v : json) (t : SecurityType) :
  SecurityType_of v = Ok t <-> v = JStr (SecurityType_value t).
Proof.
  split.
  - unfold SecurityType_of.
    repeat match goal with
           | |- context [eq_str v ?s] =>
               let E := fresh "E" in
               destruct (eq_str v s) eqn:E;
               [apply eq_str_true in E as ->; by intros [= <-]|]
           end.
    discriminate.
  - intros ->. by destruct t.
Qed.

(** X15: for an inbound whose stream settings are absent or an object, the
    transport detected is the member whose wire value is the [network] field
    (absent: [tcp]) and the security detected the member whose wire value is
    the [security] field (absent: [none]); with any other value of the field
    detection raises [ValueError]. *)
Theorem X15_transport_and_security_by_wire_value
    (d ss : list (string * json)) :
  py_get (JDict d) "streamSettings" (JDict []) = Ok (JDict ss) ->
  (forall t, _detect_transport (JDict d) = Ok t
             <-> default (JStr "tcp") (assoc "network" ss) = JStr (TransportType_value t)) /\
  (forall t, _detect_security (JDict d) = Ok t
             <-> default (JStr "none") (assoc "security" ss) = JStr (SecurityType_value t)) /\
  (forall e, _detect_transport (JDict d) = Err e ->
             e = ValueError "is not a valid TransportType") /\
  (forall e, _detect_security (JDict d) = Err e ->
             e = ValueError "is not a valid SecurityType").
Proof.
  intros Hss. unfold _detect_transport, _detect_security. rewrite Hss.
  cbn [rbind py_get]. split; [|split; [|split]].
  - intros t. apply TransportType_of_value.
  - intros t. apply SecurityType_of_value.
  - intros e. unfold TransportType_of.
    repeat match goal with |- context [if ?b then _ else _] => destruct b end;
      try discriminate. by intros [= <-].
  - intros e. unfold SecurityType_of.
    repeat match goal with |- context [if ?b then _ else _] => destruct b end;
      try discriminate. by intros [= <-].
Qed.

Lemma X15_transport_witness :
  _detect_transport (JDict [("protocol", JStr "vless")]) = Ok TCP.
Proof.
  apply (proj1 (X15_transport_and_security_by_wire_value
                  [("protocol", JStr "vless")] [] eq_refl) TCP).
  reflexivity.
Defined.

(** X16: the three [vless] classifications against transport and security.
    An inbound classified [vless_xhttp] has transport [xhttp] whenever its
    transport can be detected at all, and never security [reality];
    [vless_ws] is the remaining case: it excludes transport [xhttp] and
    security [reality], but does not require transport [ws]. *)
Theorem X16_vless_classes_against_transport (inbound : json) :
  (_detect_protocol inbound = Ok VLESS_XHTTP ->
   _detect_transport inbound = Ok XHTTP /\
   _detect_security inbound <> Ok REALITY) /\
  (_detect_protocol inbound = Ok VLESS_WS ->
   _detect_transport inbound <> Ok XHTTP /\
   _detect_security inbound <> Ok REALITY).
Proof.
  unfold _detect_protocol, _detect_transport, _detect_security.
  destruct (py_get inbound "protocol" (JStr "")) as [p|]; simpl;
    [|split; discriminate].
  destruct (py_lower p) as [protocol|]; simpl; [|split; discriminate].
  destruct (py_get inbound "streamSettings" (JDict [])) as [ss|]; simpl;
    [|split; discriminate].
  destruct (py_get ss "security" (JStr "none")) as [security|]; simpl;
    [|split; discriminate].
  destruct (py_get ss "network" (JStr "tcp")) as [network|]; simpl;
    [|split; discriminate].
  destruct (String.eqb protocol "vless");
    [|split; repeat match goal with |- context [if ?b then _ else _] => destruct b end;
      discriminate].
  destruct (eq_str security "reality") eqn:Hsec; [split; discriminate|].
  assert (Hnr : SecurityType_of security <> Ok REALITY).
  { intros H%SecurityType_of_value. simpl in H. subst. discriminate. }
  destruct (eq_str network "xhttp") eqn:Hnet.
  - split; [|discriminate]. intros _. split; [|done].
    apply eq_str_true in Hnet as ->. reflexivity.
  - split; [discriminate|]. intros _. split; [|done].
    intros H%TransportType_of_value. simpl in H. subst. discriminate.
Qed.

Lemma X16_vless_classes_witness :
  _detect_transport
    (JDict [("protocol", JStr "vless");
            ("streamSettings", JDict [("network", JStr "xhttp")])]) = Ok XHTTP.
Proof.
  apply (proj1 (X16_vless_classes_against_transport
                  (JDict [("protocol", JStr "vless");
                          ("streamSettings", JDict [("network", JStr "xhttp")])]))
           eq_refl).
Defined.

(** ** Inbounds classified by default *)

(** X17: an inbound without stream settings whose protocol (lower-cased) is
    none of [vless], [vmess], [trojan] is classified [vless_reality] by
    default, and for such an inbound no profile can be built: for every client
    entry with an [id], building the profile raises [KeyError] on
    [streamSettings], changing nothing. *)
Theorem X17_default_classification_cannot_be_listed
    (env : Env) (d : list (string * json)) (p : string) :
  py_get (JDict d) "protocol" (JStr "") = Ok (JStr p) ->
  assoc "streamSettings" d = None ->
  lower p <> "vless" -> lower p <> "vmess" -> lower p <> "trojan" ->
  _detect_protocol (JDict d) = Ok VLESS_REALITY /\
  forall client server_ip port transport security w,
    is_client client ->
    _build_profile_response env client (JDict d) server_ip port VLESS_REALITY
      transport security w
    = (Raise (KeyError "streamSettings"), w).
Proof.
  intros Hp Hss Hv Hm Ht. split.
  - unfold _detect_protocol. rewrite Hp. cbn [rbind py_lower py_get]. rewrite Hss.
    cbn [default rbind py_get assoc].
    destruct (String.eqb_spec (lower p) "vless"); [contradiction|].
    destruct (String.eqb_spec (lower p) "vmess"); [contradiction|].
    destruct (String.eqb_spec (lower p) "trojan"); [contradiction|]. reflexivity.
  - intros client server_ip port transport security w [cid Hcid].
    unfold _build_profile_response.
    rewrite (bind_return _ _ _ cid _ (lift_ok _ _ _ Hcid)).
    destruct client as [| | | | | |cd]; try discriminate.
    unfold bind at 1, lift at 1, py_get at 1, ret at 1.
    apply bind_raise. apply lift_err.
    unfold _generate_connection_link, py_getitem. by rewrite Hss.
Qed.

Lemma X17_default_classification_witness :
  _detect_protocol (JDict [("protocol", JStr "shadowsocks"); ("port", JInt 8388)])
  = Ok VLESS_REALITY.
Proof.
  apply (X17_default_classification_cannot_be_listed (sample_env [])
           [("protocol", JStr "shadowsocks"); ("port", JInt 8388)] "shadowsocks"
           eq_refl eq_refl); discriminate.
Defined.

(** ** System info *)

(** X18: when the proxy binary cannot be run, system info raises at the
    version query, before anything else is done: there is no fallback to
    [unknown] in that case. When the congestion-control query cannot be run,
    system info goes on with BBR reported as off; and in every answer the BBR
    flag says whether [bbr] occurs in the output of that query. *)
Theorem X18_system_info_probes (env : Env) (self : ConfigManager) (w : World) :
  (xray_version_stdout env = None ->
   get_system_info env self w
   = (Raise (OSError "cannot execute"), log (Exec [xray_binary; "version"]) w)) /\
  (forall info w',
     get_system_info env self w = (Return info, w') ->
     bbr_enabled info = match sysctl_stdout env with
                        | Some out => contains "bbr" out
                        | None => false
                        end /\
     os_name info = platform_system env /\
     os_version info = platform_release env /\
     kernel_version info = platform_version env /\
     dashboard_version info = "1.0.0" /\
     exists content config inbound,
       fs w !! config_path self = Some content /\
       json_loads env content = Some config /\
       first_inbound config = Ok inbound /\
       _detect_protocol inbound = Ok (active_protocol info)).
Proof.
  split.
  - intros Hv. unfold get_system_info, bind at 1, exec. by rewrite Hv.
  - intros info w'. unfold get_system_info.
    intros (stdout & w1 & Hexec & H)%bind_inv.
    apply bind_inv in H as (version & w2 & Hver & H).
    apply bind_inv in H as (pyv & w3 & Hpy & H).
    apply bind_inv in H as (bbr & w4 & Hbbr & H).
    apply bind_inv in H as (config & w5 & Hread & H).
    apply bind_inv in H as (inbound & w6 & Hin & H).
    apply bind_inv in H as (protocol & w7 & Hpt & H).
    injection H as <- <-. simpl.
    assert (Hfs : fs w4 = fs w).
    { unfold exec in Hexec. destruct (xray_version_stdout env); [|discriminate].
      injection Hexec as _ <-.
      unfold lift in Hver, Hpy.
      destruct (parse_xray_version stdout); [|discriminate]. injection Hver as _ <-.
      destruct (py_split (sys_version env)); [discriminate|]. injection Hpy as _ <-.
      unfold _check_bbr, try_except, bind, exec in Hbbr.
      destruct (sysctl_stdout env); by injection Hbbr as _ <-. }
    split.
    { unfold _check_bbr, try_except, bind, exec in Hbbr.
      destruct (sysctl_stdout env); by injection Hbbr as <- _. }
    repeat split.
    destruct (fs w4 !! config_path self) as [content|] eqn:Hfile.
    + rewrite (read_config_present env self w4 content Hfile) in Hread.
      destruct (json_loads env content) as [config'|] eqn:Hloads; [|discriminate].
      injection Hread as -> <-.
      exists content, config, inbound. rewrite <- Hfs. repeat split; try done.
      * unfold lift in Hin. destruct (first_inbound config); [|discriminate].
        by injection Hin as ->.
      * unfold lift in Hpt. destruct (_detect_protocol inbound); [|discriminate].
        by injection Hpt as ->.
    + rewrite (read_config_absent env self w4 Hfile) in Hread. discriminate.
Qed.

Lemma X18_system_info_witness :
  (get_system_info (sample_env_without_binary [sample_doc]) default_manager
     (sample_installed false)).1
  = Raise (OSError "cannot execute").
Proof.
  by rewrite (proj1 (X18_system_info_probes (sample_env_without_binary [sample_doc])
                       default_manager (sample_installed false)) eq_refl).
Defined.

(** ** Service restart *)

(** X19: the outcome of the service restart is not surfaced: the answers of
    the create, delete and restore handlers, and the state they leave, are the
    same whether the restart reports success or failure. *)
Theorem X19_restart_outcome_is_not_surfaced
    (env : Env) (self : ConfigManager) (ip : res string) (supply : nat -> string)
    (b1 b2 : bool) (w : World) :
  (forall email,
     create_profile_handler env (mkUtils ip supply b1) self email w
     = create_profile_handler env (mkUtils ip supply b2) self email w) /\
  (forall profile_id,
     delete_profile_handler env (mkUtils ip supply b1) self profile_id w
     = delete_profile_handler env (mkUtils ip supply b2) self profile_id w) /\
  (forall backup_file,
     restore_backup_handler env (mkUtils ip supply b1) self backup_file w
     = restore_backup_handler env (mkUtils ip supply b2) self backup_file w).
Proof.
  split; [|split].
  - intros email. unfold create_profile_handler, try_except, bind.
    change (create_profile env (mkUtils ip supply b1) self email)
      with (create_profile env (mkUtils ip supply b2) self email).
    by destruct (create_profile env (mkUtils ip supply b2) self email w) as [[?|?|] ?].
  - intros profile_id. unfold delete_profile_handler, try_except, bind.
    by destruct (delete_profile env self profile_id w) as [[[]|?|] ?].
  - intros backup_file. unfold restore_backup_handler, except_exception, bind.
    by destruct (restore_backup env self backup_file w) as [[[]|?|] ?].
Qed.

(** ** A malformed client entry *)

Lemma filter_clients_err (profile_id : string) (before after : list json)
    (bad : json) (e : exn) :
  Forall is_client before ->
  py_getitem bad "id" = Err e ->
  filter_clients profile_id (before ++ bad :: after) = Err e.
Proof.
  intros Hb Hbad. induction Hb as [|c before [cid Hc] _ IH]; simpl.
  - by rewrite Hbad.
  - by rewrite Hc, IH.
Qed.

(** X20: one client entry without an [id] (or one that is not an object)
    makes every deletion fail, whatever identifier is asked for: the error of
    the first such entry is raised, nothing is written, and the handler
    answers 500, also when the identifier asked for is carried by another
    entry. *)
Theorem X20_malformed_entry_blocks_deletion
    (env : Env) (utils : Utils) (self : ConfigManager)
    (profile_id content : string) (config : json)
    (before after : list json) (bad : json) (e : exn) (w : World) :
  lock_held w = false ->
  fs w !! config_path self = Some content ->
  json_loads env content = Some config ->
  first_inbound_clients config = Ok (JList (before ++ bad :: after)) ->
  Forall is_client before ->
  py_getitem bad "id" = Err e ->
  exists w',
    delete_profile env self profile_id w = (Raise e, w') /\
    fs w' = fs w /\
    lock_held w' = false /\
    (delete_profile_handler env utils self profile_id w).1
    = Return (HTTPException 500%nat (Some e)).
Proof.
  intros Hl Hfile Hloads Hcl Hb Hbad.
  pose proof Hcl as (cd & ind & rest & sd & -> & Hi & Hs & Hc)%first_inbound_clients_shape.
  assert (Hrun : delete_profile env self profile_id w
                 = (Raise e, set_lock false (config_read self (set_lock true w)))).
  { unfold delete_profile, with_lock. rewrite Hl.
    unfold bind at 1.
    rewrite (read_config_present env self (set_lock true w) content Hfile), Hloads.
    unfold bind, lift, first_inbound, py_getitem, ret, raise. simpl.
    rewrite Hi. simpl. rewrite Hs. simpl. rewrite <- Hc. simpl.
    by rewrite (filter_clients_err profile_id before after bad e Hb Hbad). }
  eexists. split; [exact Hrun|]. split; [reflexivity|]. split; [reflexivity|].
  unfold delete_profile_handler, try_except, bind. by rewrite Hrun.
Qed.

Lemma X20_malformed_entry_witness :
  (delete_profile (sample_env [sample_config [sample_client "U" "alice"; JDict []]])
     default_manager "U"
     (sample_world [(config_path default_manager,
                     render (sample_config [sample_client "U" "alice"; JDict []]))] false)).1
  = Raise (KeyError "id").
Proof.
  destruct (X20_malformed_entry_blocks_deletion
              (sample_env [sample_config [sample_client "U" "alice"; JDict []]])
              sample_utils default_manager "U"
              (render (sample_config [sample_client "U" "alice"; JDict []]))
              (sample_config [sample_client "U" "alice"; JDict []])
              [sample_client "U" "alice"] [] (JDict []) (KeyError "id")
              (sample_world [(config_path default_manager,
                              render (sample_config [sample_client "U" "alice"; JDict []]))]
                            false)
              eq_refl eq_refl eq_refl eq_refl
              ltac:(repeat constructor; by eexists) eq_refl)
    as (w' & Hrun & _).
  by rewrite Hrun.
Defined.

(** ** What a store of the client list leaves alone *)

Lemma assoc_dict_set_ne (k k' : string) (v : json) (d : list (string * json)) :
  k' <> k -> assoc k' (dict_set k v d) = assoc k' d.
Proof.
  intros Hne. induction d as [|[k0 v0] d IH]; simpl.
  - destruct (String.eqb_spec k k'); [congruence|done].
  - destruct (String.eqb_spec k0 k) as [->|Hk]; simpl.
    + destruct (String.eqb_spec k k'); [congruence|done].
    + by rewrite IH.
Qed.

Lemma dict_set_keys (k : string) (v v0 : json) (d : list (string * json)) :
  assoc k d = Some v0 -> map fst (dict_set k v d) = map fst d.
Proof.
  induction d as [|[k0 v1] d IH]; simpl; [discriminate|].
  destruct (String.eqb k0 k); [done|]. intros H. simpl. by rewrite IH.
Qed.

(** What [set_clients] leaves alone. *)
Lemma set_clients_frame (config config' v inbound : json) :
  set_clients config v = Ok config' ->
  first_inbound config = Ok inbound ->
  exists (cd cd' : list (string * json)) (inbound' : json) (rest : list json),
    config = JDict cd /\ config' = JDict cd' /\
    map fst cd' = map fst cd /\
    (forall k, k <> "inbounds" -> assoc k cd' = assoc k cd) /\
    assoc "inbounds" cd = Some (JList (inbound :: rest)) /\
    assoc "inbounds" cd' = Some (JList (inbound' :: rest)) /\
    first_inbound config' = Ok inbound' /\
    (forall k, k <> "settings" -> py_getitem inbound' k = py_getitem inbound k) /\
    _detect_protocol inbound' = _detect_protocol inbound /\
    _detect_transport inbound' = _detect_transport inbound /\
    _detect_security inbound' = _detect_security inbound /\
    first_inbound_clients config' = Ok v.
Proof.
  intros Hset Hin. pose proof (first_inbound_clients_set _ _ _ Hset) as Hcl'.
  revert Hset Hin. unfold set_clients, first_inbound, py_getitem.
  destruct config as [| | | | | |cd]; try discriminate.
  destruct (assoc "inbounds" cd) as [[| | | | |[|[| | | | | |ind] rest]|]|] eqn:Hi;
    try discriminate.
  destruct (assoc "settings" ind) as [[| | | | | |sd]|] eqn:Hs; try discriminate.
  intros [= <-]. simpl. intros [= <-].
  eexists cd, _, _, rest. split; [done|]. split; [done|].
  split; [by eapply dict_set_keys|].
  split; [intros k Hk; by apply assoc_dict_set_ne|].
  split; [done|]. split; [apply assoc_dict_set|].
  split; [by rewrite assoc_dict_set|].
  assert (Hother : forall k, k <> "settings" ->
            assoc k (dict_set "settings" (JDict (dict_set "clients" v sd)) ind)
            = assoc k ind).
  { intros k Hk. by apply assoc_dict_set_ne. }
  split; [intros k Hk; simpl; by rewrite Hother|].
  unfold _detect_protocol, _detect_transport, _detect_security, py_get.
  rewrite !Hother by discriminate. done.
Qed.

(** The shape of a deletion that returned [True]. *)
Lemma delete_profile_inv (env : Env) (self : ConfigManager) (profile_id : string)
    (w w' : World) :
  delete_profile env self profile_id w = (Return true, w') ->
  exists content config inbound clients items kept config',
    fs w !! config_path self = Some content /\
    json_loads env content = Some config /\
    first_inbound config = Ok inbound /\
    first_inbound_clients config = Ok clients /\
    py_iter clients = Ok items /\
    filter_clients profile_id items = Ok kept /\
    set_clients config (JList kept) = Ok config' /\
    fs w' !! config_path self = Some (json_dumps env (Some 2%nat) config').
Proof.
  unfold delete_profile, with_lock.
  destruct (lock_held w) eqn:Hl; [discriminate|].
  unfold bind at 1.
  destruct (fs w !! config_path self) as [content|] eqn:Hfile.
  2: { rewrite (read_config_absent env self (set_lock true w) Hfile). discriminate. }
  rewrite (read_config_present env self (set_lock true w) content Hfile).
  destruct (json_loads env content) as [config|] eqn:Hloads; [|discriminate].
  unfold bind at 1, lift at 1.
  destruct (first_inbound config) as [inbound|] eqn:Hin; [|discriminate].
  unfold ret at 1, bind at 1, lift at 1.
  destruct (py_getitem inbound "settings") as [settings|] eqn:Hset; [|discriminate].
  unfold ret at 1, bind at 1, lift at 1.
  destruct (py_get settings "clients" (JList [])) as [clients|] eqn:Hcl; [|discriminate].
  unfold ret at 1, bind at 1, lift at 1.
  destruct (py_len clients) as [original_count|] eqn:Hlen; [|discriminate].
  unfold ret at 1, bind at 1, lift at 1.
  destruct (py_iter clients) as [items|] eqn:Hit; [|discriminate].
  unfold ret at 1, bind at 1, lift at 1.
  destruct (filter_clients profile_id items) as [kept|] eqn:Hkept; [|discriminate].
  unfold ret at 1.
  destruct (length kept =? original_count)%nat; [discriminate|].
  unfold bind at 1, lift at 1.
  destruct (set_clients config (JList kept)) as [config'|] eqn:Hcfg; [|discriminate].
  unfold ret at 1, bind at 1.
  match goal with |- context [_write_config env self config' ?w2] =>
    destruct (write_config_cases env self config' w2)
      as [(temp_path & Hv & Htmp & ->)|[e ->]]; [|discriminate]
  end.
  unfold ret. intros [= <-].
  exists content, config, inbound, clients, items, kept, config'.
  unfold first_inbound_clients. rewrite Hin. simpl. rewrite Hset. simpl.
  repeat split; try done. simpl. apply lookup_insert_eq.
Qed.

(** X21: the document persisted by a profile creation that returns, or by a
    deletion that returns [True], differs from the document read only in the
    client list of the first inbound: the top-level keys are the same in the
    same order, every top-level value other than [inbounds] is unchanged, the
    inbounds after the first are unchanged, and the first inbound keeps every
    field other than [settings], hence its port, classification, transport and
    security. *)
Theorem X21_profile_writes_change_only_the_client_list
    (env : Env) (utils : Utils) (self : ConfigManager) (w w' : World) :
  (exists email p, create_profile env utils self email w = (Return p, w')) \/
  (exists profile_id, delete_profile env self profile_id w = (Return true, w')) ->
  exists content (cd cd' : list (string * json)) (inbound inbound' : json)
         (rest : list json),
    fs w !! config_path self = Some content /\
    json_loads env content = Some (JDict cd) /\
    fs w' !! config_path self = Some (json_dumps env (Some 2%nat) (JDict cd')) /\
    map fst cd' = map fst cd /\
    (forall k, k <> "inbounds" -> assoc k cd' = assoc k cd) /\
    assoc "inbounds" cd = Some (JList (inbound :: rest)) /\
    assoc "inbounds" cd' = Some (JList (inbound' :: rest)) /\
    (forall k, k <> "settings" -> py_getitem inbound' k = py_getitem inbound k) /\
    _detect_protocol inbound' = _detect_protocol inbound /\
    _detect_transport inbound' = _detect_transport inbound /\
    _detect_security inbound' = _detect_security inbound.
Proof.
  intros H.
  assert (exists content config config' v inbound,
             fs w !! config_path self = Some content /\
             json_loads env content = Some config /\
             fs w' !! config_path self = Some (json_dumps env (Some 2%nat) config') /\
             set_clients config v = Ok config' /\
             first_inbound config = Ok inbound)
    as (content & config & config' & v & inbound & Hfile & Hloads & Hfs & Hset & Hin).
  { destruct H as [(email & p & Hrun)|(profile_id & Hrun)].
    - apply create_profile_inv in Hrun
        as (content & config & inbound & settings & clients & config' & temp_path & _
            & Hfile & Hloads & Hin & _ & _ & _ & Hset & _ & _ & Hfs & _).
      by eexists content, config, config', _, inbound.
    - apply delete_profile_inv in Hrun
        as (content & config & inbound & clients & items & kept & config' & Hfile
            & Hloads & Hin & _ & _ & _ & Hset & Hfs).
      by eexists content, config, config', _, inbound. }
  destruct (set_clients_frame config config' v inbound Hset Hin)
    as (cd & cd' & inbound' & rest & -> & -> & Hkeys & Htop & Hi & Hi' & _ & Hfields
        & Hpt & Htr & Hsec & _).
  by exists content, cd, cd', inbound, inbound', rest.
Qed.

Lemma X21_profile_writes_witness :
  exists cd', fs (delete_profile (sample_env [sample_doc]) default_manager "U"
                    (sample_installed false)).2 !! config_path default_manager
              = Some (render (JDict cd')) /\
              map fst cd' = ["log"; "inbounds"; "outbounds"].
Proof.
  destruct (delete_profile (sample_env [sample_doc]) default_manager "U"
              (sample_installed false)) as [[[]|e|] w'] eqn:Hrun;
    [|by vm_compute in Hrun..].
  destruct (X21_profile_writes_change_only_the_client_list
              (sample_env [sample_doc]) sample_utils default_manager
              (sample_installed false) w' (or_intror (ex_intro _ "U" Hrun)))
    as (content & cd & cd' & inbound & inbound' & rest & Hfile & Hloads & Hfs & Hkeys & _).
  vm_compute in Hfile. injection Hfile as <-.
  vm_compute in Hloads. injection Hloads as <-.
  exists cd'. split; [exact Hfs|exact Hkeys].
Defined.

(** ** Deleting twice *)

(** X22: deletion is idempotent on the document. After a deletion that
    succeeded, if the persisted text reads back as the document written, a
    second deletion of the same identifier finds nothing: it returns [False],
    writes nothing, and the handler answers 404. *)
Theorem X22_second_deletion_finds_nothing
    (env : Env) (utils : Utils) (self : ConfigManager)
    (profile_id content temp_path stderr : string) (config config' : json)
    (clients : list json) (w : World) :
  lock_held w = false ->
  fs w !! config_path self = Some content ->
  json_loads env content = Some config ->
  first_inbound_clients config = Ok (JList clients) ->
  Forall is_client clients ->
  Exists (fun c => has_id profile_id c = true) clients ->
  set_clients config (JList (List.filter (fun c => negb (has_id profile_id c)) clients))
  = Ok config' ->
  xray_test env (Some (json_dumps env None config')) = Some (0, stderr) ->
  with_suffix (config_path self) ".tmp" = Ok temp_path ->
  json_loads env (json_dumps env (Some 2%nat) config') = Some config' ->
  exists w1 w2,
    delete_profile env self profile_id w = (Return true, w1) /\
    delete_profile env self profile_id w1 = (Return false, w2) /\
    fs w2 = fs w1 /\
    (delete_profile_handler env utils self profile_id w1).1
    = Return (HTTPException 404%nat None).
Proof.
  intros Hl Hfile Hloads Hcl Hall Hsome Hset Hok Htmp Hround.
  set (kept := List.filter (fun c => negb (has_id profile_id c)) clients) in *.
  pose proof (delete_profile_run env self profile_id content config clients w
                Hl Hfile Hloads Hcl Hall) as Hrun1.
  cbn zeta in Hrun1. fold kept in Hrun1.
  assert (Hlt : (length kept < length clients)%nat).
  { apply filter_some_dropped. eapply Exists_impl; [exact Hsome|]. by intros c ->. }
  destruct (Nat.eqb_spec (length kept) (length clients)) as [Heq|_]; [lia|].
  rewrite Hset in Hrun1.
  rewrite (write_config_accepted env self config' _ temp_path
             (verdict_zero env config' stderr Hok) Htmp) in Hrun1.
  match type of Hrun1 with _ = (_, ?w) => set (w1 := w) in * end.
  assert (Hkept_clients : Forall is_client kept).
  { apply Forall_forall. intros c Hc%list_elem_of_In%filter_In.
    rewrite Forall_forall in Hall. apply Hall, list_elem_of_In, Hc. }
  assert (Hkept_none : Forall (fun c => has_id profile_id c = false) kept).
  { apply Forall_forall. intros c Hc%list_elem_of_In%filter_In.
    destruct Hc as [_ Hc]. by destruct (has_id profile_id c). }
  pose proof (delete_profile_run env self profile_id _ config' kept w1
                eq_refl (lookup_insert_eq _ _ _) Hround
                (first_inbound_clients_set _ _ _ Hset) Hkept_clients) as Hrun2.
  cbn zeta in Hrun2.
  rewrite filter_all_kept, Nat.eqb_refl in Hrun2
    by (eapply Forall_impl; [exact Hkept_none|]; by intros c ->).
  exists w1. eexists. split; [exact Hrun1|]. split; [exact Hrun2|].
  split; [reflexivity|].
  unfold delete_profile_handler, try_except, bind. by rewrite Hrun2.
Qed.

Lemma X22_second_deletion_witness :
  (delete_profile (sample_env [sample_doc; sample_config []]) default_manager "U"
     (delete_profile (sample_env [sample_doc; sample_config []]) default_manager "U"
        (sample_installed false)).2).1
  = Return false.
Proof.
  destruct (X22_second_deletion_finds_nothing
              (sample_env [sample_doc; sample_config []]) sample_utils default_manager
              "U" (render sample_doc) "/usr/local/etc/xray/config.tmp" ""
              sample_doc (sample_config []) [sample_client "U" "alice"]
              (sample_installed false)
              eq_refl eq_refl eq_refl eq_refl
              ltac:(repeat constructor; by eexists) ltac:(by constructor)
              eq_refl eq_refl eq_refl eq_refl)
    as (w1 & w2 & Hrun1 & Hrun2 & _).
  rewrite Hrun1. cbn [snd]. rewrite Hrun2. reflexivity.
Defined.
